(** * Editing-pattern analysis: a shallow embedding and its properties

    The development follows the two Python servers of the repository:

    - [Resolve]  embeds [davinci_resolve_mcp.py]: the timeline cut analysis
      of [ResolveEditingTracker.analyze_cut_patterns], the tool-usage
      counters and the workflow suggestions of [handle_call_tool];
    - [Watcher]  embeds [editing_watcher.py]: the session log of
      [EditingBehaviorTracker] and the [track_cut] branch of its
      [handle_call_tool].

    Python values are modelled as follows.  Integers are [Z].  A number
    that need not be an integer is the rational it denotes, in [Q].  In
    [davinci_resolve_mcp.py] the durations are integers and the average is
    kept as the exact quotient of the integer sum and the count; the float
    Python holds is the binary64 number nearest to it, and the text printed
    from it is rendered through [binary64].  In [editing_watcher.py] the
    durations are JSON numbers: the quotient and [round] are binary64
    operations, and the builtin [sum], whose rounding on floats differs
    between interpreter versions, is a parameter of the analysis.
    Lists are [list], indexed with Python's rule for negative indices.
    Dictionaries are insertion-ordered association lists, because the code
    iterates over [items()].  A raised exception is the [Raise] case of
    [result].  The wall clock ([datetime.now().isoformat()]) is an explicit
    argument of every operation that reads it. *)

From Stdlib Require Import ZArith QArith Qround Qabs Lqa Sorted.
From stdpp Require Import base tactics option list sorting relations strings pretty.

Local Open Scope string_scope.
Local Open Scope list_scope.
Local Open Scope Z_scope.

(** ** The Python fragment the servers use *)

Module Py.

Inductive exn : Set :=
| IndexError
| KeyError
| TypeError
| ValueError
| ZeroDivisionError.

Inductive result (A : Type) : Type :=
| Ok (a : A)
| Raise (e : exn).
Arguments Ok {A} a.
Arguments Raise {A} e.

#[global] Instance result_ret : MRet result := λ A a, Ok a.
#[global] Instance result_bind : MBind result := λ A B f m,
  match m with
  | Ok a => f a
  | Raise e => Raise e
  end.

(** [len(l)] *)
Definition len {A} (l : list A) : Z := Z.of_nat (length l).

(** The position a list subscript [l[i]] denotes: [i] itself when
    [0 <= i < len l], [len l + i] when [-len l <= i < 0], and
    [IndexError] otherwise. *)
Definition index {A} (l : list A) (i : Z) : result nat :=
  if decide (0 ≤ i < len l) then Ok (Z.to_nat i)
  else if decide (- len l ≤ i < 0) then Ok (Z.to_nat (len l + i))
  else Raise IndexError.

(** [l[i]] *)
Definition getitem {A} (l : list A) (i : Z) : result A :=
  k ← index l i;
  match l !! k with
  | Some x => Ok x
  | None => Raise IndexError
  end.

(** [l[i]] is a mutable object and [f] mutates it in place. *)
Definition mutate_item {A} (l : list A) (i : Z) (f : A → A) : result (list A) :=
  k ← index l i;
  match l !! k with
  | Some x => Ok (<[k := f x]> l)
  | None => Raise IndexError
  end.

(** [sum(l)] over integers *)
Definition sum (l : list Z) : Z := fold_left Z.add l 0.

(** [min(l)] and [max(l)]: [ValueError] on an empty sequence. *)
Definition min (l : list Z) : result Z :=
  match l with
  | [] => Raise ValueError
  | x :: l' => Ok (fold_left Z.min l' x)
  end.

Definition max (l : list Z) : result Z :=
  match l with
  | [] => Raise ValueError
  | x :: l' => Ok (fold_left Z.max l' x)
  end.

(** Order and equality of rationals are decided on the cross products. *)
#[global] Instance Qlt_decision (x y : Q) : Decision (x < y)%Q :=
  decide (Qnum x * QDen y < Qnum y * QDen x).
#[global] Instance Qle_decision (x y : Q) : Decision (x <= y)%Q :=
  decide (Qnum x * QDen y ≤ Qnum y * QDen x).
#[global] Instance Qeq_decision (x y : Q) : Decision (x == y)%Q :=
  decide (Qnum x * QDen y = Qnum y * QDen x).

(** [a / b]: the exact quotient, [ZeroDivisionError] when [b] is zero.
    Integer operands are injected into the rationals. *)
Definition truediv (a b : Q) : result Q :=
  if decide (b == 0)%Q then Raise ZeroDivisionError else Ok (a / b)%Q.

(** A stable sort on an integer key: [list.sort(key=...)] and [sorted].
    An element is inserted in front of the first element whose key is
    not smaller, so equal keys keep their input order. *)
Section Sort.
Context {A : Type} (key : A → Z).

Fixpoint insert_by (x : A) (l : list A) : list A :=
  match l with
  | [] => [x]
  | y :: l' =>
      if decide (key x ≤ key y) then x :: y :: l'
      else y :: insert_by x l'
  end.

Fixpoint sort_by (l : list A) : list A :=
  match l with
  | [] => []
  | x :: l' => insert_by x (sort_by l')
  end.
End Sort.

Definition sorted (l : list Z) : list Z := sort_by id l.

(** Insertion-ordered dictionaries with string keys. *)
Definition dict (V : Type) : Type := list (string * V).

Fixpoint dict_lookup {V} (d : dict V) (k : string) : option V :=
  match d with
  | [] => None
  | (k', v) :: d' => if decide (k' = k) then Some v else dict_lookup d' k
  end.

(** [k in d] *)
Definition dict_in {V} (k : string) (d : dict V) : bool :=
  bool_decide (is_Some (dict_lookup d k)).

(** [d.get(k, dflt)] *)
Definition dict_get {V} (d : dict V) (k : string) (dflt : V) : V :=
  default dflt (dict_lookup d k).

(** [d[k]] *)
Definition dict_getitem {V} (d : dict V) (k : string) : result V :=
  match dict_lookup d k with
  | Some v => Ok v
  | None => Raise KeyError
  end.

(** [d[k] = v]: an existing key keeps its position, a new key goes last. *)
Fixpoint dict_set {V} (d : dict V) (k : string) (v : V) : dict V :=
  match d with
  | [] => [(k, v)]
  | (k', v') :: d' =>
      if decide (k' = k) then (k, v) :: d' else (k', v') :: dict_set d' k v
  end.

(** [for i, x in enumerate(l): s = body(s, i, x)], started at index [i]. *)
Fixpoint for_enumerate {A S} (body : S → Z → A → result S)
    (i : Z) (l : list A) (s : S) : result S :=
  match l with
  | [] => Ok s
  | x :: l' => s' ← body s i x; for_enumerate body (i + 1) l' s'
  end.

(** [for x in l: s = body(s, x)] *)
Fixpoint for_each {A S} (body : S → A → result S) (l : list A) (s : S)
    : result S :=
  match l with
  | [] => Ok s
  | x :: l' => s' ← body s x; for_each body l' s'
  end.

(** [int(q)]: truncation towards zero. *)
Definition int (q : Q) : Z :=
  if decide (0 <= q)%Q then Qfloor q else Qceiling q.

(** Rounding a rational to the nearest integer, ties to even: the rule
    of [round] and of the [.nf] format on the exact value. *)
Definition round_half_even (q : Q) : Z :=
  let f := Qfloor q in
  let r := (q - inject_Z f)%Q in
  if decide (r < 1 # 2)%Q then f
  else if decide (1 # 2 < r)%Q then f + 1
  else if Z.even f then f else f + 1.

(** A [float] is a binary64 number, here the rational it denotes.
    [binary64 q] is the float nearest to [q], ties to the even mantissa:
    53 bits of mantissa over the unit [2 ^ u], with [u] at least [-1074]
    (the subnormal range).  Values past the largest finite float, which
    Python turns into [inf] or [OverflowError], are outside the model. *)
Definition binary64 (q : Q) : Q :=
  if decide (q == 0)%Q then 0%Q
  else
    let a := Qabs q in
    let e0 := Z.log2 (Z.abs (Qnum q)) - Z.log2 (Zpos (Qden q)) in
    let e := if decide (a < 2 ^ e0)%Q then e0 - 1 else e0 in
    let u := Z.max (e - 52) (-1074) in
    let r := (inject_Z (round_half_even (a / 2 ^ u)) * 2 ^ u)%Q in
    if decide (q < 0)%Q then (- r)%Q else r.

(** [x / n] with a float result: the float nearest to the exact quotient
    (IEEE division is correctly rounded, and so is [int / int]). *)
Definition float_truediv (x n : Q) : result Q :=
  q ← truediv x n; mret (binary64 q).

(** [round(x, 2)] on the float [x]: the exact binary value is rounded to
    two decimals, ties to even, and the decimal is read back as a float.
    [round(1.015, 2)] is [1.01], the float [1.015] lying below the
    decimal. *)
Definition round2 (x : Q) : Q :=
  binary64 (inject_Z (round_half_even (x * 100)) / 100)%Q.

(** [f"{q:.1f}"] for the float nearest to [q]: its exact binary value is
    rounded to one decimal, ties to even, and the sign is that of the
    float. *)
Definition format_1f (q : Q) : string :=
  let x := binary64 q in
  let t := Z.abs (round_half_even (x * 10)) in
  (if decide (x < 0)%Q then "-" else "")
    +:+ pretty (t `div` 10) +:+ "." +:+ pretty (t `mod` 10).

(** ["\n".join(l)] *)
Fixpoint join_lines (l : list string) : string :=
  match l with
  | [] => ""
  | [s] => s
  | s :: l' => s +:+ "
" +:+ join_lines l'
  end.

(** [types.TextContent(type="text", text=...)] *)
Record TextContent : Type := { type : string; text : string }.

Definition text_content (s : string) : TextContent :=
  {| type := "text"; text := s |}.

End Py.

Import Py.

(** ** [davinci_resolve_mcp.py] *)

Module Resolve.

(** One entry of [timeline_data["clips"]]. *)
Record clip : Type := Clip {
  track_type : string;
  track_index : Z;
  start : Z;
  end_ : Z;
  duration : Z;
  name : string
}.

(** The dictionary [analyze_current_timeline] builds from the host. *)
Record timeline_data : Type := TimelineData {
  timeline_name : string;
  frame_rate : string;
  resolution : string;
  track_count : Z;
  timeline_duration : Z;
  clips : list clip
}.

(** What [analyze_current_timeline] returns: a dictionary with the single
    key ["error"], or the timeline data.  The host application is outside
    the program, so its answer is an input of the analysis. *)
Inductive timeline_reply : Type :=
| TimelineError (error : string)
| Timeline (t : timeline_data).

(** The statistics dictionary of [analyze_cut_patterns]. *)
Record cut_stats : Type := CutStats {
  total_cuts : Z;
  average_cut_length : Q;
  shortest_cut : Z;
  longest_cut : Z;
  cut_types : dict Z;
  median_cut_length : Z;
  editing_pace : string
}.

(** What [analyze_cut_patterns] returns: the host's error dictionary,
    [{"error": "No cuts found"}], or the statistics. *)
Inductive cut_patterns : Type :=
| Failure (error : string)
| Stats (s : cut_stats).

(** [cut_types[k] = cut_types.get(k, 0) + 1] *)
Definition count_cut (cut_types : dict Z) (k : string) : dict Z :=
  dict_set cut_types k (dict_get cut_types k 0 + 1).

(** The body of the loop over [enumerate(video_clips)]; the loop state is
    the pair [(cut_lengths, cut_types)]. *)
Definition clip_step (video_clips : list clip) (s : list Z * dict Z)
    (i : Z) (c : clip) : result (list Z * dict Z) :=
  let '(cut_lengths, cut_types) := s in
  let cut_lengths :=
    if decide (duration c > 0) then cut_lengths ++ [duration c]
    else cut_lengths in
  if decide (i > 0) then
    prev_clip ← getitem video_clips (i - 1);
    let gap := start c - end_ prev_clip in
    if decide (gap = 0) then mret (cut_lengths, count_cut cut_types "hard_cut")
    else if decide (gap > 0) then mret (cut_lengths, count_cut cut_types "gap")
    else mret (cut_lengths, count_cut cut_types "overlap")
  else mret (cut_lengths, cut_types).

(** The video clips of a snapshot, sorted by start. *)
Definition video_clips (t : timeline_data) : list clip :=
  sort_by start (filter (λ c, track_type c = "video") (clips t)).

(** The loop of [analyze_cut_patterns] from empty accumulators. *)
Definition scan_clips (vc : list clip) : result (list Z * dict Z) :=
  for_enumerate (clip_step vc) 0 vc ([], []).

(** The return statement guarded by [if cut_lengths:]. *)
Definition summarize (cut_lengths : list Z) (cut_types : dict Z)
    : result cut_patterns :=
  match cut_lengths with
  | [] => mret (Failure "No cuts found")
  | _ :: _ =>
      average ← truediv (inject_Z (sum cut_lengths)) (inject_Z (len cut_lengths));
      shortest ← min cut_lengths;
      longest ← max cut_lengths;
      median ← getitem (sorted cut_lengths) (len cut_lengths `div` 2);
      pace_average ← truediv (inject_Z (sum cut_lengths)) (inject_Z (len cut_lengths));
      mret (Stats {|
        total_cuts := len cut_lengths;
        average_cut_length := average;
        shortest_cut := shortest;
        longest_cut := longest;
        cut_types := cut_types;
        median_cut_length := median;
        editing_pace := if decide (pace_average < 120)%Q then "fast" else "slow"
      |})
  end.

Definition analyze_cut_patterns (reply : timeline_reply) : result cut_patterns :=
  match reply with
  | TimelineError e => mret (Failure e)
  | Timeline t =>
      let vc := video_clips t in
      '(cut_lengths, cut_types) ← scan_clips vc;
      summarize cut_lengths cut_types
  end.

(** *** The tracker and its persisted document *)

(** The [details] payloads the server attaches to an action. *)
Inductive details : Type :=
| ToolUsage (tool page timestamp : string)
| TimelineAnalysis (t : timeline_data)
| CutAnalysis (s : cut_stats).

Record action : Type := Action {
  timestamp : string;
  action_type : string;
  action_details : details
}.

Record session : Type := Session {
  start_time : string;
  actions : list action
}.

(** [self.patterns]; only [editing_sessions] and [tool_usage] are ever
    written. *)
Record patterns : Type := Patterns {
  editing_sessions : list session;
  cut_analysis : dict unit;
  color_patterns : dict unit;
  audio_patterns : dict unit;
  workflow_habits : dict unit;
  tool_usage : dict (dict Z)
}.

(** The tracker object together with the document stored at
    [self.data_file] ([None] while the file does not exist). *)
Record tracker : Type := Tracker {
  stored : option patterns;
  current : patterns
}.

Definition load_patterns (file : option patterns) : patterns :=
  match file with
  | Some p => p
  | None => Patterns [] [] [] [] [] []
  end.

(** [ResolveEditingTracker()] *)
Definition new_tracker (file : option patterns) : tracker :=
  {| stored := file; current := load_patterns file |}.

Definition save_patterns (tr : tracker) : tracker :=
  {| stored := Some (current tr); current := current tr |}.

Definition with_sessions (p : patterns) (l : list session) : patterns :=
  Patterns l (cut_analysis p) (color_patterns p) (audio_patterns p)
    (workflow_habits p) (tool_usage p).

Definition with_tool_usage (p : patterns) (u : dict (dict Z)) : patterns :=
  Patterns (editing_sessions p) (cut_analysis p) (color_patterns p)
    (audio_patterns p) (workflow_habits p) u.

Definition add_action (a : action) (s : session) : session :=
  {| start_time := start_time s; actions := actions s ++ [a] |}.

(** [now_action] and [now_session] are the two clock readings, in the
    order the method takes them. *)
Definition track_editing_action (tr : tracker) (now_action now_session : string)
    (kind : string) (d : details) : result tracker :=
  let a := Action now_action kind d in
  let sessions := editing_sessions (current tr) in
  let sessions :=
    match sessions with
    | [] => sessions ++ [Session now_session []]
    | _ :: _ => sessions
    end in
  sessions ← mutate_item sessions (-1) (add_action a);
  mret (save_patterns
          {| stored := stored tr; current := with_sessions (current tr) sessions |}).

(** The [track_tool_usage] branch of [handle_call_tool]. *)
Definition handle_track_tool_usage (tr : tracker)
    (now_tool now_action now_session : string) (tool_name page : string)
    : result (tracker * list TextContent) :=
  let tool_data := ToolUsage tool_name page now_tool in
  let usage := tool_usage (current tr) in
  let usage := if dict_in page usage then usage else dict_set usage page [] in
  tools ← dict_getitem usage page;
  let count := dict_get tools tool_name 0 + 1 in
  tools ← dict_getitem usage page;
  let usage := dict_set usage page (dict_set tools tool_name count) in
  let tr := {| stored := stored tr; current := with_tool_usage (current tr) usage |} in
  tr ← track_editing_action tr now_action now_session "tool_usage" tool_data;
  mret (tr, [text_content
               ("Tracked usage of " +:+ tool_name +:+ " in " +:+ page +:+ " page")]).

(** *** Workflow suggestions *)

Definition shortcut_suggestion (page tool : string) (count : Z) : string :=
  "Consider learning keyboard shortcuts for " +:+ tool +:+ " in " +:+ page
    +:+ " page (used " +:+ pretty count +:+ " times)".

Definition pace_suggestion : string :=
  "Your fast editing pace suggests using the Cut page for quicker edits".

Definition length_suggestion (avg_cut : Q) (label : string) : string :=
  "Your average cut length of " +:+ format_1f avg_cut +:+ " frames suggests "
    +:+ label +:+ " paced content".

Definition fallback_suggestion : string :=
  "Keep editing! I'll provide more specific suggestions as I learn your patterns.".

(** The two nested loops over [tool_usage.items()]. *)
Definition tool_suggestions (usage : dict (dict Z)) (suggestions : list string)
    : list string :=
  fold_left (λ suggestions '(page, tools),
    fold_left (λ suggestions '(tool, count),
      if decide (count > 10)
      then suggestions ++ [shortcut_suggestion page tool count]
      else suggestions) tools suggestions) usage suggestions.

(** The block guarded by ["error" not in timeline_patterns]. *)
Definition timeline_suggestions (timeline_patterns : cut_patterns)
    (suggestions : list string) : result (list string) :=
  match timeline_patterns with
  | Failure _ => mret suggestions
  | Stats s =>
      let suggestions :=
        if decide (editing_pace s = "fast") then suggestions ++ [pace_suggestion]
        else suggestions in
      let avg_cut := average_cut_length s in
      if decide (0 < avg_cut)%Q then
        label ← getitem ["quick"; "medium"; "slow"] (Z.min 2 (int (avg_cut / 100)));
        mret (suggestions ++ [length_suggestion avg_cut label])
      else mret suggestions
  end.

(** The list [suggestions] at the end of the [suggest_workflow_optimization]
    branch of [handle_call_tool]. *)
Definition suggest_workflow_optimization (tr : tracker) (reply : timeline_reply)
    : result (list string) :=
  let suggestions := tool_suggestions (tool_usage (current tr)) [] in
  timeline_patterns ← analyze_cut_patterns reply;
  suggestions ← timeline_suggestions timeline_patterns suggestions;
  match suggestions with
  | [] => mret (suggestions ++ [fallback_suggestion])
  | _ :: _ => mret suggestions
  end.

Definition bullet : string := "â€¢ ".

(** The value the branch returns. *)
Definition handle_suggest_workflow_optimization (tr : tracker)
    (reply : timeline_reply) : result (list TextContent) :=
  suggestions ← suggest_workflow_optimization tr reply;
  mret [text_content
          ("# Workflow Optimization Suggestions

" +:+ join_lines (map (λ suggestion, bullet +:+ suggestion) suggestions))].

End Resolve.

(** ** [editing_watcher.py] *)

Module Watcher.

(** The [details] payloads the server attaches to an action. *)
Inductive details : Type :=
| ProjectSave (file file_type : string) (size : Z)
| WorkflowStep (step : string) (duration_minutes : option Q).

Record action : Type := Action {
  timestamp : string;
  action_type : string;
  action_details : details
}.

(** The dictionary [cut_data] of the [track_cut] branch.  The optional
    arguments are read with [arguments.get], so the keys ["duration"] and
    ["reason"] are always present and hold [None] when the caller left
    them out. *)
Record cut : Type := Cut {
  cut_type : string;
  cut_duration : option Q;
  reason : option string;
  cut_timestamp : string
}.

Record session : Type := Session {
  project : string;
  start_time : string;
  actions : list action;
  cuts : list cut;
  exports : list string
}.

(** [self.patterns]; only [sessions] is ever written. *)
Record patterns : Type := Patterns {
  sessions : list session;
  cut_patterns : dict unit;
  timing_patterns : dict unit;
  workflow_sequences : list string;
  preferences : dict unit
}.

(** The tracker object together with the document stored at
    [self.data_file] ([None] while the file does not exist). *)
Record tracker : Type := Tracker {
  stored : option patterns;
  current : patterns
}.

Definition load_patterns (file : option patterns) : patterns :=
  match file with
  | Some p => p
  | None => Patterns [] [] [] [] []
  end.

(** [EditingBehaviorTracker()] *)
Definition new_tracker (file : option patterns) : tracker :=
  {| stored := file; current := load_patterns file |}.

Definition save_patterns (tr : tracker) : tracker :=
  {| stored := Some (current tr); current := current tr |}.

Definition with_sessions (tr : tracker) (l : list session) : tracker :=
  {| stored := stored tr;
     current := Patterns l (cut_patterns (current tr)) (timing_patterns (current tr))
                  (workflow_sequences (current tr)) (preferences (current tr)) |}.

Definition add_action (a : action) (s : session) : session :=
  Session (project s) (start_time s) (actions s ++ [a]) (cuts s) (exports s).

Definition add_cut (c : cut) (s : session) : session :=
  Session (project s) (start_time s) (actions s) (cuts s ++ [c]) (exports s).

Definition track_session_start (tr : tracker) (now : string)
    (project_path : string) : tracker * Z :=
  let s := Session project_path now [] [] [] in
  let tr := with_sessions tr (sessions (current tr) ++ [s]) in
  (tr, len (sessions (current tr)) - 1).

Definition track_action (tr : tracker) (now : string) (session_id : Z)
    (kind : string) (d : details) : result tracker :=
  if decide (session_id < len (sessions (current tr))) then
    l ← mutate_item (sessions (current tr)) session_id
           (add_action (Action now kind d));
    mret (save_patterns (with_sessions tr l))
  else mret tr.

(** The non-empty dictionary [analyze_cut_patterns] returns. *)
Record cut_analysis : Type := CutAnalysis {
  average_cut_length : Q;
  total_cuts : Z;
  cut_type_preferences : dict Z;
  suggested_cut_length : Q
}.

(** The body of the inner loop; the loop state is the pair
    [(cut_lengths, cut_frequencies)].  [None > 0] raises [TypeError]. *)
Definition cut_step (s : list Q * dict Z) (c : cut) : result (list Q * dict Z) :=
  let '(cut_lengths, cut_frequencies) := s in
  match cut_duration c with
  | None => Raise TypeError
  | Some length =>
      let cut_lengths :=
        if decide (0 < length)%Q then cut_lengths ++ [length] else cut_lengths in
      let cut_type := cut_type c in
      mret (cut_lengths,
            dict_set cut_frequencies cut_type (dict_get cut_frequencies cut_type 0 + 1))
  end.

(** The two nested loops over the sessions and their cuts. *)
Definition scan_cuts (l : list session) : result (list Q * dict Z) :=
  for_each (λ s session, for_each cut_step (cuts session) s) l ([], []).

Section Analysis.
(** [sum(cut_lengths)], the builtin on a list of numbers. *)
Variable fsum : list Q → Q.

(** [{}] is [None]. *)
Definition analyze_cut_patterns (tr : tracker) : result (option cut_analysis) :=
  '(cut_lengths, cut_frequencies) ← scan_cuts (sessions (current tr));
  match cut_lengths with
  | [] => mret None
  | _ :: _ =>
      avg_cut_length ← float_truediv (fsum cut_lengths) (inject_Z (len cut_lengths));
      mret (Some {|
        average_cut_length := avg_cut_length;
        total_cuts := len cut_lengths;
        cut_type_preferences := cut_frequencies;
        suggested_cut_length := round2 avg_cut_length
      |})
  end.
End Analysis.

(** The [track_cut] branch of [handle_call_tool], with [session_id] the
    integer [int(arguments["session_id"])].  The branch has no [else]:
    past the [if] the function ends and returns [None]. *)
Definition handle_track_cut (tr : tracker) (now : string) (session_id : Z)
    (kind : string) (duration : option Q) (why : option string)
    : result (tracker * option (list TextContent)) :=
  let cut_data := Cut kind duration why now in
  if decide (session_id < len (sessions (current tr))) then
    l ← mutate_item (sessions (current tr)) session_id (add_cut cut_data);
    let tr := save_patterns (with_sessions tr l) in
    mret (tr, Some [text_content
                      ("Tracked " +:+ kind +:+ " cut for session " +:+ pretty session_id)])
  else mret (tr, None).

(** The [track_workflow_step] branch of [handle_call_tool]. *)
Definition handle_track_workflow_step (tr : tracker) (now : string)
    (session_id : Z) (step : string) (duration_minutes : option Q)
    : result (tracker * list TextContent) :=
  tr ← track_action tr now session_id "workflow_step"
         (WorkflowStep step duration_minutes);
  mret (tr, [text_content ("Tracked " +:+ step +:+ " workflow step")]).

End Watcher.

(** ** [davinci_resolve_mcp.py]: the host queries and the tool dispatcher *)

Module ResolveServer.
Import Resolve.

(** One value of the dictionary [timeline.GetItemsInTrack(...)]; a field is
    [None] when the key is missing, and [media_pool_item] is the dictionary
    under ["mediaPoolItem"]. *)
Record clip_info : Type := ClipInfo {
  info_start : option Z;
  info_end : option Z;
  info_duration : option Z;
  media_pool_item : option (dict string)
}.

(** The timeline object of the host, as the calls the server makes on it. *)
Record timeline : Type := HostTimeline {
  GetName : string;
  GetSetting : string → string;
  GetTrackCount : string → Z;
  GetItemsInTrack : string → Z → dict clip_info;
  GetDuration : Z
}.

(** The project object of the host: its name, its settings, the lengths of
    [GetTimelineList()] and of the root folder's [GetClipList()], and the
    current timeline if one is selected. *)
Record project : Type := HostProject {
  project_name : string;
  project_setting : string → string;
  timeline_count : Z;
  media_pool_clips : Z;
  GetCurrentTimeline : option timeline
}.

(** The module variable [resolve]: [None], an object whose calls raise
    [Exception(msg)], or a running application with its version and its
    current project if one is loaded. *)
Inductive app : Type :=
| NoApi
| Failing (msg : string)
| Running (version : string) (current_project : option project).

(** The dictionary [clip_data] built for one item of a track. *)
Definition clip_data (track_type : string) (track_index : Z) (i : clip_info) : clip :=
  {| Resolve.track_type := track_type;
     Resolve.track_index := track_index;
     start := default 0 (info_start i);
     end_ := default 0 (info_end i);
     duration := default 0 (info_duration i);
     name := dict_get (default [] (media_pool_item i)) "name" "" |}.

(** The clips one track type appends: tracks [1 .. GetTrackCount] in order,
    the items of each track in the order of its dictionary. *)
Definition track_clips (tl : timeline) (track_type : string) : list clip :=
  seqZ 1 (GetTrackCount tl track_type) ≫= λ track_index,
    GetItemsInTrack tl track_type track_index ≫= λ '(clip_id, i),
      [clip_data track_type track_index i].

Definition analyze_current_timeline (a : app) : timeline_reply :=
  match a with
  | NoApi => TimelineError "Resolve API not available"
  | Failing msg => TimelineError ("Timeline analysis failed: " +:+ msg)
  | Running _ None => TimelineError "No project loaded"
  | Running _ (Some p) =>
      match GetCurrentTimeline p with
      | None => TimelineError "No timeline selected"
      | Some tl =>
          Timeline {|
            timeline_name := GetName tl;
            frame_rate := GetSetting tl "timelineFrameRate";
            resolution := GetSetting tl "timelineResolutionWidth" +:+ "x"
                            +:+ GetSetting tl "timelineResolutionHeight";
            track_count := GetTrackCount tl "video" + GetTrackCount tl "audio";
            timeline_duration := GetDuration tl;
            clips := track_clips tl "video" ++ track_clips tl "audio"
          |}
      end
  end.

(** The [connect_to_resolve] branch. *)
Definition handle_connect_to_resolve (a : app) : list TextContent :=
  match a with
  | NoApi => [text_content "âŒ DaVinci Resolve API not available. Please ensure:
1. DaVinci Resolve is installed
2. DaVinci Resolve is running
3. API access is enabled in preferences"]
  | Failing msg => [text_content ("âŒ Failed to connect: " +:+ msg)]
  | Running version current_project =>
      let status := "âœ… Connected to DaVinci Resolve " +:+ version +:+ "
" in
      let status :=
        match current_project with
        | Some p =>
            let status := status +:+ "ðŸ“ Current project: " +:+ project_name p +:+ "
" in
            match GetCurrentTimeline p with
            | Some tl => status +:+ "ðŸŽ¬ Current timeline: " +:+ GetName tl
            | None => status +:+ "âš ï¸ No timeline selected"
            end
        | None => status +:+ "âš ï¸ No project loaded"
        end in
      [text_content status]
  end.

(** The [get_project_info] branch. *)
Definition handle_get_project_info (a : app) : list TextContent :=
  match a with
  | NoApi => [text_content "Resolve API not available"]
  | Failing msg => [text_content ("Error getting project info: " +:+ msg)]
  | Running _ None => [text_content "No project loaded"]
  | Running _ (Some p) =>
      [text_content
         ("Project: " +:+ project_name p +:+ "
Timelines: " +:+ pretty (timeline_count p) +:+ "
Media Pool Clips: " +:+ pretty (media_pool_clips p))]
  end.

(** [len([c for c in clips if c['track_type'] == kind])] *)
Definition count_clips (kind : string) (l : list clip) : Z :=
  len (filter (λ c, Resolve.track_type c = kind) l).

(** The report of the [analyze_current_timeline] branch. *)
Definition timeline_report (t : timeline_data) : string :=
  "# Timeline Analysis: " +:+ timeline_name t +:+ "

## Technical Specs
- Frame Rate: " +:+ frame_rate t +:+ " fps
- Resolution: " +:+ resolution t +:+ "
- Total Tracks: " +:+ pretty (track_count t) +:+ "
- Duration: " +:+ pretty (timeline_duration t) +:+ " frames

## Content Overview
- Total Clips: " +:+ pretty (len (clips t)) +:+ "
- Video Clips: " +:+ pretty (count_clips "video" (clips t)) +:+ "
- Audio Clips: " +:+ pretty (count_clips "audio" (clips t)) +:+ "
".

(** The [analyze_current_timeline] branch. *)
Definition handle_analyze_current_timeline (tr : tracker) (a : app)
    (now_action now_session : string) : result (tracker * list TextContent) :=
  match analyze_current_timeline a with
  | TimelineError e => mret (tr, [text_content ("Error: " +:+ e)])
  | Timeline t =>
      tr ← track_editing_action tr now_action now_session "timeline_analysis"
             (TimelineAnalysis t);
      mret (tr, [text_content (timeline_report t)])
  end.

(** [max(d.items(), key=lambda x: x[1])]: the first item of greatest
    value, [ValueError] on an empty dictionary. *)
Definition max_by_value (d : dict Z) : result (string * Z) :=
  match d with
  | [] => Raise ValueError
  | x :: d' => Ok (fold_left (λ best y, if decide (y.2 > best.2) then y else best) d' x)
  end.

(** The dictionary [all_tools] of the [get_editing_insights] branch. *)
Definition all_tools (usage : dict (dict Z)) : dict Z :=
  fold_left (λ all_tools '(page, tools),
    fold_left (λ all_tools '(tool, count),
      dict_set all_tools (page +:+ ":" +:+ tool) count) tools all_tools) usage [].

Definition insights_fallback : string :=
  "Keep editing! I'm still learning your patterns.".

(** The list [insights] at the end of the [get_editing_insights] branch. *)
Definition editing_insights (tr : tracker) (a : app) : result (list string) :=
  let sessions := editing_sessions (current tr) in
  let usage := tool_usage (current tr) in
  let insights := [] in
  insights ←
    match sessions with
    | [] => mret insights
    | _ :: _ =>
        let total_actions := sum ((λ s, len (actions s)) <$> sessions) in
        avg_actions ← truediv (inject_Z total_actions) (inject_Z (len sessions));
        mret (insights ++
                ["You've completed " +:+ pretty (len sessions)
                   +:+ " editing sessions with an average of " +:+ format_1f avg_actions
                   +:+ " actions per session"])
    end;
  let all_tools := all_tools usage in
  insights ←
    match all_tools with
    | [] => mret insights
    | _ :: _ =>
        most_used ← max_by_value all_tools;
        mret (insights ++
                ["Your most used tool is " +:+ most_used.1 +:+ " ("
                   +:+ pretty most_used.2 +:+ " times)"])
    end;
  timeline_patterns ← analyze_cut_patterns (analyze_current_timeline a);
  let insights :=
    match timeline_patterns with
    | Failure _ => insights
    | Stats s =>
        (insights ++ ["Your current editing pace is " +:+ editing_pace s])
          ++ ["Average cut length: " +:+ format_1f (average_cut_length s) +:+ " frames"]
    end in
  match insights with
  | [] => mret (insights ++ [insights_fallback])
  | _ :: _ => mret insights
  end.

(** The [get_editing_insights] branch. *)
Definition handle_get_editing_insights (tr : tracker) (a : app)
    : result (list TextContent) :=
  insights ← editing_insights tr a;
  mret [text_content
          ("# Your Editing Insights

" +:+ join_lines (map (λ insight, bullet +:+ insight) insights))].

Section Rendering.

(** [json.dumps(d, indent=2)] on the dictionary of counters, a function of
    the standard library. *)
Variable json_dumps : dict Z → string.

(** The report of the [analyze_cut_patterns] branch. *)
Definition cut_report (s : cut_stats) : string :=
  "# Cut Pattern Analysis

## Statistics
- Total Cuts: " +:+ pretty (total_cuts s) +:+ "
- Average Cut Length: " +:+ format_1f (average_cut_length s) +:+ " frames
- Median Cut Length: " +:+ pretty (median_cut_length s) +:+ " frames
- Shortest Cut: " +:+ pretty (shortest_cut s) +:+ " frames
- Longest Cut: " +:+ pretty (longest_cut s) +:+ " frames
- Editing Pace: " +:+ editing_pace s +:+ "

## Cut Types
" +:+ json_dumps (cut_types s) +:+ "
".

(** The [analyze_cut_patterns] branch. *)
Definition handle_analyze_cut_patterns (tr : tracker) (a : app)
    (now_action now_session : string) : result (tracker * list TextContent) :=
  patterns ← analyze_cut_patterns (analyze_current_timeline a);
  match patterns with
  | Failure e => mret (tr, [text_content ("Error: " +:+ e)])
  | Stats s =>
      tr ← track_editing_action tr now_action now_session "cut_analysis" (CutAnalysis s);
      mret (tr, [text_content (cut_report s)])
  end.

(** The names of the tools [handle_list_tools] advertises, in order. *)
Definition tool_names : list string :=
  ["connect_to_resolve"; "analyze_current_timeline"; "track_editing_session";
   "get_project_info"; "analyze_cut_patterns"; "get_color_grading_info";
   "track_tool_usage"; "export_timeline_data"; "get_editing_insights";
   "suggest_workflow_optimization"].

(** [handle_call_tool(name, arguments)] on the tracker [tr] and the host
    [a]; the three clock readings are used in this order by the branches
    that read the clock.  An unknown name raises [ValueError]. *)
Definition handle_call_tool (tr : tracker) (a : app)
    (now_tool now_action now_session : string)
    (name : string) (arguments : dict string)
    : result (tracker * list TextContent) :=
  if decide (name = "connect_to_resolve") then
    mret (tr, handle_connect_to_resolve a)
  else if decide (name = "analyze_current_timeline") then
    handle_analyze_current_timeline tr a now_action now_session
  else if decide (name = "get_project_info") then
    mret (tr, handle_get_project_info a)
  else if decide (name = "analyze_cut_patterns") then
    handle_analyze_cut_patterns tr a now_action now_session
  else if decide (name = "track_tool_usage") then
    tool_name ← dict_getitem arguments "tool_name";
    page ← dict_getitem arguments "page";
    handle_track_tool_usage tr now_tool now_action now_session tool_name page
  else if decide (name = "get_editing_insights") then
    r ← handle_get_editing_insights tr a;
    mret (tr, r)
  else if decide (name = "suggest_workflow_optimization") then
    r ← handle_suggest_workflow_optimization tr (analyze_current_timeline a);
    mret (tr, r)
  else Raise ValueError.

End Rendering.

End ResolveServer.

(** ** [editing_watcher.py]: the file watcher and the suggestion branch *)

Module WatcherEvents.
Import Watcher.

(** The fields of a watchdog event that [on_modified] reads. *)
Record event : Type := Event {
  is_directory : bool;
  src_path : string
}.

(** A [ProjectFileWatcher]; its [tracker] attribute is the module's shared
    tracker, which the operations below take and return beside it. *)
Record file_watcher : Type := FileWatcher {
  session_id : Z;
  last_modified : dict Q
}.

Definition project_extensions : list string :=
  [".prproj"; ".fcpxml"; ".avp"; ".drp"].

(** [on_modified(event)].  The environment supplies [file_ext], the value of
    [Path(file_path).suffix.lower()], the reading [current_time] of
    [time.time()], the file [size] ([0] when the file is gone) and the clock
    reading [now] of [track_action]; they are read only on the paths that
    use them. *)
Definition on_modified (w : file_watcher) (tr : tracker) (e : event)
    (file_ext : string) (current_time : Q) (size : Z) (now : string)
    : result (file_watcher * tracker) :=
  if is_directory e then mret (w, tr)
  else
    let file_path := src_path e in
    if bool_decide (file_ext ∈ project_extensions) then
      due ←
        (if negb (dict_in file_path (last_modified w)) then mret true
         else
           last ← dict_getitem (last_modified w) file_path;
           mret (bool_decide (2 < current_time - last)%Q));
      if due : bool then
        tr ← track_action tr now (session_id w) "project_save"
               (ProjectSave file_path file_ext size);
        mret ({| session_id := session_id w;
                 last_modified := dict_set (last_modified w) file_path current_time |},
              tr)
      else mret (w, tr)
    else mret (w, tr).

Definition next_action_fallback : string :=
  "Continue with your normal workflow - I'm still learning your patterns!".

Section Rendering.

(** The builtin [sum] on numbers, and [str] of a float, as the f-string
    [{avg_cut}] applies it. *)
Variable fsum : list Q → Q.
Variable str_float : Q → string.

(** The list [suggestions] at the end of the [suggest_next_action] branch;
    [current_step] is [arguments.get("current_step", "")].  [if avg_cut:]
    fails for a missing key and for [0.0]. *)
Definition suggest_next_action (tr : tracker) (current_step : string)
    : result (list string) :=
  let suggestions := [] in
  suggestions ←
    (if decide (current_step = "rough_cut") then
       analysis ← analyze_cut_patterns fsum tr;
       match analysis with
       | Some r =>
           let avg_cut := suggested_cut_length r in
           if decide (avg_cut == 0)%Q then mret suggestions
           else mret (suggestions ++
                        ["Based on your style, consider " +:+ str_float avg_cut +:+ "s cuts"])
       | None => mret suggestions
       end
     else if decide (current_step = "import") then
       mret (suggestions ++ ["Based on your workflow, you typically move to rough_cut next"])
     else mret suggestions);
  match suggestions with
  | [] => mret (suggestions ++ [next_action_fallback])
  | _ :: _ => mret suggestions
  end.

(** The [suggest_next_action] branch. *)
Definition handle_suggest_next_action (tr : tracker) (current_step : string)
    : result (list TextContent) :=
  suggestions ← suggest_next_action tr current_step;
  mret [text_content
          ("Suggestions for " +:+ current_step +:+ ":
" +:+ join_lines (map (λ s, "• " +:+ s) suggestions))].

End Rendering.

(** The values the [get_editing_insights] branch computes before it renders
    its report: the number of sessions and the average number of actions. *)
Definition session_statistics (tr : tracker) : result (Z * Q) :=
  let total_sessions := len (sessions (current tr)) in
  let avg_session_actions := 0%Q in
  avg_session_actions ←
    (if decide (total_sessions > 0) then
       let total_actions := sum ((λ s, len (actions s)) <$> sessions (current tr)) in
       truediv (inject_Z total_actions) (inject_Z total_sessions)
     else mret avg_session_actions);
  mret (total_sessions, avg_session_actions).

(** [action.get("details", {}).get("step")]: the step of a workflow
    action, [None] for the other payloads. *)
Definition step_of (a : action) : option string :=
  match action_details a with
  | WorkflowStep step _ => Some step
  | ProjectSave _ _ _ => None
  end.

(** The dictionary [workflow_patterns] of the [get_editing_insights]
    branch; [if step:] skips [None] and the empty string. *)
Definition workflow_patterns (tr : tracker) : dict Z :=
  fold_left (λ workflow_patterns session,
    fold_left (λ workflow_patterns action,
      match step_of action with
      | Some step =>
          if decide (step = "") then workflow_patterns
          else dict_set workflow_patterns step (dict_get workflow_patterns step 0 + 1)
      | None => workflow_patterns
      end) (actions session) workflow_patterns)
    (sessions (current tr)) [].

Section Report.

(** The builtin [sum] on numbers, [json.dumps(..., indent=2)] on the
    analysis and on the dictionary of step counts, and [str] of a float:
    functions of the standard library. *)
Variable fsum : list Q → Q.
Variable json_analysis : cut_analysis → string.
Variable json_counts : dict Z → string.
Variable str_float : Q → string.

(** The value the first recommendation line prints:
    [prefs.get(max(prefs, key=prefs.get))] for a non-empty dictionary of
    preferences, [{}.get('unknown')], that is [None], otherwise. *)
Definition preferred_cuts (insights : option cut_analysis) : result string :=
  match insights with
  | Some r =>
      match cut_type_preferences r with
      | [] => mret "None"
      | _ :: _ =>
          most ← ResolveServer.max_by_value (cut_type_preferences r);
          match dict_lookup (cut_type_preferences r) most.1 with
          | Some count => mret (pretty count)
          | None => mret "None"
          end
      end
  | None => mret "None"
  end.

(** The [get_editing_insights] branch. *)
Definition handle_get_editing_insights (tr : tracker) : result (list TextContent) :=
  insights ← analyze_cut_patterns fsum tr;
  '(total_sessions, avg_session_actions) ← session_statistics tr;
  let workflow_patterns := workflow_patterns tr in
  preferred ← preferred_cuts insights;
  mret [text_content
          ("# Your Editing Patterns

## Session Statistics
- Total editing sessions: " +:+ pretty total_sessions +:+ "
- Average actions per session: " +:+ format_1f avg_session_actions +:+ "

## Cutting Patterns
" +:+ match insights with
      | Some r => json_analysis r
      | None => "Not enough cut data yet"
      end +:+ "

## Workflow Preferences
" +:+ match workflow_patterns with
      | [] => "No workflow data yet"
      | _ :: _ => json_counts workflow_patterns
      end +:+ "

## Recommendations
- Based on your patterns, you prefer " +:+ preferred +:+ " cuts
- Your average cut length is "
     +:+ match insights with
         | Some r => str_float (average_cut_length r)
         | None => "unknown"
         end +:+ " seconds
")].

End Report.

End WatcherEvents.

(** ** Relations between the states of the trackers *)

Module Invariants.

(** One call of an operation of [editing_watcher.py] that writes the
    sessions: starting a session, recording an action (also through the
    workflow-step tool and the file watcher) and tracking a cut. *)
Inductive watcher_step : Watcher.tracker → Watcher.tracker → Prop :=
| step_session_start tr now project_path :
    watcher_step tr (Watcher.track_session_start tr now project_path).1
| step_action tr now session_id kind d tr' :
    Watcher.track_action tr now session_id kind d = Ok tr' →
    watcher_step tr tr'
| step_cut tr now session_id kind duration why tr' r :
    Watcher.handle_track_cut tr now session_id kind duration why = Ok (tr', r) →
    watcher_step tr tr'.

(** A session kept its identity and only grew at the end of its lists. *)
Definition session_extends (s s' : Watcher.session) : Prop :=
  Watcher.project s' = Watcher.project s
  ∧ Watcher.start_time s' = Watcher.start_time s
  ∧ Watcher.actions s `prefix_of` Watcher.actions s'
  ∧ Watcher.cuts s `prefix_of` Watcher.cuts s'
  ∧ Watcher.exports s' = Watcher.exports s.

(** Every session is still at its offset and only grew. *)
Definition log_extends (tr tr' : Watcher.tracker) : Prop :=
  ∀ (i : nat) s, Watcher.sessions (Watcher.current tr) !! i = Some s →
    ∃ s', Watcher.sessions (Watcher.current tr') !! i = Some s'
          ∧ session_extends s s'.

(** The document on disk is the one in memory. *)
Definition resolve_in_sync (tr : Resolve.tracker) : Prop :=
  Resolve.stored tr = Some (Resolve.current tr).

Definition watcher_in_sync (tr : Watcher.tracker) : Prop :=
  Watcher.stored tr = Some (Watcher.current tr).

(** The names that have a branch in [handle_call_tool] of
    [davinci_resolve_mcp.py]. *)
Definition implemented_tools : list string :=
  ["connect_to_resolve"; "analyze_current_timeline"; "get_project_info";
   "analyze_cut_patterns"; "track_tool_usage"; "get_editing_insights";
   "suggest_workflow_optimization"].

(** Every session of the Resolve tracker is still at its offset with its
    start time, and its actions only grew at the end. *)
Definition sessions_extend (tr tr' : Resolve.tracker) : Prop :=
  ∀ (i : nat) s, Resolve.editing_sessions (Resolve.current tr) !! i = Some s →
    ∃ s', Resolve.editing_sessions (Resolve.current tr') !! i = Some s'
          ∧ Resolve.start_time s' = Resolve.start_time s
          ∧ Resolve.actions s `prefix_of` Resolve.actions s'.

End Invariants.

(** ** The wording of the specification, for comparison with the code *)

Module Spec.
Import Resolve.

(** "[gap == 0] → [hard_cut]; [gap > 0] → [gap]; [gap < 0] → [overlap]"
    with [gap = curr.start - prev.end]. *)
Definition classify (prev curr : clip) : string :=
  let gap := start curr - end_ prev in
  if decide (gap = 0) then "hard_cut"
  else if decide (gap > 0) then "gap"
  else "overlap".

(** The classes of the adjacent pairs [(l[i-1], l[i])], [i = 1..n-1]. *)
Fixpoint pair_kinds (l : list clip) : list string :=
  match l with
  | prev :: (curr :: _) as l' => classify prev curr :: pair_kinds l'
  | _ => []
  end.

(** How many pairs fall in class [k]. *)
Definition pairs_of_kind (k : string) (l : list clip) : Z :=
  len (filter (λ k', k' = k) (pair_kinds l)).

(** "For each clip with [duration > 0], append [duration]". *)
Definition positive_durations (l : list clip) : list Z :=
  duration <$> filter (λ c, duration c > 0) l.

(** [counters[page][tool_name]], an absent entry counting as zero. *)
Definition usage_count (tr : tracker) (page tool_name : string) : Z :=
  dict_get (dict_get (tool_usage (current tr)) page []) tool_name 0.

(** "For every [(page, tool)] with usage count [> 10], emit a "learn the
    shortcut" suggestion": per page, and over all pages. *)
Definition page_shortcuts (page : string) (tools : dict Z) : list string :=
  tools ≫= λ '(tool, count),
    if decide (count > 10) then [shortcut_suggestion page tool count] else [].

Definition all_shortcuts (usage : dict (dict Z)) : list string :=
  usage ≫= λ '(page, tools), page_shortcuts page tools.

(** Some tool of some page was used more than ten times. *)
Definition frequent_tool (usage : dict (dict Z)) : Prop :=
  ∃ page tools tool count,
    (page, tools) ∈ usage ∧ (tool, count) ∈ tools ∧ count > 10.

(** The cuts of all sessions, flattened in recording order. *)
Definition recorded_cuts (tr : Watcher.tracker) : list Watcher.cut :=
  Watcher.sessions (Watcher.current tr) ≫= Watcher.cuts.

(** Every recorded cut carries a number as its duration. *)
Definition durations_given (cs : list Watcher.cut) : Prop :=
  Forall (λ c, is_Some (Watcher.cut_duration c)) cs.

#[global] Instance durations_given_dec cs : Decision (durations_given cs).
Proof. unfold durations_given. apply _. Defined.

(** The positive durations among the given ones. *)
Definition positive_lengths (cs : list Watcher.cut) : list Q :=
  filter (λ q, 0 < q)%Q (omap Watcher.cut_duration cs).

(** The session-list positions a subscript may name. *)
Definition in_range {A} (l : list A) (i : Z) : Prop :=
  - len l ≤ i < len l.

#[global] Instance in_range_dec {A} (l : list A) i : Decision (in_range l i).
Proof. unfold in_range. apply _. Defined.

End Spec.

Import Spec.
Import Invariants.

(** ** Sample inputs *)

Definition video (start_ end__ duration_ : Z) : Resolve.clip :=
  Resolve.Clip "video" 1 start_ end__ duration_ "".

Definition timeline_of (l : list Resolve.clip) : Resolve.timeline_data :=
  Resolve.TimelineData "Timeline 1" "24" "1920x1080" 2 0 l.

(** A hard cut followed by an overlap of ten frames. *)
Definition overlapping_timeline : Resolve.timeline_data :=
  timeline_of [video 0 100 100; video 100 250 150; video 240 300 60].

(** Durations 40, 10, 30, 20 once sorted by start; an audio clip is mixed in. *)
Definition four_cut_timeline : Resolve.timeline_data :=
  timeline_of [video 40 50 10; Resolve.Clip "audio" 1 0 90 90 "";
               video 0 40 40; video 80 100 20; video 50 80 30].

(** Two cuts whose lengths average to exactly 120. *)
Definition boundary_timeline : Resolve.timeline_data :=
  timeline_of [video 0 100 100; video 100 240 140].

(** Two clips without length. *)
Definition empty_clips_timeline : Resolve.timeline_data :=
  timeline_of [video 0 0 0; video 5 5 0].

(** A tracker whose counters hold one frequent tool per page. *)
Definition busy_tracker : Resolve.tracker :=
  {| Resolve.stored := None;
     Resolve.current :=
       Resolve.Patterns [] [] [] [] []
         [("color", [("Qualifier", 11); ("Curves", 10)]); ("edit", [("Blade", 25)])] |}.

(** Two sessions with three cuts and one cut; one duration is zero. *)
Definition two_session_log : Watcher.tracker :=
  {| Watcher.stored := None;
     Watcher.current :=
       Watcher.Patterns
         [Watcher.Session "a.drp" "09:00" []
            [Watcher.Cut "hard_cut" (Some 1%Q) None "09:01";
             Watcher.Cut "fade" (Some 0%Q) (Some "mood") "09:02";
             Watcher.Cut "hard_cut" (Some 1%Q) None "09:03"] [];
          Watcher.Session "b.drp" "10:00" []
            [Watcher.Cut "jump_cut" (Some 2%Q) None "10:01"] []]
         [] [] [] [] |}.

(** Three sessions that hold actions, cuts and exports. *)
Definition edited_log : Watcher.tracker :=
  {| Watcher.stored := None;
     Watcher.current :=
       Watcher.Patterns
         [Watcher.Session "a.drp" "09:00"
            [Watcher.Action "09:01" "workflow_step" (Watcher.WorkflowStep "import" None)]
            [Watcher.Cut "hard_cut" (Some 1%Q) None "09:02";
             Watcher.Cut "fade" None (Some "mood") "09:03"]
            ["a.mp4"];
          Watcher.Session "b.drp" "10:00"
            [Watcher.Action "10:01" "project_save"
               (Watcher.ProjectSave "/projects/b.drp" ".drp" 512)]
            [Watcher.Cut "jump_cut" (Some 2%Q) None "10:02"]
            ["b.mp4"];
          Watcher.Session "c.drp" "10:30" [] [] []]
         [] [] [] [] |}.

(** A log holding a cut that [track_cut] recorded without a duration. *)
Definition log_with_unmeasured_cut : Watcher.tracker :=
  {| Watcher.stored := None;
     Watcher.current :=
       Watcher.Patterns
         [Watcher.Session "a.drp" "09:00" []
            [Watcher.Cut "hard_cut" (Some 1%Q) None "09:01";
             Watcher.Cut "dissolve" None None "09:02"] []]
         [] [] [] [] |}.

(** Twenty-four cuts of one second and one of 1.375 seconds: the average
    is the float [1.015]. *)
Definition rounding_log : Watcher.tracker :=
  {| Watcher.stored := None;
     Watcher.current :=
       Watcher.Patterns
         [Watcher.Session "a.drp" "09:00" []
            (replicate 24 (Watcher.Cut "hard_cut" (Some 1%Q) None "09:01")
             ++ [Watcher.Cut "fade" (Some (11 # 8)%Q) None "09:30"]) []]
         [] [] [] [] |}.

(** One cut of an eighth of a second: [12.5] hundredths, a tie. *)
Definition eighth_log : Watcher.tracker :=
  {| Watcher.stored := None;
     Watcher.current :=
       Watcher.Patterns
         [Watcher.Session "a.drp" "09:00" []
            [Watcher.Cut "hard_cut" (Some (1 # 8)%Q) None "09:01"] []]
         [] [] [] [] |}.

(** [sum] as a loop of float additions from the left.  On the logs above
    every partial sum is a float, so no rounding takes place. *)
Definition float_sum (l : list Q) : Q :=
  fold_left (λ acc x, binary64 (acc + x)) l 0%Q.

(** The clips of [overlapping_timeline] in the opposite order. *)
Definition reversed_timeline : Resolve.timeline_data :=
  timeline_of (reverse (Resolve.clips overlapping_timeline)).

(** Two clips that start together, listed in either order before a third. *)
Definition tied_start_timeline : Resolve.timeline_data :=
  timeline_of [video 0 10 10; video 0 5 5; video 5 20 15].

Definition tied_start_swapped : Resolve.timeline_data :=
  timeline_of [video 0 5 5; video 0 10 10; video 5 20 15].

(** A host timeline with two video tracks and one audio track. *)
Definition sample_host_timeline : ResolveServer.timeline :=
  {| ResolveServer.GetName := "Cut 1";
     ResolveServer.GetSetting := λ key,
       if decide (key = "timelineFrameRate") then "24"
       else if decide (key = "timelineResolutionWidth") then "1920"
       else "1080";
     ResolveServer.GetTrackCount := λ kind,
       if decide (kind = "video") then 2 else 1;
     ResolveServer.GetItemsInTrack := λ kind track_index,
       if decide (kind = "video") then
         if decide (track_index = 1) then
           [("a", ResolveServer.ClipInfo (Some 0) (Some 100) (Some 100)
                    (Some [("name", "intro.mov")]));
            ("b", ResolveServer.ClipInfo (Some 100) (Some 250) (Some 150) None)]
         else [("c", ResolveServer.ClipInfo (Some 240) (Some 300) (Some 60) (Some []))]
       else [("d", ResolveServer.ClipInfo None None None None)];
     ResolveServer.GetDuration := 300 |}.

Definition sample_project : ResolveServer.project :=
  {| ResolveServer.project_name := "Demo";
     ResolveServer.project_setting := λ _, "24";
     ResolveServer.timeline_count := 1;
     ResolveServer.media_pool_clips := 4;
     ResolveServer.GetCurrentTimeline := Some sample_host_timeline |}.

Definition sample_app : ResolveServer.app :=
  ResolveServer.Running "18.6" (Some sample_project).

(** A watcher of session 0 that has not seen any file yet, and a save of
    a project file. *)
Definition fresh_watcher : WatcherEvents.file_watcher :=
  {| WatcherEvents.session_id := 0; WatcherEvents.last_modified := [] |}.

Definition save_event : WatcherEvents.event :=
  {| WatcherEvents.is_directory := false; WatcherEvents.src_path := "/projects/a.drp" |}.

(** One session with two workflow steps and a project save. *)
Definition workflow_log : Watcher.tracker :=
  {| Watcher.stored := None;
     Watcher.current :=
       Watcher.Patterns
         [Watcher.Session "a.drp" "09:00"
            [Watcher.Action "09:01" "workflow_step" (Watcher.WorkflowStep "import" None);
             Watcher.Action "09:02" "project_save"
               (Watcher.ProjectSave "/projects/a.drp" ".drp" 2048);
             Watcher.Action "09:03" "workflow_step"
               (Watcher.WorkflowStep "color" (Some 12%Q));
             Watcher.Action "09:04" "workflow_step" (Watcher.WorkflowStep "import" None)]
            [] []]
         [] [] [] [] |}.

(** ** Facts about the Python fragment *)

Lemma bind_Ok {A B} (a : A) (f : A → result B) : Ok a ≫= f = f a.
Proof. done. Qed.

Lemma bind_Raise {A B} (e : exn) (f : A → result B) : Raise e ≫= f = Raise e.
Proof. done. Qed.

Section PyLists.
Context {A : Type}.
Implicit Types (l : list A) (i : Z) (k : nat).

Lemma len_app l1 l2 : len (l1 ++ l2) = len l1 + len l2.
Proof. unfold len. rewrite length_app. lia. Qed.

Lemma len_nonneg l : 0 ≤ len l.
Proof. unfold len. lia. Qed.

Lemma index_nonneg l i : 0 ≤ i < len l → index l i = Ok (Z.to_nat i).
Proof. intros H. unfold index. by rewrite decide_True. Qed.

Lemma index_negative l i :
  - len l ≤ i < 0 → index l i = Ok (Z.to_nat (len l + i)).
Proof.
  intros H. unfold index.
  rewrite decide_False by lia. by rewrite decide_True.
Qed.

Lemma index_outside l i : ¬ in_range l i → index l i = Raise IndexError.
Proof.
  unfold in_range. intros H. unfold index.
  rewrite decide_False by lia. by rewrite decide_False by lia.
Qed.

Lemma index_in_range l i k : index l i = Ok k → in_range l i ∧ (k < length l)%nat.
Proof.
  unfold index, in_range, len.
  repeat case_decide; intros; simplify_eq; lia.
Qed.

Lemma index_Ok l i : in_range l i → ∃ k, index l i = Ok k ∧ (k < length l)%nat.
Proof.
  unfold in_range. intros H.
  destruct (decide (0 ≤ i)).
  - exists (Z.to_nat i). rewrite index_nonneg by lia. unfold len in H. split; [done | lia].
  - exists (Z.to_nat (len l + i)). rewrite index_negative by lia.
    unfold len in *. split; [done | lia].
Qed.

Lemma getitem_nonneg l i x :
  0 ≤ i → l !! Z.to_nat i = Some x → getitem l i = Ok x.
Proof.
  intros Hi Hx. unfold getitem.
  rewrite index_nonneg.
  - simpl. by rewrite Hx.
  - apply lookup_lt_Some in Hx. unfold len. lia.
Qed.

Lemma getitem_last_of_prefix (pre : list A) (p : A) (rest : list A) :
  getitem ((pre ++ [p]) ++ rest) (len (pre ++ [p]) - 1) = Ok p.
Proof.
  apply getitem_nonneg.
  - rewrite len_app. pose proof (len_nonneg pre). change (len [p]) with 1. lia.
  - replace (Z.to_nat (len (pre ++ [p]) - 1)) with (length pre).
    + rewrite <- app_assoc. simpl. by apply list_lookup_middle.
    + unfold len. rewrite length_app. simpl. lia.
Qed.

Lemma mutate_item_Ok l i f k :
  index l i = Ok k →
  ∃ x, l !! k = Some x ∧ mutate_item l i f = Ok (<[k := f x]> l).
Proof.
  intros Hk. destruct (index_in_range _ _ _ Hk) as [_ Hlt].
  destruct (lookup_lt_is_Some_2 l k Hlt) as [x Hx].
  exists x. split; [done |]. unfold mutate_item. rewrite Hk. simpl. by rewrite Hx.
Qed.

Lemma mutate_item_outside l i f :
  ¬ in_range l i → mutate_item l i f = Raise IndexError.
Proof. intros H. unfold mutate_item. by rewrite index_outside. Qed.

Lemma mutate_item_inv l i f l' :
  mutate_item l i f = Ok l' →
  ∃ k x, index l i = Ok k ∧ l !! k = Some x ∧ l' = <[k := f x]> l.
Proof.
  unfold mutate_item. destruct (index l i) as [k|e] eqn:Hk; simpl; [|done].
  destruct (l !! k) as [x|] eqn:Hx; [|done].
  intros [= <-]. eauto.
Qed.

End PyLists.

Section PySort.
Context {A : Type} (key : A → Z).
Implicit Types (l : list A) (x : A).

Let key_le (a b : A) : Prop := key a ≤ key b.

Lemma insert_by_perm x l : insert_by key x l ≡ₚ x :: l.
Proof.
  induction l as [|y l IH]; simpl; [done |].
  case_decide; [done |].
  rewrite IH. apply Permutation_swap.
Qed.

Lemma sort_by_perm l : sort_by key l ≡ₚ l.
Proof.
  induction l as [|x l IH]; simpl; [done |].
  rewrite insert_by_perm. by rewrite IH.
Qed.

Lemma sort_by_length l : length (sort_by key l) = length l.
Proof. apply Permutation_length, sort_by_perm. Qed.

Lemma sort_by_nil l : sort_by key l = [] ↔ l = [].
Proof.
  split; [| by intros ->].
  intros H. apply length_zero_iff_nil. rewrite <- sort_by_length. by rewrite H.
Qed.

Lemma insert_by_sorted x l :
  Sorted key_le l → Sorted key_le (insert_by key x l).
Proof.
  induction 1 as [|y l Hl IH Hy]; simpl.
  - repeat constructor.
  - case_decide as Hxy.
    + constructor; [by constructor | by constructor].
    + constructor; [done |].
      destruct l as [|z l]; simpl.
      * constructor. unfold key_le. lia.
      * case_decide.
        -- constructor. unfold key_le. lia.
        -- constructor. by inversion Hy.
Qed.

Lemma sort_by_sorted l : Sorted key_le (sort_by key l).
Proof.
  induction l as [|x l IH]; simpl; [constructor |].
  by apply insert_by_sorted.
Qed.

(** Stability: the elements of one key keep their input order. *)
Lemma insert_by_stable k x l :
  Sorted key_le l →
  filter (λ a, key a = k) (insert_by key x l)
  = filter (λ a, key a = k) (x :: l).
Proof.
  induction 1 as [|y l Hl IH Hy]; simpl; [done |].
  case_decide as Hxy; [done |].
  rewrite filter_cons, IH.
  rewrite !(filter_cons _ x), !(filter_cons _ y).
  repeat case_decide; try done; lia.
Qed.

Lemma sort_by_stable k l :
  filter (λ a, key a = k) (sort_by key l) = filter (λ a, key a = k) l.
Proof.
  induction l as [|x l IH]; simpl; [done |].
  rewrite insert_by_stable by apply sort_by_sorted.
  by rewrite !filter_cons, IH.
Qed.

End PySort.

Lemma sorted_perm (l : list Z) : sorted l ≡ₚ l.
Proof. apply sort_by_perm. Qed.

Lemma sorted_ascending (l : list Z) : Sorted Z.le (sorted l).
Proof. apply (sort_by_sorted id). Qed.

Lemma sorted_length (l : list Z) : length (sorted l) = length l.
Proof. apply sort_by_length. Qed.

Section PyDict.
Context {V : Type}.
Implicit Types (d : dict V) (k : string) (v : V).

Lemma dict_lookup_set d k v : dict_lookup (dict_set d k v) k = Some v.
Proof.
  induction d as [|[k' v'] d IH]; simpl.
  - by rewrite decide_True.
  - case_decide; simpl.
    + by rewrite decide_True.
    + by rewrite decide_False.
Qed.

Lemma dict_lookup_set_ne d k k' v :
  k ≠ k' → dict_lookup (dict_set d k v) k' = dict_lookup d k'.
Proof.
  intros Hne. induction d as [|[k0 v0] d IH]; simpl.
  - by rewrite decide_False.
  - case_decide; simpl.
    + subst k0. by rewrite !decide_False.
    + by rewrite IH.
Qed.

Lemma dict_get_set d k v dflt : dict_get (dict_set d k v) k dflt = v.
Proof. unfold dict_get. by rewrite dict_lookup_set. Qed.

Lemma dict_get_set_ne d k k' v dflt :
  k ≠ k' → dict_get (dict_set d k v) k' dflt = dict_get d k' dflt.
Proof. intros. unfold dict_get. by rewrite dict_lookup_set_ne. Qed.

Lemma dict_getitem_set d k v : dict_getitem (dict_set d k v) k = Ok v.
Proof. unfold dict_getitem. by rewrite dict_lookup_set. Qed.

Lemma dict_in_getitem d k :
  dict_in k d = true → ∃ v, dict_lookup d k = Some v ∧ dict_getitem d k = Ok v.
Proof.
  unfold dict_in, dict_getitem. intros [v Hv]%bool_decide_eq_true.
  exists v. by rewrite Hv.
Qed.

Lemma dict_not_in d k : dict_in k d = false → dict_lookup d k = None.
Proof.
  unfold dict_in. intros H%bool_decide_eq_false.
  by apply eq_None_not_Some.
Qed.

End PyDict.

(** ** The cut analysis of [davinci_resolve_mcp.py] *)

Section CutScan.
Import Resolve.
Implicit Types (c p : clip) (vc pre rest : list clip)
  (cl : list Z) (ct : dict Z) (k : string).

Lemma positive_durations_cons c rest :
  positive_durations (c :: rest)
  = (if decide (duration c > 0) then [duration c] else []) ++ positive_durations rest.
Proof.
  unfold positive_durations. rewrite filter_cons.
  by case_decide.
Qed.

Lemma clip_step_first vc cl ct c :
  clip_step vc (cl, ct) 0 c
  = Ok (cl ++ (if decide (duration c > 0) then [duration c] else []), ct).
Proof.
  unfold clip_step. rewrite (decide_False (P := 0 > 0)) by lia.
  case_decide; [done | by rewrite app_nil_r].
Qed.

Lemma clip_step_next pre p rest cl ct c :
  clip_step ((pre ++ [p]) ++ rest) (cl, ct) (len (pre ++ [p])) c
  = Ok (cl ++ (if decide (duration c > 0) then [duration c] else []),
        count_cut ct (classify p c)).
Proof.
  unfold clip_step.
  rewrite (decide_True (P := len (pre ++ [p]) > 0)).
  - rewrite getitem_last_of_prefix. simpl. unfold classify.
    assert ((if decide (duration c > 0) then cl ++ [duration c] else cl)
            = cl ++ (if decide (duration c > 0) then [duration c] else [])) as ->.
    { case_decide; [done | by rewrite app_nil_r]. }
    by repeat case_decide.
  - rewrite len_app. pose proof (len_nonneg pre). change (len [p]) with 1. lia.
Qed.

(** The loop, resumed after the clips [pre], visits the rest: it collects
    the positive durations and counts the class of every adjacent pair. *)
Lemma scan_from pre rest cl ct :
  for_enumerate (clip_step (pre ++ rest)) (len pre) rest (cl, ct)
  = Ok (cl ++ positive_durations rest,
        fold_left count_cut (pair_kinds (option_list (last pre) ++ rest)) ct).
Proof.
  revert pre cl ct.
  induction rest as [|c rest IH]; intros pre cl ct.
  - simpl. rewrite !app_nil_r. by destruct (last pre).
  - cbn [for_enumerate]. rewrite positive_durations_cons.
    destruct pre as [|p0 pre0 _] using rev_ind.
    + change (len []) with 0. rewrite clip_step_first. simpl.
      specialize (IH [c]). simpl in IH. rewrite IH.
      by rewrite <- app_assoc.
    + rewrite clip_step_next. simpl.
      replace ((pre0 ++ [p0]) ++ c :: rest) with (((pre0 ++ [p0]) ++ [c]) ++ rest)
        by (by rewrite <- (app_assoc _ [c] rest)).
      replace (len (pre0 ++ [p0]) + 1) with (len ((pre0 ++ [p0]) ++ [c]))
        by (by rewrite (len_app _ [c])).
      rewrite IH, !last_snoc, <- !app_assoc. simpl.
      done.
Qed.

Lemma scan_clips_eq vc :
  scan_clips vc = Ok (positive_durations vc, fold_left count_cut (pair_kinds vc) []).
Proof. apply (scan_from [] vc [] []). Qed.

Lemma count_cut_get ct k k' :
  dict_get (count_cut ct k) k' 0
  = dict_get ct k' 0 + (if decide (k = k') then 1 else 0).
Proof.
  unfold count_cut. case_decide as Hk.
  - subst k'. by rewrite dict_get_set.
  - rewrite dict_get_set_ne by done. lia.
Qed.

Lemma count_cut_fold ks ct k :
  dict_get (fold_left count_cut ks ct) k 0
  = dict_get ct k 0 + len (filter (λ k', k' = k) ks).
Proof.
  revert ct. induction ks as [|k0 ks IH]; intros ct; simpl.
  - rewrite filter_nil. change (len []) with 0. lia.
  - rewrite IH, count_cut_get, filter_cons.
    case_decide; [| lia].
    unfold len. simpl length. lia.
Qed.

Lemma scan_counts vc k :
  dict_get (fold_left count_cut (pair_kinds vc) []) k 0 = pairs_of_kind k vc.
Proof. rewrite count_cut_fold. unfold pairs_of_kind, dict_get. simpl. lia. Qed.

Lemma pair_kinds_len vc : vc ≠ [] → len (pair_kinds vc) = len vc - 1.
Proof.
  induction vc as [|p vc IH]; [done | intros _].
  destruct vc as [|c vc]; [done |].
  change (pair_kinds (p :: c :: vc)) with (classify p c :: pair_kinds (c :: vc)).
  unfold len in *. simpl length in *. rewrite !Nat2Z.inj_succ.
  rewrite !Nat2Z.inj_succ in IH. rewrite IH by done. lia.
Qed.

Lemma classify_cases p c :
  classify p c = "hard_cut" ∧ start c - end_ p = 0
  ∨ classify p c = "gap" ∧ start c - end_ p > 0
  ∨ classify p c = "overlap" ∧ start c - end_ p < 0.
Proof. unfold classify. repeat case_decide; auto with lia. Qed.

(** Every pair lands in exactly one of the three classes. *)
Lemma pair_kinds_partition vc :
  pairs_of_kind "gap" vc + pairs_of_kind "hard_cut" vc + pairs_of_kind "overlap" vc
  = len (pair_kinds vc).
Proof.
  unfold pairs_of_kind.
  induction vc as [|p vc IH]; [done |].
  destruct vc as [|c vc]; [done |].
  change (pair_kinds (p :: c :: vc)) with (classify p c :: pair_kinds (c :: vc)).
  rewrite !filter_cons.
  destruct (classify_cases p c) as [[-> _]|[[-> _]|[-> _]]];
    repeat case_decide; try done;
    unfold len in *; rewrite ?length_cons; lia.
Qed.

Lemma truediv_len {A} (a : Q) (l : list A) :
  l ≠ [] → truediv a (inject_Z (len l)) = Ok (a / inject_Z (len l))%Q.
Proof.
  intros Hl. unfold truediv. rewrite decide_False; [done |].
  unfold Qeq. simpl. destruct l; [done |]. unfold len. simpl length. lia.
Qed.

Lemma median_index cl :
  cl ≠ [] → ∃ m, sorted cl !! Z.to_nat (len cl `div` 2) = Some m
                 ∧ getitem (sorted cl) (len cl `div` 2) = Ok m.
Proof.
  intros Hl.
  assert (0 < len cl) as Hpos by (destruct cl; [done | unfold len; simpl length; lia]).
  assert (0 ≤ len cl `div` 2 < len cl) as Hi
    by (split; [apply Z.div_pos; lia | apply Z.div_lt; lia]).
  destruct (lookup_lt_is_Some_2 (sorted cl) (Z.to_nat (len cl `div` 2))) as [m Hm].
  { rewrite sorted_length. unfold len in *. lia. }
  exists m. split; [done |]. apply getitem_nonneg; [lia | done].
Qed.

(** With a non-empty cut-length list every step of the return statement
    succeeds. *)
Lemma summarize_stats cl ct :
  cl ≠ [] →
  ∃ lo hi m,
    min cl = Ok lo ∧ max cl = Ok hi
    ∧ sorted cl !! Z.to_nat (len cl `div` 2) = Some m
    ∧ summarize cl ct = Ok (Stats {|
        total_cuts := len cl;
        average_cut_length := inject_Z (sum cl) / inject_Z (len cl);
        shortest_cut := lo;
        longest_cut := hi;
        cut_types := ct;
        median_cut_length := m;
        editing_pace :=
          if decide (inject_Z (sum cl) / inject_Z (len cl) < 120)%Q
          then "fast" else "slow"
      |}).
Proof.
  intros Hl. destruct (median_index cl Hl) as (m & Hm & Hget).
  destruct cl as [|x cl']; [done |].
  exists (fold_left Z.min cl' x), (fold_left Z.max cl' x), m.
  do 3 (split; [done |]).
  unfold summarize. rewrite !truediv_len, !bind_Ok by done.
  unfold min, max. by rewrite !bind_Ok, Hget, !bind_Ok.
Qed.

Lemma analyze_timeline t :
  analyze_cut_patterns (Timeline t)
  = summarize (positive_durations (video_clips t))
      (fold_left count_cut (pair_kinds (video_clips t)) []).
Proof. unfold analyze_cut_patterns. by rewrite scan_clips_eq. Qed.

End CutScan.

Section CutAnalysis.
Import Resolve.

(** C1. In [analyze_cut_patterns] the video clips are visited in ascending
    order of [start].  With at least one video clip of positive duration
    the function returns statistics, and in their [cut_types] the counter
    of every class equals the number of adjacent pairs [(prev, curr)]
    whose gap [curr.start - prev.end] falls in that class ([hard_cut] for
    0, [gap] for positive, [overlap] for negative): each pair increments
    exactly one counter, and for [n >= 1] video clips the three counters
    add up to [n - 1].  The loop computes the same counters when no video
    clip has a positive duration, but then the function answers
    [No cuts found] and returns no counter. *)
Theorem cut_types_partition (t : timeline_data) :
  video_clips t ≠ [] →
  Sorted (λ a b, start a ≤ start b) (video_clips t)
  ∧ video_clips t ≡ₚ filter (λ c, track_type c = "video") (clips t)
  ∧ (positive_durations (video_clips t) ≠ [] →
     ∃ s, analyze_cut_patterns (Timeline t) = Ok (Stats s)
          ∧ scan_clips (video_clips t)
            = Ok (positive_durations (video_clips t), cut_types s)
          ∧ (∀ k, dict_get (cut_types s) k 0 = pairs_of_kind k (video_clips t))
          ∧ dict_get (cut_types s) "gap" 0 + dict_get (cut_types s) "hard_cut" 0
              + dict_get (cut_types s) "overlap" 0 = len (video_clips t) - 1)
  ∧ (positive_durations (video_clips t) = [] →
     analyze_cut_patterns (Timeline t) = Ok (Failure "No cuts found")
     ∧ ∃ counters,
         scan_clips (video_clips t) = Ok ([], counters)
         ∧ (∀ k, dict_get counters k 0 = pairs_of_kind k (video_clips t))
         ∧ dict_get counters "gap" 0 + dict_get counters "hard_cut" 0
             + dict_get counters "overlap" 0 = len (video_clips t) - 1).
Proof.
  intros Hne.
  assert (dict_get (fold_left count_cut (pair_kinds (video_clips t)) []) "gap" 0
          + dict_get (fold_left count_cut (pair_kinds (video_clips t)) []) "hard_cut" 0
          + dict_get (fold_left count_cut (pair_kinds (video_clips t)) []) "overlap" 0
          = len (video_clips t) - 1) as Hsum.
  { rewrite !scan_counts, pair_kinds_partition. by apply pair_kinds_len. }
  split; [apply (sort_by_sorted start) |].
  split; [apply sort_by_perm |].
  rewrite analyze_timeline, scan_clips_eq. split.
  - intros Hpos.
    destruct (summarize_stats (positive_durations (video_clips t))
                (fold_left count_cut (pair_kinds (video_clips t)) []) Hpos)
      as (lo & hi & m & _ & _ & _ & ->).
    eexists. split; [reflexivity |]. cbn [cut_types].
    split; [done |]. split; [apply scan_counts | exact Hsum].
  - intros ->. split; [done |]. eexists. split; [reflexivity |].
    split; [apply scan_counts | exact Hsum].
Qed.

Lemma cut_types_partition_witness :
  video_clips overlapping_timeline ≠ []
  ∧ positive_durations (video_clips overlapping_timeline) ≠ []
  ∧ ∃ s, analyze_cut_patterns (Timeline overlapping_timeline) = Ok (Stats s)
         ∧ cut_types s = [("hard_cut", 1); ("overlap", 1)]
         ∧ dict_get (cut_types s) "gap" 0 = 0
         ∧ dict_get (cut_types s) "gap" 0 + dict_get (cut_types s) "hard_cut" 0
             + dict_get (cut_types s) "overlap" 0 = 2
         ∧ len (video_clips overlapping_timeline) = 3.
Proof.
  assert (video_clips overlapping_timeline ≠ []) as H by (vm_compute; discriminate).
  assert (positive_durations (video_clips overlapping_timeline) ≠ []) as Hpos
    by (vm_compute; discriminate).
  split; [exact H |]. split; [exact Hpos |].
  destruct (cut_types_partition overlapping_timeline H) as (_ & _ & Hstats & _).
  destruct (Hstats Hpos) as (s & Hs & Hscan & Hcount & Hsum).
  exists s. split; [exact Hs |].
  assert (cut_types s = [("hard_cut", 1); ("overlap", 1)]) as Hct
    by (vm_compute in Hscan; injection Hscan as Hdict; symmetry; exact Hdict).
  split; [exact Hct |]. split; [by rewrite Hcount |].
  split; [rewrite Hsum; reflexivity | reflexivity].
Defined.

(** The counters of the sample timeline: one hard cut, one overlap, no gap. *)
Example overlapping_timeline_counts :
  ∃ s, analyze_cut_patterns (Timeline overlapping_timeline) = Ok (Stats s)
       ∧ cut_types s = [("hard_cut", 1); ("overlap", 1)]
       ∧ total_cuts s = 3
       ∧ (average_cut_length s == 310 # 3)%Q
       ∧ editing_pace s = "fast".
Proof. eexists. split; [vm_compute; reflexivity |]. by vm_compute. Qed.

(** C7. The cut-length list holds the durations of exactly the clips with
    [duration > 0], in visiting order, while the pair counters range over
    all video clips whatever their duration; the analysis answers
    [{"error": "No cuts found"}] exactly when that list is empty, and
    statistics over the list otherwise. *)
Theorem no_cuts_iff_no_positive_duration (t : timeline_data) :
  ∃ counters,
    scan_clips (video_clips t) = Ok (positive_durations (video_clips t), counters)
    ∧ (∀ k, dict_get counters k 0 = pairs_of_kind k (video_clips t))
    ∧ (analyze_cut_patterns (Timeline t) = Ok (Failure "No cuts found")
       ↔ positive_durations (video_clips t) = [])
    ∧ (positive_durations (video_clips t) ≠ []
       ↔ ∃ s, analyze_cut_patterns (Timeline t) = Ok (Stats s)
              ∧ total_cuts s = len (positive_durations (video_clips t))).
Proof.
  exists (fold_left count_cut (pair_kinds (video_clips t)) []).
  split; [apply scan_clips_eq |].
  split; [apply scan_counts |].
  rewrite analyze_timeline.
  destruct (positive_durations (video_clips t)) as [|x cl] eqn:Hcl.
  - split; [done |]. split; [done |]. by intros (s & Hs & _).
  - destruct (summarize_stats (x :: cl) (fold_left count_cut (pair_kinds (video_clips t)) []))
      as (lo & hi & m & _ & _ & _ & ->); [done |].
    split; [done |]. split; [| done]. intros _. by eexists.
Qed.

Lemma no_cuts_iff_no_positive_duration_witness :
  positive_durations (video_clips empty_clips_timeline) = []
  ∧ analyze_cut_patterns (Timeline empty_clips_timeline) = Ok (Failure "No cuts found")
  ∧ pairs_of_kind "gap" (video_clips empty_clips_timeline) = 1.
Proof.
  destruct (no_cuts_iff_no_positive_duration empty_clips_timeline)
    as (counters & _ & _ & Hfail & _).
  split; [reflexivity |]. split; [| reflexivity].
  apply Hfail. reflexivity.
Defined.

(** A zero-duration clip adds no cut length but still forms a pair. *)
Example zero_duration_clip_still_adjacent :
  ∃ s, analyze_cut_patterns (Timeline (timeline_of [video 0 50 50; video 50 50 0]))
         = Ok (Stats s)
       ∧ total_cuts s = 1 ∧ cut_types s = [("hard_cut", 1)].
Proof. eexists. split; [vm_compute; reflexivity |]. done. Qed.

Example only_zero_durations_is_no_cuts :
  analyze_cut_patterns (Timeline empty_clips_timeline)
  = Ok (Failure "No cuts found").
Proof. reflexivity. Qed.

(** C2. Whenever the cut-length list is non-empty the analysis returns
    statistics whose [median_cut_length] is the element at index
    [len // 2] of the list sorted ascending (the upper middle element for
    an even length). *)
Theorem median_is_floor_index (t : timeline_data) :
  positive_durations (video_clips t) ≠ [] →
  ∃ s, analyze_cut_patterns (Timeline t) = Ok (Stats s)
       ∧ sorted (positive_durations (video_clips t))
           !! Z.to_nat (len (positive_durations (video_clips t)) `div` 2)
         = Some (median_cut_length s)
       ∧ Sorted Z.le (sorted (positive_durations (video_clips t)))
       ∧ sorted (positive_durations (video_clips t))
           ≡ₚ positive_durations (video_clips t).
Proof.
  intros Hne. rewrite analyze_timeline.
  destruct (summarize_stats (positive_durations (video_clips t))
              (fold_left count_cut (pair_kinds (video_clips t)) []) Hne)
    as (lo & hi & m & _ & _ & Hm & ->).
  eexists. split; [done |]. split; [exact Hm |].
  split; [apply sorted_ascending | apply sorted_perm].
Qed.

(** Durations 10, 20, 30, 40 have median 30, not 25. *)
Lemma median_is_floor_index_witness :
  positive_durations (video_clips four_cut_timeline) = [40; 10; 30; 20]
  ∧ ∃ s, analyze_cut_patterns (Timeline four_cut_timeline) = Ok (Stats s)
         ∧ median_cut_length s = 30.
Proof.
  split; [reflexivity |].
  destruct (median_is_floor_index four_cut_timeline) as (s & Hs & Hm & _).
  - vm_compute. discriminate.
  - exists s. split; [exact Hs |].
    vm_compute in Hm. by injection Hm.
Defined.

(** C3. Whenever the cut-length list is non-empty the analysis returns
    statistics whose [average_cut_length] is the sum of the list over its
    length and whose [editing_pace] is ["fast"] exactly when that average is
    below 120, and ["slow"] otherwise, in particular at exactly 120. *)
Theorem pace_fast_iff_below_120 (t : timeline_data) :
  positive_durations (video_clips t) ≠ [] →
  ∃ s, analyze_cut_patterns (Timeline t) = Ok (Stats s)
       ∧ average_cut_length s
         = (inject_Z (sum (positive_durations (video_clips t)))
            / inject_Z (len (positive_durations (video_clips t))))%Q
       ∧ (editing_pace s = "fast" ↔ (average_cut_length s < 120)%Q)
       ∧ (editing_pace s = "slow" ↔ (120 <= average_cut_length s)%Q)
       ∧ ((average_cut_length s == 120)%Q → editing_pace s = "slow").
Proof.
  intros Hne. rewrite analyze_timeline.
  destruct (summarize_stats (positive_durations (video_clips t))
              (fold_left count_cut (pair_kinds (video_clips t)) []) Hne)
    as (lo & hi & m & _ & _ & _ & ->).
  eexists. split; [done |]. split; [done |]. cbn [editing_pace average_cut_length].
  case_decide as Hlt.
  - split; [done |]. split.
    + split; [done |]. intros Hle. by apply Qle_not_lt in Hle.
    + intros Heq. rewrite Heq in Hlt. by apply Qlt_irrefl in Hlt.
  - apply Qnot_lt_le in Hlt. split; [| done].
    split; [done |]. intros Hlt'. by apply Qle_not_lt in Hlt.
Qed.

(** Cuts of 100 and 140 frames average to exactly 120: the pace is slow. *)
Lemma pace_fast_iff_below_120_witness :
  positive_durations (video_clips boundary_timeline) = [100; 140]
  ∧ ∃ s, analyze_cut_patterns (Timeline boundary_timeline) = Ok (Stats s)
         ∧ (average_cut_length s == 120)%Q
         ∧ editing_pace s = "slow".
Proof.
  split; [reflexivity |].
  destruct (pace_fast_iff_below_120 boundary_timeline)
    as (s & Hs & Havg & _ & _ & Hslow).
  - vm_compute. discriminate.
  - assert (average_cut_length s == 120)%Q as Heq by (rewrite Havg; reflexivity).
    exists s. split; [exact Hs |]. split; [exact Heq | exact (Hslow Heq)].
Defined.

Example pace_just_below_120 :
  ∃ s, analyze_cut_patterns (Timeline (timeline_of [video 0 100 100; video 100 239 139]))
         = Ok (Stats s)
       ∧ (average_cut_length s == 239 # 2)%Q ∧ editing_pace s = "fast".
Proof. eexists. split; [vm_compute; reflexivity |]. by vm_compute. Qed.

End CutAnalysis.

(** ** The tool-usage counters of [davinci_resolve_mcp.py] *)

Section ToolUsage.
Import Resolve.
Implicit Types (tr : tracker) (usage : dict (dict Z)).

(** Appending an action always succeeds, persists the document and leaves
    the counters alone. *)
Lemma track_editing_action_Ok tr now_action now_session kind d :
  ∃ tr', track_editing_action tr now_action now_session kind d = Ok tr'
         ∧ tool_usage (current tr') = tool_usage (current tr)
         ∧ stored tr' = Some (current tr').
Proof.
  unfold track_editing_action.
  set (l := match editing_sessions (current tr) with
            | [] => editing_sessions (current tr) ++ [Session now_session []]
            | _ :: _ => editing_sessions (current tr)
            end).
  assert (l ≠ []) as Hl.
  { unfold l. destruct (editing_sessions (current tr)); done. }
  destruct (mutate_item_Ok l (-1) (add_action (Action now_action kind d))
              (Z.to_nat (len l + -1))) as (x & _ & ->).
  - apply index_negative. destruct l; [done |]. unfold len. simpl length. lia.
  - rewrite bind_Ok. eexists. split; [done |]. done.
Qed.

(** The page entry the handler works on is the recorded one, or the empty
    dictionary it has just created. *)
Lemma page_entry usage page :
  dict_getitem (if dict_in page usage then usage else dict_set usage page []) page
  = Ok (dict_get usage page []).
Proof.
  destruct (dict_in page usage) eqn:Hin.
  - destruct (dict_in_getitem _ _ Hin) as (v & Hv & ->).
    unfold dict_get. by rewrite Hv.
  - rewrite dict_getitem_set. unfold dict_get.
    by rewrite (dict_not_in _ _ Hin).
Qed.

Lemma page_entry_other usage page p :
  p ≠ page →
  dict_get (if dict_in page usage then usage else dict_set usage page []) p []
  = dict_get usage p [].
Proof.
  intros Hne. destruct (dict_in page usage); [done |].
  by rewrite dict_get_set_ne.
Qed.

Lemma handle_track_tool_usage_Ok tr now_tool now_action now_session tool_name page :
  ∃ tr',
    handle_track_tool_usage tr now_tool now_action now_session tool_name page
    = Ok (tr', [text_content
                  ("Tracked usage of " +:+ tool_name +:+ " in " +:+ page +:+ " page")])
    ∧ tool_usage (current tr')
      = dict_set (if dict_in page (tool_usage (current tr))
                  then tool_usage (current tr)
                  else dict_set (tool_usage (current tr)) page [])
          page
          (dict_set (dict_get (tool_usage (current tr)) page []) tool_name
             (usage_count tr page tool_name + 1))
    ∧ stored tr' = Some (current tr').
Proof.
  unfold handle_track_tool_usage.
  rewrite !page_entry, !bind_Ok.
  match goal with
  | |- context [track_editing_action ?t ?a ?b ?k ?d] =>
      destruct (track_editing_action_Ok t a b k d) as (tr' & -> & Hu & Hs)
  end.
  rewrite bind_Ok. exists tr'. split; [done |]. split; [| done].
  by rewrite Hu.
Qed.

(** C9. Every [track_tool_usage] call succeeds, raises
    [counters[page][tool_name]] by exactly one, leaves every other counter
    as it was (so no counter ever decreases) and persists the document;
    appending an action, the only other write of the server, does not touch
    the counters; and three calls for [("color", "Qualifier")] on a fresh
    store leave [counters["color"]["Qualifier"] == 3]. *)
Theorem tool_usage_counters_monotonic :
  (∀ tr now_tool now_action now_session tool_name page,
     ∃ tr',
       handle_track_tool_usage tr now_tool now_action now_session tool_name page
       = Ok (tr', [text_content
                     ("Tracked usage of " +:+ tool_name +:+ " in " +:+ page +:+ " page")])
       ∧ usage_count tr' page tool_name = usage_count tr page tool_name + 1
       ∧ (∀ p t, (p, t) ≠ (page, tool_name) → usage_count tr' p t = usage_count tr p t)
       ∧ (∀ p t, usage_count tr p t ≤ usage_count tr' p t)
       ∧ stored tr' = Some (current tr'))
  ∧ (∀ tr now_action now_session kind d,
       ∃ tr', track_editing_action tr now_action now_session kind d = Ok tr'
              ∧ tool_usage (current tr') = tool_usage (current tr))
  ∧ (∀ now,
       ∃ tr1 tr2 tr3 r1 r2 r3,
         handle_track_tool_usage (new_tracker None) now now now "Qualifier" "color"
         = Ok (tr1, r1)
         ∧ handle_track_tool_usage tr1 now now now "Qualifier" "color" = Ok (tr2, r2)
         ∧ handle_track_tool_usage tr2 now now now "Qualifier" "color" = Ok (tr3, r3)
         ∧ (tools ← dict_getitem (tool_usage (current tr3)) "color";
            dict_getitem tools "Qualifier") = Ok 3).
Proof.
  split; [| split].
  - intros tr now_tool now_action now_session tool_name page.
    destruct (handle_track_tool_usage_Ok tr now_tool now_action now_session
                tool_name page) as (tr' & Hrun & Hu & Hs).
    assert (usage_count tr' page tool_name = usage_count tr page tool_name + 1) as Hup.
    { unfold usage_count at 1. rewrite Hu. by rewrite !dict_get_set. }
    assert (∀ p t, (p, t) ≠ (page, tool_name)
                   → usage_count tr' p t = usage_count tr p t) as Hother.
    { intros p t Hne. unfold usage_count at 1. rewrite Hu.
      destruct (decide (p = page)) as [-> | Hp].
      - rewrite dict_get_set.
        rewrite dict_get_set_ne; [done | congruence].
      - rewrite dict_get_set_ne by done.
        by rewrite page_entry_other. }
    exists tr'. repeat split; try done.
    intros p t. destruct (decide ((p, t) = (page, tool_name))) as [[= -> ->] | Hne].
    + lia.
    + rewrite Hother by done. lia.
  - intros tr now_action now_session kind d.
    destruct (track_editing_action_Ok tr now_action now_session kind d)
      as (tr' & Hrun & Hu & _).
    by exists tr'.
  - intros now. do 6 eexists.
    split; [vm_compute; reflexivity |].
    split; [vm_compute; reflexivity |].
    split; [vm_compute; reflexivity |].
    vm_compute. reflexivity.
Qed.

Lemma tool_usage_counters_monotonic_witness :
  ∃ tr',
    handle_track_tool_usage (new_tracker None) "10:00" "10:00" "10:00" "Qualifier" "color"
    = Ok (tr', [text_content "Tracked usage of Qualifier in color page"])
    ∧ usage_count tr' "color" "Qualifier" = 1
    ∧ usage_count tr' "color" "Curves" = 0.
Proof.
  destruct (proj1 tool_usage_counters_monotonic (new_tracker None)
              "10:00" "10:00" "10:00" "Qualifier" "color")
    as (tr' & Hrun & Hup & Hother & _).
  exists tr'. split; [exact Hrun |]. split; [exact Hup |].
  apply (Hother "color" "Curves"). discriminate.
Defined.

End ToolUsage.

(** ** The workflow suggestions of [davinci_resolve_mcp.py] *)

Section Suggestions.
Import Resolve.
Implicit Types (tr : tracker) (usage : dict (dict Z)) (acc : list string).

Lemma page_loop page (tools : dict Z) acc :
  fold_left (λ suggestions '(tool, count),
      if decide (count > 10)
      then suggestions ++ [shortcut_suggestion page tool count]
      else suggestions) tools acc
  = acc ++ page_shortcuts page tools.
Proof.
  revert acc. induction tools as [|[tool count] tools IH]; intros acc.
  - by rewrite app_nil_r.
  - cbn [fold_left]. rewrite IH. unfold page_shortcuts. rewrite bind_cons.
    case_decide; [by rewrite <- app_assoc | done].
Qed.

Lemma tool_suggestions_eq usage acc :
  tool_suggestions usage acc = acc ++ all_shortcuts usage.
Proof.
  unfold tool_suggestions. revert acc.
  induction usage as [|[page tools] usage IH]; intros acc.
  - by rewrite app_nil_r.
  - cbn [fold_left]. rewrite page_loop, IH. unfold all_shortcuts.
    by rewrite bind_cons, <- app_assoc.
Qed.

Lemma shortcut_listed usage page tools tool count :
  (page, tools) ∈ usage → (tool, count) ∈ tools → count > 10 →
  shortcut_suggestion page tool count ∈ all_shortcuts usage.
Proof.
  intros Hp Ht Hc. unfold all_shortcuts.
  apply list_elem_of_bind. exists (page, tools). split; [| done].
  apply list_elem_of_bind. exists (tool, count). split; [| done].
  rewrite decide_True by done. apply list_elem_of_singleton. done.
Qed.

Lemma no_shortcuts usage : ¬ frequent_tool usage → all_shortcuts usage = [].
Proof.
  intros Hno. apply elem_of_nil_inv. intros s Hs.
  apply list_elem_of_bind in Hs as ([page tools] & Hs & Hp).
  apply list_elem_of_bind in Hs as ([tool count] & Hs & Ht).
  case_decide; [| by apply not_elem_of_nil in Hs].
  apply Hno. by exists page, tools, tool, count.
Qed.

Lemma pace_label (q : Q) :
  (0 < q)%Q →
  ∃ label, getitem ["quick"; "medium"; "slow"] (Z.min 2 (int (q / 100))) = Ok label.
Proof.
  intros Hq.
  assert (0 <= q / 100)%Q as Hle.
  { apply Qmult_le_0_compat; [by apply Qlt_le_weak | done]. }
  assert (0 ≤ int (q / 100)) as Hint.
  { unfold int. rewrite decide_True by done.
    change 0 with (Qfloor 0). by apply Qfloor_resp_le. }
  destruct (decide (int (q / 100) = 0)) as [-> | ?]; [by eexists |].
  destruct (decide (int (q / 100) = 1)) as [-> | ?]; [by eexists |].
  rewrite Z.min_l by lia. by eexists.
Qed.

Lemma timeline_suggestions_Ok (p : cut_patterns) acc :
  ∃ extra, timeline_suggestions p acc = Ok (acc ++ extra)
           ∧ (∀ e, p = Failure e → extra = []).
Proof.
  destruct p as [e | s]; simpl.
  - exists []. by rewrite app_nil_r.
  - set (acc' := if decide (editing_pace s = "fast") then acc ++ [pace_suggestion] else acc).
    assert (∃ extra, acc' = acc ++ extra) as [extra ->].
    { unfold acc'. case_decide; [by eexists | exists []; by rewrite app_nil_r]. }
    case_decide as Hpos.
    + destruct (pace_label _ Hpos) as [label ->]. rewrite bind_Ok.
      eexists. split; [by rewrite <- app_assoc | done].
    + by exists extra.
Qed.

Lemma analyze_cut_patterns_total (reply : timeline_reply) :
  ∃ p, analyze_cut_patterns reply = Ok p
       ∧ (∀ t, reply = Timeline t → positive_durations (video_clips t) = []
               → p = Failure "No cuts found")
       ∧ (∀ e, reply = TimelineError e → p = Failure e).
Proof.
  destruct reply as [e | t].
  - exists (Failure e). split; [done |]. split; [done |]. by intros ? [= ->].
  - rewrite analyze_timeline.
    destruct (positive_durations (video_clips t)) as [|x cl] eqn:Hcl.
    + exists (Failure "No cuts found"). split; [done |]. split; [| done].
      by intros ? [= <-].
    + destruct (summarize_stats (x :: cl)
                  (fold_left count_cut (pair_kinds (video_clips t)) []))
        as (lo & hi & m & _ & _ & _ & ->); [done |].
      eexists. split; [done |]. split; [| done].
      intros ? [= <-]. by rewrite Hcl.
Qed.

Lemma suggestions_core tr (reply : timeline_reply) :
  ∃ suggestions,
    suggest_workflow_optimization tr reply = Ok suggestions
    ∧ suggestions ≠ []
    ∧ (∀ page tools tool count,
         (page, tools) ∈ tool_usage (current tr) → (tool, count) ∈ tools →
         count > 10 → shortcut_suggestion page tool count ∈ suggestions)
    ∧ (¬ frequent_tool (tool_usage (current tr)) →
       (∀ t, reply = Timeline t → positive_durations (video_clips t) = []) →
       suggestions = [fallback_suggestion]).
Proof.
  unfold suggest_workflow_optimization.
  destruct (analyze_cut_patterns_total reply) as (p & -> & Hempty & Herr).
  rewrite tool_suggestions_eq, bind_Ok. simpl app.
  destruct (timeline_suggestions_Ok p (all_shortcuts (tool_usage (current tr))))
    as (extra & -> & Hextra).
  rewrite bind_Ok.
  assert (∀ l : list string,
            ∃ l', match l with
                  | [] => mret (l ++ [fallback_suggestion])
                  | _ :: _ => mret l
                  end = Ok l'
                  ∧ l' ≠ [] ∧ (∀ x, x ∈ l → x ∈ l')
                  ∧ (l = [] → l' = [fallback_suggestion])) as Hfinal.
  { intros [|x l].
    - exists [fallback_suggestion]. split; [reflexivity |].
      split; [done |]. split; [| done]. intros x Hx. by apply not_elem_of_nil in Hx.
    - exists (x :: l). split; [reflexivity |]. by repeat split. }
  destruct (Hfinal (all_shortcuts (tool_usage (current tr)) ++ extra))
    as (l' & -> & Hne & Hin & Hnil).
  exists l'. split; [done |]. split; [done |]. split.
  - intros page tools tool count Hp Ht Hc.
    apply Hin, elem_of_app. left. by eapply shortcut_listed.
  - intros Hno Hnone. apply Hnil.
    rewrite (no_shortcuts _ Hno). simpl. destruct reply as [e | t].
    + by apply (Hextra e), Herr.
    + apply (Hextra "No cuts found"), (Hempty t); [done |]. by apply Hnone.
Qed.




(** A fresh store next to a timeline with cuts: the suggestions come from
    the timeline and the fallback is not used. *)
Example fresh_store_live_timeline :
  suggest_workflow_optimization (new_tracker None) (Timeline overlapping_timeline)
  = Ok ["Your fast editing pace suggests using the Cut page for quicker edits";
        "Your average cut length of 103.3 frames suggests medium paced content"].
Proof. vm_compute. reflexivity. Qed.

Example frequent_tool_is_suggested :
  suggest_workflow_optimization busy_tracker (Timeline overlapping_timeline)
  = Ok ["Consider learning keyboard shortcuts for Qualifier in color page (used 11 times)";
        "Consider learning keyboard shortcuts for Blade in edit page (used 25 times)";
        "Your fast editing pace suggests using the Cut page for quicker edits";
        "Your average cut length of 103.3 frames suggests medium paced content"].
Proof. vm_compute. reflexivity. Qed.

End Suggestions.

(** ** The session log of [editing_watcher.py] *)

Section CutAggregate.
Import Watcher.
Implicit Types (c : cut) (cs : list cut) (cl : list Q) (cf : dict Z)
  (l : list session) (tr : tracker).

Lemma positive_lengths_app cs1 cs2 :
  positive_lengths (cs1 ++ cs2) = positive_lengths cs1 ++ positive_lengths cs2.
Proof. unfold positive_lengths. by rewrite omap_app, filter_app. Qed.

Lemma cut_step_eq cl cf c :
  cut_step (cl, cf) c
  = match cut_duration c with
    | Some q => Ok (cl ++ (if decide (0 < q)%Q then [q] else []),
                    Resolve.count_cut cf (cut_type c))
    | None => Raise TypeError
    end.
Proof.
  unfold cut_step. destruct (cut_duration c) as [q|]; [| done].
  case_decide; [done | by rewrite app_nil_r].
Qed.

Lemma cut_loop cs cl cf :
  for_each cut_step cs (cl, cf)
  = if decide (durations_given cs)
    then Ok (cl ++ positive_lengths cs,
             fold_left Resolve.count_cut (cut_type <$> cs) cf)
    else Raise TypeError.
Proof.
  revert cl cf. induction cs as [|c cs IH]; intros cl cf.
  - rewrite decide_True by constructor. simpl. by rewrite app_nil_r.
  - cbn [for_each]. rewrite cut_step_eq.
    destruct (cut_duration c) as [q|] eqn:Hq.
    + rewrite bind_Ok, IH.
      destruct (decide (durations_given cs)) as [Hcs | Hcs].
      * rewrite (decide_True (P := durations_given (c :: cs)))
          by (constructor; [by rewrite Hq | done]).
        unfold positive_lengths. cbn [omap list_omap]. rewrite Hq, filter_cons.
        case_decide; by rewrite <- app_assoc.
      * rewrite (decide_False (P := durations_given (c :: cs))); [done |].
        intros H. apply Hcs. by inversion H.
    + rewrite bind_Raise.
      rewrite (decide_False (P := durations_given (c :: cs))); [done |].
      intros H. inversion H as [|? ? [q Hq']]; congruence.
Qed.

Lemma session_loop l cl cf :
  for_each (λ s session, for_each cut_step (cuts session) s) l (cl, cf)
  = if decide (durations_given (l ≫= cuts))
    then Ok (cl ++ positive_lengths (l ≫= cuts),
             fold_left Resolve.count_cut (cut_type <$> (l ≫= cuts)) cf)
    else Raise TypeError.
Proof.
  revert cl cf. induction l as [|s l IH]; intros cl cf.
  - rewrite decide_True by constructor. simpl. by rewrite app_nil_r.
  - cbn [for_each]. rewrite cut_loop, bind_cons.
    destruct (decide (durations_given (cuts s))) as [Hs | Hs].
    + rewrite bind_Ok, IH.
      destruct (decide (durations_given (l ≫= cuts))) as [Hl | Hl].
      * rewrite decide_True by (by apply Forall_app).
        by rewrite positive_lengths_app, fmap_app, fold_left_app, app_assoc.
      * rewrite decide_False; [done |]. by intros [_ ?]%Forall_app.
    + rewrite bind_Raise, decide_False; [done |]. by intros [? _]%Forall_app.
Qed.

Lemma round_half_even_near q :
  (Qabs (q - inject_Z (round_half_even q)) <= 1 # 2)%Q.
Proof.
  apply Qabs_Qle_condition. unfold round_half_even.
  pose proof (Qfloor_le q) as Hlo. pose proof (Qlt_floor q) as Hhi.
  rewrite inject_Z_plus in Hhi. change (inject_Z 1) with 1%Q in Hhi.
  repeat case_decide; try destruct (Z.even (Qfloor q));
    rewrite ?inject_Z_plus; change (inject_Z 1) with 1%Q; split; lra.
Qed.

Lemma round_half_even_tie q :
  (Qabs (q - inject_Z (round_half_even q)) == 1 # 2)%Q →
  Z.even (round_half_even q) = true.
Proof.
  unfold round_half_even.
  pose proof (Qfloor_le q) as Hlo. pose proof (Qlt_floor q) as Hhi.
  rewrite inject_Z_plus in Hhi. change (inject_Z 1) with 1%Q in Hhi.
  repeat case_decide.
  - rewrite Qabs_pos by lra. intros Htie. lra.
  - rewrite inject_Z_plus. change (inject_Z 1) with 1%Q.
    rewrite Qabs_neg by lra. intros Htie. lra.
  - destruct (Z.even (Qfloor q)) eqn:He; [done |]. intros _.
    rewrite Z.even_add, He. reflexivity.
Qed.

(** The analysis in closed form. *)
Lemma analyze_cut_patterns_eq fsum tr :
  analyze_cut_patterns fsum tr
  = if decide (durations_given (recorded_cuts tr)) then
      match positive_lengths (recorded_cuts tr) with
      | [] => Ok None
      | _ :: _ =>
          let avg := binary64 (fsum (positive_lengths (recorded_cuts tr))
                               / inject_Z (len (positive_lengths (recorded_cuts tr)))) in
          Ok (Some {|
            average_cut_length := avg;
            total_cuts := len (positive_lengths (recorded_cuts tr));
            cut_type_preferences :=
              fold_left Resolve.count_cut (cut_type <$> recorded_cuts tr) [];
            suggested_cut_length := round2 avg
          |})
      end
    else Raise TypeError.
Proof.
  unfold analyze_cut_patterns, scan_cuts. rewrite session_loop.
  fold (recorded_cuts tr). case_decide; [| done].
  rewrite bind_Ok. simpl app.
  destruct (positive_lengths (recorded_cuts tr)) as [|q cl] eqn:Hcl; [done |].
  unfold float_truediv. by rewrite truediv_len.
Qed.

(** C4. [analyze_cut_patterns] works on the cuts of all sessions, and a
    cut recorded without a duration breaks it: [track_cut] stores [None]
    for a duration that is not given, the default of
    [cut.get("duration", 0)] does not apply to a key that is present, and
    the analysis raises [TypeError] instead of skipping the cut, also when
    other cuts have positive durations.  When every recorded cut carries a
    number, the analysis returns.  If some duration is positive, the
    result holds the float nearest to the sum of the positive durations
    over their count as [average_cut_length], that count as [total_cuts],
    the number of cuts of each type, and as [suggested_cut_length] the
    float nearest to [h / 100] for the integer [h] that
    [round_half_even] picks for a hundred times the average, which is at
    most [1 / 2] away from it and even when it is exactly [1 / 2] away.
    If no duration is positive, in particular
    if no cut is recorded, the result is the empty dictionary.
    [ZeroDivisionError] is never raised. *)
Theorem cut_aggregate_average fsum tr :
  (¬ durations_given (recorded_cuts tr) →
     analyze_cut_patterns fsum tr = Raise TypeError)
  ∧ (durations_given (recorded_cuts tr) →
     positive_lengths (recorded_cuts tr) ≠ [] →
     ∃ r h,
       analyze_cut_patterns fsum tr = Ok (Some r)
       ∧ average_cut_length r
         = binary64 (fsum (positive_lengths (recorded_cuts tr))
                     / inject_Z (len (positive_lengths (recorded_cuts tr))))
       ∧ total_cuts r = len (positive_lengths (recorded_cuts tr))
       ∧ h = round_half_even (average_cut_length r * 100)
       ∧ (Qabs (average_cut_length r * 100 - inject_Z h) <= 1 # 2)%Q
       ∧ ((Qabs (average_cut_length r * 100 - inject_Z h) == 1 # 2)%Q →
          Z.even h = true)
       ∧ suggested_cut_length r = binary64 (inject_Z h / 100)
       ∧ (∀ k, dict_get (cut_type_preferences r) k 0
               = len (filter (λ k', k' = k) (cut_type <$> recorded_cuts tr))))
  ∧ (durations_given (recorded_cuts tr) →
     positive_lengths (recorded_cuts tr) = [] →
     analyze_cut_patterns fsum tr = Ok None)
  ∧ (recorded_cuts tr = [] → analyze_cut_patterns fsum tr = Ok None)
  ∧ analyze_cut_patterns fsum tr ≠ Raise ZeroDivisionError.
Proof.
  rewrite analyze_cut_patterns_eq.
  split; [| split; [| split; [| split]]].
  - intros Hd. by rewrite decide_False.
  - intros Hd Hpos. rewrite decide_True by done.
    destruct (positive_lengths (recorded_cuts tr)) as [|q cl]; [done |].
    eexists _, _. split; [reflexivity |].
    cbn [average_cut_length total_cuts suggested_cut_length cut_type_preferences].
    split; [done |]. split; [done |]. split; [reflexivity |].
    split; [apply round_half_even_near |].
    split; [apply round_half_even_tie |]. split; [done |].
    intros k. rewrite count_cut_fold. unfold dict_get. simpl. lia.
  - intros Hd Hpos. rewrite decide_True by done. by rewrite Hpos.
  - intros ->. by rewrite decide_True by constructor.
  - case_decide; [| done].
    by destruct (positive_lengths (recorded_cuts tr)).
Qed.

Lemma cut_aggregate_average_witness :
  (¬ durations_given (recorded_cuts log_with_unmeasured_cut)
   ∧ positive_lengths (recorded_cuts log_with_unmeasured_cut) = [1%Q]
   ∧ analyze_cut_patterns float_sum log_with_unmeasured_cut = Raise TypeError)
  ∧ (durations_given (recorded_cuts rounding_log)
     ∧ ∃ r, analyze_cut_patterns float_sum rounding_log = Ok (Some r)
            ∧ (average_cut_length r == 4571153621781053 # 4503599627370496)%Q
            ∧ total_cuts r = 25
            ∧ (suggested_cut_length r == 4548635623644201 # 4503599627370496)%Q
            ∧ (suggested_cut_length r < 1015 # 1000)%Q)
  ∧ (durations_given (recorded_cuts two_session_log)
     ∧ ∃ r, analyze_cut_patterns float_sum two_session_log = Ok (Some r)
            ∧ positive_lengths (recorded_cuts two_session_log) = [1; 1; 2]%Q
            ∧ total_cuts r = 3
            ∧ (average_cut_length r == 6004799503160661 # 4503599627370496)%Q
            ∧ (suggested_cut_length r == 5989787504402760 # 4503599627370496)%Q)
  ∧ (durations_given (recorded_cuts eighth_log)
     ∧ ∃ r, analyze_cut_patterns float_sum eighth_log = Ok (Some r)
            ∧ (average_cut_length r == 1 # 8)%Q
            ∧ total_cuts r = 1
            ∧ (suggested_cut_length r == 8646911284551352 # 72057594037927936)%Q
            ∧ (suggested_cut_length r < 12 # 100)%Q).
Proof.
  assert (¬ durations_given (recorded_cuts log_with_unmeasured_cut)) as Hn
    by (apply (bool_decide_unpack _); vm_compute; exact I).
  assert (durations_given (recorded_cuts rounding_log)) as Hd
    by (apply (bool_decide_unpack _); vm_compute; exact I).
  assert (durations_given (recorded_cuts two_session_log)) as Hd2
    by (apply (bool_decide_unpack _); vm_compute; exact I).
  assert (durations_given (recorded_cuts eighth_log)) as Hd3
    by (apply (bool_decide_unpack _); vm_compute; exact I).
  split; [| split; [| split]].
  - split; [exact Hn |]. split; [reflexivity |].
    exact (proj1 (cut_aggregate_average float_sum log_with_unmeasured_cut) Hn).
  - split; [exact Hd |].
    destruct (proj1 (proj2 (cut_aggregate_average float_sum rounding_log)) Hd)
      as (r & h & Hr & Havg & Htotal & Hh & _ & _ & Hround & _); [done |].
    exists r. split; [exact Hr |].
    rewrite Hround, Hh, Havg, Htotal. vm_compute. repeat split.
  - split; [exact Hd2 |].
    destruct (proj1 (proj2 (cut_aggregate_average float_sum two_session_log)) Hd2)
      as (r & h & Hr & Havg & Htotal & Hh & _ & _ & Hround & _); [done |].
    exists r. split; [exact Hr |]. split; [reflexivity |].
    rewrite Hround, Hh, Havg, Htotal. vm_compute. repeat split.
  - split; [exact Hd3 |].
    destruct (proj1 (proj2 (cut_aggregate_average float_sum eighth_log)) Hd3)
      as (r & h & Hr & Havg & Htotal & Hh & _ & _ & Hround & _); [done |].
    exists r. split; [exact Hr |].
    rewrite Hround, Hh, Havg, Htotal. vm_compute. repeat split.
Defined.

(** A store on which nothing was recorded has no data. *)
Example fresh_store_has_no_data fsum :
  analyze_cut_patterns fsum (new_tracker None) = Ok None.
Proof. reflexivity. Qed.

(** A cut recorded without a duration holds [None], and the comparison
    [None > 0] raises [TypeError]. *)
Example unmeasured_cut_raises fsum :
  analyze_cut_patterns fsum log_with_unmeasured_cut = Raise TypeError.
Proof. reflexivity. Qed.

End CutAggregate.

Section SessionLog.
Import Watcher.
Implicit Types (tr : tracker) (now kind : string) (d : details)
  (session_id : Z).

(** Past the end of the list the guard fails and nothing happens. *)
Lemma track_action_past_end tr now session_id kind d :
  len (sessions (current tr)) ≤ session_id →
  track_action tr now session_id kind d = Ok tr.
Proof. intros H. unfold track_action. by rewrite decide_False by lia. Qed.

Lemma track_action_in_range tr now session_id kind d :
  in_range (sessions (current tr)) session_id →
  ∃ k s,
    index (sessions (current tr)) session_id = Ok k
    ∧ sessions (current tr) !! k = Some s
    ∧ track_action tr now session_id kind d
      = Ok (save_patterns
              (with_sessions tr
                 (<[k := add_action (Action now kind d) s]> (sessions (current tr))))).
Proof.
  intros Hin. destruct (index_Ok _ _ Hin) as (k & Hk & _).
  destruct (mutate_item_Ok _ _ (add_action (Action now kind d)) _ Hk)
    as (s & Hs & Hmut).
  exists k, s. split; [done |]. split; [done |].
  unfold track_action. rewrite decide_True by (unfold in_range in Hin; lia).
  by rewrite Hmut.
Qed.

Lemma track_action_below_start tr now session_id kind d :
  session_id < - len (sessions (current tr)) →
  track_action tr now session_id kind d = Raise IndexError.
Proof.
  intros H. pose proof (len_nonneg (sessions (current tr))).
  unfold track_action. rewrite decide_True by lia.
  rewrite mutate_item_outside; [done |]. unfold in_range. lia.
Qed.

(** C5. A session id below [-len(sessions)] passes the guard
    [session_id < len(sessions)] and the subscript then raises
    [IndexError]: [track_action] is not a silent no-op there, and the
    [track_workflow_step] handler, which passes the caller's integer on,
    fails with it. *)
Theorem track_action_below_range_raises tr now session_id kind d :
  session_id < - len (sessions (current tr)) →
  ¬ in_range (sessions (current tr)) session_id
  ∧ track_action tr now session_id kind d = Raise IndexError
  ∧ (∀ step minutes,
       handle_track_workflow_step tr now session_id step minutes = Raise IndexError).
Proof.
  intros H. split; [unfold in_range; lia |].
  split; [by apply track_action_below_start |].
  intros step minutes. unfold handle_track_workflow_step.
  by rewrite track_action_below_start.
Qed.

Lemma track_action_below_range_raises_witness :
  -1 < - len (sessions (current (new_tracker None)))
  ∧ ¬ in_range (sessions (current (new_tracker None))) (-1)
  ∧ track_action (new_tracker None) "2024-05-01T10:00:00" (-1) "workflow_step"
      (WorkflowStep "import" None) = Raise IndexError
  ∧ (∀ step minutes,
       handle_track_workflow_step (new_tracker None) "2024-05-01T10:00:00" (-1)
         step minutes = Raise IndexError).
Proof.
  assert (-1 < - len (sessions (current (new_tracker None)))) as H by (vm_compute; reflexivity).
  split; [exact H |].
  exact (track_action_below_range_raises (new_tracker None) "2024-05-01T10:00:00"
           (-1) "workflow_step" (WorkflowStep "import" None) H).
Defined.

(** An action leaves every session other than the addressed one alone. *)
Lemma track_action_frame tr now session_id kind d tr' (i : nat) :
  track_action tr now session_id kind d = Ok tr' →
  index (sessions (current tr)) session_id ≠ Ok i →
  sessions (current tr') !! i = sessions (current tr) !! i.
Proof.
  unfold track_action. case_decide; [| by intros [= <-]].
  destruct (mutate_item _ _ _) as [l|e] eqn:Hmut; [| done].
  rewrite bind_Ok. intros [= <-] Hi. cbn.
  apply mutate_item_inv in Hmut as (k & s & Hk & Hs & ->).
  apply list_lookup_insert_ne. congruence.
Qed.

(** C6. [track_session_start] appends the session and returns the new
    length minus one; two starts on a store without sessions return 0 and
    then 1, and an action recorded against id 1 then lands in the second
    session.  On every store with at least two sessions, whatever they
    hold, an action recorded against id 1 is appended to the actions of
    session 1 and leaves session 0 with its project, actions, cuts and
    exports, and every other session, as they were; the number of
    sessions stays the same. *)
Theorem session_ids_are_offsets tr now1 now2 project1 project2 :
  sessions (current tr) = [] →
  (∀ tr0 now project_path,
     sessions (current (track_session_start tr0 now project_path).1)
     = sessions (current tr0) ++ [Session project_path now [] [] []]
     ∧ (track_session_start tr0 now project_path).2
       = len (sessions (current (track_session_start tr0 now project_path).1)) - 1)
  ∧ (track_session_start tr now1 project1).2 = 0
  ∧ (track_session_start (track_session_start tr now1 project1).1 now2 project2).2 = 1
  ∧ (∀ now kind d,
       ∃ tr3,
         track_action
           (track_session_start (track_session_start tr now1 project1).1 now2 project2).1
           now 1 kind d = Ok tr3
         ∧ sessions (current tr3)
           = [Session project1 now1 [] [] [];
              Session project2 now2 [Action now kind d] [] []])
  ∧ (∀ tr0 now kind d s0 s1,
       sessions (current tr0) !! 0%nat = Some s0 →
       sessions (current tr0) !! 1%nat = Some s1 →
       ∃ tr',
         track_action tr0 now 1 kind d = Ok tr'
         ∧ sessions (current tr') !! 0%nat = Some s0
         ∧ sessions (current tr') !! 1%nat
           = Some (Session (project s1) (start_time s1)
                     (actions s1 ++ [Action now kind d]) (cuts s1) (exports s1))
         ∧ (∀ i : nat, i ≠ 1%nat →
              sessions (current tr') !! i = sessions (current tr0) !! i)
         ∧ length (sessions (current tr')) = length (sessions (current tr0))).
Proof.
  intros Hempty. split; [| split; [| split; [| split]]].
  - intros tr0 now project_path. split; [done |].
    unfold track_session_start. by cbn [fst snd].
  - unfold track_session_start. cbn. rewrite Hempty. done.
  - unfold track_session_start. cbn. rewrite Hempty. done.
  - intros now kind d. unfold track_session_start. cbn. rewrite Hempty. cbn.
    eexists. split; [reflexivity |]. done.
  - intros tr0 now kind d s0 s1 H0 H1.
    assert (1 < len (sessions (current tr0))) as Hlen
      by (apply lookup_lt_Some in H1; unfold len; lia).
    assert (in_range (sessions (current tr0)) 1) as Hin
      by (unfold in_range; lia).
    destruct (track_action_in_range tr0 now 1 kind d Hin) as (k & s & Hk & Hs & Hrun).
    rewrite index_nonneg in Hk by lia. injection Hk as <-.
    change (Z.to_nat 1) with 1%nat in *.
    rewrite H1 in Hs. injection Hs as <-.
    eexists. split; [exact Hrun |]. cbn.
    split; [by rewrite list_lookup_insert_ne |].
    split; [apply list_lookup_insert_eq; by eapply lookup_lt_Some |].
    split; [| by rewrite length_insert].
    intros i Hi. by rewrite list_lookup_insert_ne.
Qed.

Lemma session_ids_are_offsets_witness :
  sessions (current (new_tracker None)) = []
  ∧ (track_session_start (new_tracker None) "10:00" "a.drp").2 = 0
  ∧ (track_session_start (track_session_start (new_tracker None) "10:00" "a.drp").1
       "10:05" "b.drp").2 = 1
  ∧ ∃ tr',
      track_action edited_log "11:00" 1 "workflow_step" (WorkflowStep "color" None)
      = Ok tr'
      ∧ sessions (current tr') !! 0%nat
        = Some (Session "a.drp" "09:00"
                  [Action "09:01" "workflow_step" (WorkflowStep "import" None)]
                  [Cut "hard_cut" (Some 1%Q) None "09:02";
                   Cut "fade" None (Some "mood") "09:03"]
                  ["a.mp4"])
      ∧ sessions (current tr') !! 1%nat
        = Some (Session "b.drp" "10:00"
                  [Action "10:01" "project_save" (ProjectSave "/projects/b.drp" ".drp" 512);
                   Action "11:00" "workflow_step" (WorkflowStep "color" None)]
                  [Cut "jump_cut" (Some 2%Q) None "10:02"]
                  ["b.mp4"])
      ∧ sessions (current tr') !! 2%nat = sessions (current edited_log) !! 2%nat
      ∧ length (sessions (current tr')) = 3%nat.
Proof.
  destruct (session_ids_are_offsets (new_tracker None) "10:00" "10:05" "a.drp" "b.drp")
    as (_ & Hid0 & Hid1 & _ & Hframe); [reflexivity |].
  split; [reflexivity |]. split; [exact Hid0 |]. split; [exact Hid1 |].
  destruct (Hframe edited_log "11:00" "workflow_step" (WorkflowStep "color" None)
              _ _ eq_refl eq_refl) as (tr' & Hrun & H0 & H1 & Hothers & Hlen).
  exists tr'. split; [exact Hrun |]. split; [exact H0 |]. split; [exact H1 |].
  split; [by apply Hothers | by rewrite Hlen].
Defined.

(** C10. With a session id at or past the number of sessions the
    [track_cut] branch returns [None] and leaves the tracker and the stored
    document as they were; with an id from 0 up to the number of sessions it
    appends the cut to the cut list of that session, persists the document
    and returns the acknowledgement.  But the guard
    [session_id < len(sessions)] has no lower bound: a negative id from
    [-len(sessions)] to [-1], which is no session id, passes it, the cut is
    appended to the session counted from the end of the list, the document
    is persisted and the acknowledgement names the negative id; an id below
    [-len(sessions)] raises [IndexError].  The cut entry holds the type,
    the duration and the reason as given and the time of the call. *)
Theorem track_cut_guard_misses_negative_ids tr now session_id kind
    (duration : option Q) (why : option string) :
  (len (sessions (current tr)) ≤ session_id →
     handle_track_cut tr now session_id kind duration why = Ok (tr, None))
  ∧ (0 ≤ session_id < len (sessions (current tr)) →
       ∃ s tr',
         sessions (current tr) !! Z.to_nat session_id = Some s
         ∧ handle_track_cut tr now session_id kind duration why
           = Ok (tr', Some [text_content
                              ("Tracked " +:+ kind +:+ " cut for session "
                                 +:+ pretty session_id)])
         ∧ sessions (current tr')
           = <[Z.to_nat session_id :=
                 Session (project s) (start_time s) (actions s)
                   (cuts s ++ [Cut kind duration why now]) (exports s)]>
               (sessions (current tr))
         ∧ stored tr' = Some (current tr'))
  ∧ (- len (sessions (current tr)) ≤ session_id < 0 →
       ∃ s tr',
         sessions (current tr) !! Z.to_nat (len (sessions (current tr)) + session_id)
         = Some s
         ∧ handle_track_cut tr now session_id kind duration why
           = Ok (tr', Some [text_content
                              ("Tracked " +:+ kind +:+ " cut for session "
                                 +:+ pretty session_id)])
         ∧ sessions (current tr')
           = <[Z.to_nat (len (sessions (current tr)) + session_id) :=
                 Session (project s) (start_time s) (actions s)
                   (cuts s ++ [Cut kind duration why now]) (exports s)]>
               (sessions (current tr))
         ∧ stored tr' = Some (current tr'))
  ∧ (session_id < - len (sessions (current tr)) →
       handle_track_cut tr now session_id kind duration why = Raise IndexError).
Proof.
  pose proof (len_nonneg (sessions (current tr))) as Hlen.
  assert (∀ k : nat,
            index (sessions (current tr)) session_id = Ok k →
            session_id < len (sessions (current tr)) →
            ∃ s tr',
              sessions (current tr) !! k = Some s
              ∧ handle_track_cut tr now session_id kind duration why
                = Ok (tr', Some [text_content
                                   ("Tracked " +:+ kind +:+ " cut for session "
                                      +:+ pretty session_id)])
              ∧ sessions (current tr')
                = <[k := Session (project s) (start_time s) (actions s)
                           (cuts s ++ [Cut kind duration why now]) (exports s)]>
                    (sessions (current tr))
              ∧ stored tr' = Some (current tr')) as Happend.
  { intros k Hk Hlt.
    destruct (mutate_item_Ok _ _ (add_cut (Cut kind duration why now)) _ Hk)
      as (s & Hs & Hmut).
    exists s. eexists. split; [done |].
    unfold handle_track_cut. rewrite decide_True by lia.
    rewrite Hmut, bind_Ok. by repeat split. }
  split; [| split; [| split]].
  - intros H. unfold handle_track_cut. by rewrite decide_False by lia.
  - intros H. apply Happend; [by apply index_nonneg | lia].
  - intros H. apply Happend; [by apply index_negative | lia].
  - intros H. unfold handle_track_cut. rewrite decide_True by lia.
    rewrite mutate_item_outside; [done |]. unfold in_range. lia.
Qed.

Lemma track_cut_guard_misses_negative_ids_witness :
  (- len (sessions (current two_session_log)) ≤ -1 < 0
   ∧ ∃ tr',
       handle_track_cut two_session_log "11:00" (-1) "fade" None (Some "mood")
       = Ok (tr', Some [text_content "Tracked fade cut for session -1"])
       ∧ sessions (current tr')
         = [Session "a.drp" "09:00" []
              [Cut "hard_cut" (Some 1%Q) None "09:01";
               Cut "fade" (Some 0%Q) (Some "mood") "09:02";
               Cut "hard_cut" (Some 1%Q) None "09:03"] [];
            Session "b.drp" "10:00" []
              [Cut "jump_cut" (Some 2%Q) None "10:01";
               Cut "fade" None (Some "mood") "11:00"] []]
       ∧ stored tr' = Some (current tr'))
  ∧ (-1 < - len (sessions (current (new_tracker None)))
     ∧ handle_track_cut (new_tracker None) "11:00" (-1) "fade" None None
       = Raise IndexError)
  ∧ (len (sessions (current two_session_log)) ≤ 2
     ∧ handle_track_cut two_session_log "11:00" 2 "fade" None None
       = Ok (two_session_log, None))
  ∧ (0 ≤ 0 < len (sessions (current two_session_log))
     ∧ ∃ tr',
         handle_track_cut two_session_log "11:00" 0 "fade" (Some (3 # 2)%Q) None
         = Ok (tr', Some [text_content "Tracked fade cut for session 0"])
         ∧ (cuts <$> sessions (current tr') !! 0%nat)
           = Some [Cut "hard_cut" (Some 1%Q) None "09:01";
                   Cut "fade" (Some 0%Q) (Some "mood") "09:02";
                   Cut "hard_cut" (Some 1%Q) None "09:03";
                   Cut "fade" (Some (3 # 2)%Q) None "11:00"]).
Proof.
  assert (- len (sessions (current two_session_log)) ≤ -1 < 0) as Hneg
    by (vm_compute; split; [intros ?; discriminate | reflexivity]).
  assert (-1 < - len (sessions (current (new_tracker None)))) as Hbelow
    by (vm_compute; reflexivity).
  assert (len (sessions (current two_session_log)) ≤ 2) as Hpast
    by (vm_compute; intros ?; discriminate).
  assert (0 ≤ 0 < len (sessions (current two_session_log))) as Hin
    by (vm_compute; split; [intros ?; discriminate | reflexivity]).
  split; [| split; [| split]].
  - split; [exact Hneg |].
    destruct (proj1 (proj2 (proj2 (track_cut_guard_misses_negative_ids two_session_log
                                     "11:00" (-1) "fade" None (Some "mood")))) Hneg)
      as (s & tr' & Hs & Hrun & Hsessions & Hstored).
    exists tr'. split; [exact Hrun |]. split; [| exact Hstored].
    rewrite Hsessions. vm_compute in Hs. injection Hs as <-. reflexivity.
  - split; [exact Hbelow |].
    exact (proj2 (proj2 (proj2 (track_cut_guard_misses_negative_ids (new_tracker None)
                                  "11:00" (-1) "fade" None None))) Hbelow).
  - split; [exact Hpast |].
    exact (proj1 (track_cut_guard_misses_negative_ids two_session_log "11:00" 2 "fade"
                    None None) Hpast).
  - split; [exact Hin |].
    destruct (proj1 (proj2 (track_cut_guard_misses_negative_ids two_session_log
                              "11:00" 0 "fade" (Some (3 # 2)%Q) None)) Hin)
      as (s & tr' & Hs & Hrun & Hsessions & _).
    exists tr'. split; [exact Hrun |].
    rewrite Hsessions. vm_compute in Hs. injection Hs as <-. reflexivity.
Defined.

(** [-1] names the last session: the cut lands there and the
    acknowledgement repeats the id as given. *)
Example track_cut_minus_one :
  ∃ tr', handle_track_cut two_session_log "11:00" (-1) "fade" None None
         = Ok (tr', Some [text_content "Tracked fade cut for session -1"])
         ∧ (cuts <$> sessions (current tr') !! 1%nat)
           = Some [Cut "jump_cut" (Some 2%Q) None "10:01"; Cut "fade" None None "11:00"].
Proof. eexists. split; reflexivity. Qed.

End SessionLog.

(** ** Further properties of the cut statistics *)

Section Extremes.
Implicit Types (l : list Z) (x y lo hi : Z).

Lemma sum_from l x : fold_left Z.add l x = x + sum l.
Proof.
  unfold sum. revert x. induction l as [|y l IH]; intros x; simpl; [lia |].
  rewrite (IH (x + y)), (IH (0 + y)). lia.
Qed.

Lemma sum_cons x l : sum (x :: l) = x + sum l.
Proof. unfold sum at 1. simpl. apply sum_from. Qed.

Lemma sum_perm l1 l2 : l1 ≡ₚ l2 → sum l1 = sum l2.
Proof.
  induction 1 as [|x l1 l2 _ IH|x y l|l1 l2 l3 _ IH1 _ IH2];
    rewrite ?sum_cons; lia.
Qed.

Lemma sum_bounds l lo hi :
  (∀ y, y ∈ l → lo ≤ y ≤ hi) → len l * lo ≤ sum l ≤ len l * hi.
Proof.
  induction l as [|x l IH]; intros H.
  - change (len []) with 0. change (sum []) with 0. lia.
  - rewrite sum_cons. unfold len in *. rewrite length_cons, Nat2Z.inj_succ.
    pose proof (H x (list_elem_of_here _ _)).
    assert (∀ y, y ∈ l → lo ≤ y ≤ hi) as Hl
      by (intros y Hy; apply H; by apply list_elem_of_further).
    specialize (IH Hl). lia.
Qed.

Lemma fold_min_spec l x :
  fold_left Z.min l x ∈ x :: l ∧ ∀ y, y ∈ x :: l → fold_left Z.min l x ≤ y.
Proof.
  revert x. induction l as [|z l IH]; intros x; simpl.
  - split; [apply list_elem_of_here |]. intros y ->%list_elem_of_singleton. lia.
  - destruct (IH (Z.min x z)) as [Hin Hle]. split.
    + apply elem_of_cons in Hin as [-> | Hin].
      * destruct (Z.min_spec x z) as [[_ ->] | [_ ->]];
          [apply list_elem_of_here | apply list_elem_of_further, list_elem_of_here].
      * by do 2 apply list_elem_of_further.
    + intros y Hy. pose proof (Hle (Z.min x z) (list_elem_of_here _ _)).
      apply elem_of_cons in Hy as [-> | Hy]; [lia |].
      apply elem_of_cons in Hy as [-> | Hy]; [lia |].
      apply Hle. by apply list_elem_of_further.
Qed.

Lemma fold_max_spec l x :
  fold_left Z.max l x ∈ x :: l ∧ ∀ y, y ∈ x :: l → y ≤ fold_left Z.max l x.
Proof.
  revert x. induction l as [|z l IH]; intros x; simpl.
  - split; [apply list_elem_of_here |]. intros y ->%list_elem_of_singleton. lia.
  - destruct (IH (Z.max x z)) as [Hin Hle]. split.
    + apply elem_of_cons in Hin as [-> | Hin].
      * destruct (Z.max_spec x z) as [[_ ->] | [_ ->]];
          [apply list_elem_of_further, list_elem_of_here | apply list_elem_of_here].
      * by do 2 apply list_elem_of_further.
    + intros y Hy. pose proof (Hle (Z.max x z) (list_elem_of_here _ _)).
      apply elem_of_cons in Hy as [-> | Hy]; [lia |].
      apply elem_of_cons in Hy as [-> | Hy]; [lia |].
      apply Hle. by apply list_elem_of_further.
Qed.

Lemma min_spec l lo : min l = Ok lo → lo ∈ l ∧ ∀ y, y ∈ l → lo ≤ y.
Proof. destruct l as [|x l]; [done |]. intros [= <-]. apply fold_min_spec. Qed.

Lemma max_spec l hi : max l = Ok hi → hi ∈ l ∧ ∀ y, y ∈ l → y ≤ hi.
Proof. destruct l as [|x l]; [done |]. intros [= <-]. apply fold_max_spec. Qed.

(** The quotient of the sum by the length lies between two bounds of the
    elements. *)
Lemma mean_bounds l lo hi :
  l ≠ [] → (∀ y, y ∈ l → lo ≤ y ≤ hi) →
  (inject_Z lo <= inject_Z (sum l) / inject_Z (len l)
   ∧ inject_Z (sum l) / inject_Z (len l) <= inject_Z hi)%Q.
Proof.
  intros Hne H. destruct (sum_bounds l lo hi H) as [Hlo Hhi].
  assert (0 < len l) as Hpos
    by (destruct l; [done | unfold len; rewrite length_cons; lia]).
  assert (0 < inject_Z (len l))%Q as HposQ
    by (rewrite (Zlt_Qlt 0 (len l)) in Hpos; exact Hpos).
  split.
  - apply Qle_shift_div_l; [done |].
    rewrite <- inject_Z_mult, <- Zle_Qle. lia.
  - apply Qle_shift_div_r; [done |].
    rewrite <- inject_Z_mult, <- Zle_Qle. lia.
Qed.

End Extremes.

Section StatisticsFacts.
Import Resolve.
Implicit Types (t : timeline_data) (s : cut_stats) (cl : list Z).

(** What a returned statistics record says about the cut-length list. *)
Lemma analyze_stats_inv t s :
  analyze_cut_patterns (Timeline t) = Ok (Stats s) →
  positive_durations (video_clips t) ≠ []
  ∧ total_cuts s = len (positive_durations (video_clips t))
  ∧ average_cut_length s
    = (inject_Z (sum (positive_durations (video_clips t)))
       / inject_Z (len (positive_durations (video_clips t))))%Q
  ∧ min (positive_durations (video_clips t)) = Ok (shortest_cut s)
  ∧ max (positive_durations (video_clips t)) = Ok (longest_cut s)
  ∧ sorted (positive_durations (video_clips t))
      !! Z.to_nat (len (positive_durations (video_clips t)) `div` 2)
    = Some (median_cut_length s)
  ∧ cut_types s = fold_left count_cut (pair_kinds (video_clips t)) []
  ∧ editing_pace s = (if decide (average_cut_length s < 120)%Q then "fast" else "slow").
Proof.
  rewrite analyze_timeline.
  destruct (positive_durations (video_clips t)) as [|x cl] eqn:Hcl; [done |].
  destruct (summarize_stats (x :: cl) (fold_left count_cut (pair_kinds (video_clips t)) []))
    as (lo & hi & m & Hlo & Hhi & Hm & ->); [done |].
  intros [= <-]. by repeat split.
Qed.

(** The positive durations are those of the video clips of the snapshot. *)
Lemma positive_durations_elem t y :
  y ∈ positive_durations (video_clips t)
  ↔ ∃ c, c ∈ clips t ∧ track_type c = "video" ∧ duration c = y ∧ 0 < y.
Proof.
  unfold positive_durations, video_clips. rewrite list_elem_of_fmap. split.
  - intros (c & -> & Hc). apply list_elem_of_filter in Hc as [Hpos Hc].
    rewrite sort_by_perm in Hc. apply list_elem_of_filter in Hc as [Hv Hc].
    exists c. repeat split; [done | done | lia].
  - intros (c & Hc & Hv & <- & Hpos). exists c. split; [done |].
    apply list_elem_of_filter. split; [lia |].
    rewrite sort_by_perm. by apply list_elem_of_filter.
Qed.

(** X1. In returned statistics the shortest cut is positive and the average
    lies between the shortest and the longest cut. *)
Theorem average_within_extremes t s :
  analyze_cut_patterns (Timeline t) = Ok (Stats s) →
  0 < shortest_cut s
  ∧ (inject_Z (shortest_cut s) <= average_cut_length s)%Q
  ∧ (average_cut_length s <= inject_Z (longest_cut s))%Q.
Proof.
  intros (Hne & _ & -> & Hmin & Hmax & _)%analyze_stats_inv.
  apply min_spec in Hmin as [Hin Hlo]. apply max_spec in Hmax as [_ Hhi].
  split.
  - apply positive_durations_elem in Hin as (c & _ & _ & _ & Hpos). done.
  - apply mean_bounds; [done |]. intros y Hy. split; [by apply Hlo | by apply Hhi].
Qed.

Lemma average_within_extremes_witness :
  ∃ s, analyze_cut_patterns (Timeline overlapping_timeline) = Ok (Stats s)
       ∧ shortest_cut s = 60 ∧ longest_cut s = 150
       ∧ (inject_Z 60 <= average_cut_length s)%Q
       ∧ (average_cut_length s <= inject_Z 150)%Q.
Proof.
  assert (∃ s, analyze_cut_patterns (Timeline overlapping_timeline) = Ok (Stats s))
    as [s Hs] by (eexists; vm_compute; reflexivity).
  pose proof (average_within_extremes overlapping_timeline s Hs) as (_ & Hlo & Hhi).
  exists s. split; [exact Hs |].
  vm_compute in Hs. injection Hs as <-.
  split; [reflexivity |]. split; [reflexivity |]. split; [exact Hlo | exact Hhi].
Defined.

(** X2. The shortest and the longest cut of returned statistics are
    durations of video clips of the snapshot and bound the duration of
    every video clip of positive duration; the median is such a duration
    too; and the number of cuts is at most the number of video clips. *)
Theorem extremes_are_clip_durations t s :
  analyze_cut_patterns (Timeline t) = Ok (Stats s) →
  (∀ c, c ∈ clips t → track_type c = "video" → 0 < duration c →
        shortest_cut s ≤ duration c ≤ longest_cut s)
  ∧ (∀ x, x ∈ [shortest_cut s; median_cut_length s; longest_cut s] →
          ∃ c, c ∈ clips t ∧ track_type c = "video" ∧ duration c = x)
  ∧ shortest_cut s ≤ median_cut_length s ≤ longest_cut s
  ∧ 1 ≤ total_cuts s ≤ len (filter (λ c, track_type c = "video") (clips t)).
Proof.
  intros (Hne & Htotal & _ & Hmin & Hmax & Hmed & _)%analyze_stats_inv.
  apply min_spec in Hmin as [Hlo_in Hlo]. apply max_spec in Hmax as [Hhi_in Hhi].
  assert (median_cut_length s ∈ positive_durations (video_clips t)) as Hmed_in.
  { rewrite <- (sorted_perm (positive_durations (video_clips t))).
    apply list_elem_of_lookup. eauto. }
  assert (∀ x, x ∈ positive_durations (video_clips t) →
               shortest_cut s ≤ x ≤ longest_cut s) as Hbounds
    by (intros x Hx; split; [by apply Hlo | by apply Hhi]).
  split; [| split; [| split]].
  - intros c Hc Hv Hpos. apply Hbounds, positive_durations_elem. by exists c.
  - intros x Hx.
    assert (x ∈ positive_durations (video_clips t)) as Hin.
    { apply elem_of_cons in Hx as [-> | Hx]; [done |].
      apply elem_of_cons in Hx as [-> | Hx]; [done |].
      by apply list_elem_of_singleton in Hx as ->. }
    apply positive_durations_elem in Hin as (c & ? & ? & ? & _). by exists c.
  - by apply Hbounds.
  - rewrite Htotal. split.
    + destruct (positive_durations (video_clips t)); [done |].
      unfold len. rewrite length_cons. lia.
    + unfold positive_durations, video_clips, len.
      rewrite length_fmap.
      pose proof (length_filter (λ c, duration c > 0)
                    (sort_by start (filter (λ c, track_type c = "video") (clips t)))) as H.
      rewrite sort_by_length in H. lia.
Qed.

Lemma extremes_are_clip_durations_witness :
  ∃ s, analyze_cut_patterns (Timeline four_cut_timeline) = Ok (Stats s)
       ∧ shortest_cut s ≤ median_cut_length s ≤ longest_cut s
       ∧ 1 ≤ total_cuts s
           ≤ len (filter (λ c, track_type c = "video") (clips four_cut_timeline)).
Proof.
  assert (∃ s, analyze_cut_patterns (Timeline four_cut_timeline) = Ok (Stats s))
    as [s Hs] by (eexists; vm_compute; reflexivity).
  pose proof (extremes_are_clip_durations four_cut_timeline s Hs) as (_ & _ & Hmed & Htotal).
  exists s. split; [exact Hs |]. split; [exact Hmed | exact Htotal].
Defined.

End StatisticsFacts.

Section ClipOrder.
Import Resolve.
Implicit Types (t : timeline_data) (s : cut_stats) (cl : list Z).

Lemma video_clips_perm t t' : clips t ≡ₚ clips t' → video_clips t ≡ₚ video_clips t'.
Proof. intros H. unfold video_clips. by rewrite !sort_by_perm, H. Qed.

Lemma positive_durations_perm (l l' : list clip) :
  l ≡ₚ l' → positive_durations l ≡ₚ positive_durations l'.
Proof. intros H. unfold positive_durations. by rewrite H. Qed.

Lemma sorted_of_perm cl cl' : cl ≡ₚ cl' → sorted cl = sorted cl'.
Proof.
  intros H. apply (Sorted_unique Z.le); [apply sorted_ascending .. |].
  by rewrite !sorted_perm.
Qed.

Lemma min_of_perm cl cl' lo lo' :
  cl ≡ₚ cl' → min cl = Ok lo → min cl' = Ok lo' → lo = lo'.
Proof.
  intros H [Hin Hle]%min_spec [Hin' Hle']%min_spec.
  rewrite H in Hin. rewrite <- H in Hin'.
  specialize (Hle _ Hin'). specialize (Hle' _ Hin). lia.
Qed.

Lemma max_of_perm cl cl' hi hi' :
  cl ≡ₚ cl' → max cl = Ok hi → max cl' = Ok hi' → hi = hi'.
Proof.
  intros H [Hin Hle]%max_spec [Hin' Hle']%max_spec.
  rewrite H in Hin. rewrite <- H in Hin'.
  specialize (Hle _ Hin'). specialize (Hle' _ Hin). lia.
Qed.

(** X3. The order in which a snapshot lists its clips does not matter for
    the length statistics: two snapshots with the same clips in any order
    both fail with the same error, or both return statistics that agree on
    the number of cuts, the average, the shortest, the longest and the
    median cut and the pace. *)
Theorem length_statistics_ignore_clip_order t t' :
  clips t ≡ₚ clips t' →
  match analyze_cut_patterns (Timeline t), analyze_cut_patterns (Timeline t') with
  | Ok (Stats s), Ok (Stats s') =>
      total_cuts s = total_cuts s'
      ∧ average_cut_length s = average_cut_length s'
      ∧ shortest_cut s = shortest_cut s'
      ∧ longest_cut s = longest_cut s'
      ∧ median_cut_length s = median_cut_length s'
      ∧ editing_pace s = editing_pace s'
  | Ok (Failure e), Ok (Failure e') => e = e'
  | _, _ => False
  end.
Proof.
  intros H%video_clips_perm%positive_durations_perm.
  rewrite !analyze_timeline.
  destruct (positive_durations (video_clips t)) as [|x cl] eqn:Hcl.
  { apply Permutation_nil_l in H. by rewrite <- H. }
  destruct (positive_durations (video_clips t')) as [|x' cl'] eqn:Hcl'.
  { by apply Permutation_nil_r in H. }
  destruct (summarize_stats (x :: cl) (fold_left count_cut (pair_kinds (video_clips t)) []))
    as (lo & hi & m & Hlo & Hhi & Hm & ->); [done |].
  destruct (summarize_stats (x' :: cl') (fold_left count_cut (pair_kinds (video_clips t')) []))
    as (lo' & hi' & m' & Hlo' & Hhi' & Hm' & ->); [done |].
  cbn [total_cuts average_cut_length shortest_cut longest_cut median_cut_length editing_pace].
  rewrite (min_of_perm _ _ _ _ H Hlo Hlo'), (max_of_perm _ _ _ _ H Hhi Hhi').
  assert (len (x :: cl) = len (x' :: cl')) as Hlen
    by (unfold len; by rewrite (Permutation_length H)).
  rewrite (sum_perm _ _ H), Hlen.
  rewrite (sorted_of_perm _ _ H), Hlen in Hm.
  assert (m = m') as -> by congruence.
  done.
Qed.

Lemma length_statistics_ignore_clip_order_witness :
  clips overlapping_timeline ≡ₚ clips reversed_timeline
  ∧ ∃ s s', analyze_cut_patterns (Timeline overlapping_timeline) = Ok (Stats s)
            ∧ analyze_cut_patterns (Timeline reversed_timeline) = Ok (Stats s')
            ∧ median_cut_length s = median_cut_length s'
            ∧ average_cut_length s = average_cut_length s'.
Proof.
  assert (clips overlapping_timeline ≡ₚ clips reversed_timeline) as H
    by (symmetry; apply reverse_Permutation).
  split; [exact H |].
  assert (∃ s, analyze_cut_patterns (Timeline overlapping_timeline) = Ok (Stats s))
    as [s Hs] by (eexists; vm_compute; reflexivity).
  assert (∃ s', analyze_cut_patterns (Timeline reversed_timeline) = Ok (Stats s'))
    as [s' Hs'] by (eexists; vm_compute; reflexivity).
  pose proof (length_statistics_ignore_clip_order _ _ H) as Hthm.
  rewrite Hs, Hs' in Hthm. destruct Hthm as (_ & Havg & _ & _ & Hmed & _).
  exists s, s'. split; [exact Hs |]. split; [exact Hs' |].
  split; [exact Hmed | exact Havg].
Defined.

End ClipOrder.

Section CutTypeKeys.
Import Resolve.
Implicit Types (t : timeline_data) (s : cut_stats) (ct : dict Z) (k : string).

Lemma dict_lookup_None {V} (d : dict V) k : dict_lookup d k = None ↔ k ∉ d.*1.
Proof.
  induction d as [|[k' v] d IH]; simpl.
  - split; [intros _; apply not_elem_of_nil | done].
  - rewrite not_elem_of_cons. case_decide as Heq.
    + split; [done | intros [Hne _]; congruence].
    + rewrite IH. split; [intros Hd; split; [congruence | done] | by intros [_ Hd]].
Qed.

Lemma dict_set_keys {V} (d : dict V) k v :
  (dict_set d k v).*1 = if decide (k ∈ d.*1) then d.*1 else d.*1 ++ [k].
Proof.
  induction d as [|[k' v'] d IH].
  - by rewrite decide_False by apply not_elem_of_nil.
  - cbn [dict_set]. destruct (decide (k' = k)) as [-> | Hne];
      rewrite !fmap_cons; cbn [fst].
    + by rewrite decide_True by apply list_elem_of_here.
    + rewrite IH. destruct (decide (k ∈ d.*1)) as [Hin | Hnin].
      * by rewrite decide_True by (by apply list_elem_of_further).
      * rewrite decide_False; [done |].
        rewrite not_elem_of_cons. split; [done | done].
Qed.

Lemma dict_set_NoDup {V} (d : dict V) k v : NoDup d.*1 → NoDup (dict_set d k v).*1.
Proof.
  intros H. rewrite dict_set_keys. case_decide; [done |].
  apply NoDup_app. split; [done |]. split; [| apply NoDup_singleton].
  intros x Hx ->%list_elem_of_singleton. done.
Qed.

Lemma count_cut_fold_keys ks ct :
  NoDup ct.*1 →
  NoDup (fold_left count_cut ks ct).*1
  ∧ ∀ k, k ∈ (fold_left count_cut ks ct).*1 ↔ k ∈ ct.*1 ∨ k ∈ ks.
Proof.
  revert ct. induction ks as [|k0 ks IH]; intros ct Hct; simpl.
  - split; [done |]. intros k. rewrite elem_of_nil. tauto.
  - destruct (IH (count_cut ct k0)) as [Hnd Hin].
    { by apply dict_set_NoDup. }
    split; [done |]. intros k. rewrite Hin. unfold count_cut.
    rewrite dict_set_keys, elem_of_cons.
    case_decide as Hk0.
    + split; [intros [?|?]; auto | intros [?|[->|?]]; auto].
    + rewrite elem_of_app, list_elem_of_singleton.
      split; [intros [[?|?]|?]; auto | intros [?|[?|?]]; auto].
Qed.

Lemma pair_kinds_classes (l : list clip) k :
  k ∈ pair_kinds l → k ∈ ["hard_cut"; "gap"; "overlap"].
Proof.
  induction l as [|p l IH]; [by intros ?%elem_of_nil |].
  destruct l as [|c l]; [by intros ?%elem_of_nil |].
  change (pair_kinds (p :: c :: l)) with (classify p c :: pair_kinds (c :: l)).
  intros [-> | H]%elem_of_cons; [| by apply IH].
  destruct (classify_cases p c) as [[-> _]|[[-> _]|[-> _]]];
    repeat first [apply list_elem_of_here | apply list_elem_of_further].
Qed.

Lemma pairs_of_kind_pos (l : list clip) k : 0 < pairs_of_kind k l ↔ k ∈ pair_kinds l.
Proof.
  unfold pairs_of_kind, len. split.
  - intros H. destruct (filter _ (pair_kinds l)) as [|k' l'] eqn:Hf; [simpl in H; lia |].
    assert (k' ∈ filter (λ k'0, k'0 = k) (pair_kinds l)) as Hin
      by (rewrite Hf; apply list_elem_of_here).
    by apply list_elem_of_filter in Hin as [-> ?].
  - intros H.
    assert (k ∈ filter (λ k', k' = k) (pair_kinds l)) as Hin
      by (by apply list_elem_of_filter).
    destruct (filter _ (pair_kinds l)); [by apply elem_of_nil in Hin |].
    rewrite length_cons. lia.
Qed.

(** X4. The dictionary [cut_types] of returned statistics has a key for a
    class exactly when at least one adjacent pair falls in it, with the
    number of these pairs as value: classes without a pair are absent rather
    than zero, no key occurs twice, every key is one of [hard_cut], [gap]
    and [overlap], and a timeline with a single video clip gives the empty
    dictionary. *)
Theorem cut_types_keys t s :
  analyze_cut_patterns (Timeline t) = Ok (Stats s) →
  NoDup (cut_types s).*1
  ∧ (∀ k n, dict_lookup (cut_types s) k = Some n
            ↔ n = pairs_of_kind k (video_clips t) ∧ 0 < n)
  ∧ (∀ k, k ∈ (cut_types s).*1 → k ∈ ["hard_cut"; "gap"; "overlap"])
  ∧ (len (video_clips t) ≤ 1 → cut_types s = []).
Proof.
  intros (_ & _ & _ & _ & _ & _ & Hct & _)%analyze_stats_inv. rewrite Hct.
  destruct (count_cut_fold_keys (pair_kinds (video_clips t)) []) as [Hnd Hin];
    [apply NoDup_nil_2 |].
  split; [done |]. split; [| split].
  - intros k n. pose proof (scan_counts (video_clips t) k) as Hget.
    unfold dict_get in Hget.
    destruct (dict_lookup _ k) as [m|] eqn:Hm; simpl in Hget.
    + assert (0 < m) as Hpos.
      { rewrite Hget. apply pairs_of_kind_pos.
        destruct (decide (k ∈ (fold_left count_cut (pair_kinds (video_clips t)) []).*1))
          as [Hk | Hk].
        - apply Hin in Hk as [Hk | Hk]; [by apply elem_of_nil in Hk | done].
        - apply dict_lookup_None in Hk. congruence. }
      split; [intros [= <-]; by split | intros [-> _]; by rewrite Hget].
    + split; [done |]. intros [-> Hpos]. lia.
  - intros k [H|H]%Hin; [by apply elem_of_nil in H |]. by eapply pair_kinds_classes.
  - intros Hlen.
    assert (pair_kinds (video_clips t) = []) as ->; [| done].
    destruct (video_clips t) as [|p [|c l]]; [done | done |].
    unfold len in Hlen. rewrite !length_cons in Hlen. lia.
Qed.

Lemma cut_types_keys_witness :
  ∃ s, analyze_cut_patterns (Timeline overlapping_timeline) = Ok (Stats s)
       ∧ dict_lookup (cut_types s) "gap" = None
       ∧ dict_lookup (cut_types s) "overlap" = Some 1.
Proof.
  assert (∃ s, analyze_cut_patterns (Timeline overlapping_timeline) = Ok (Stats s))
    as [s Hs] by (eexists; vm_compute; reflexivity).
  pose proof (cut_types_keys overlapping_timeline s Hs) as (_ & Hkeys & _).
  exists s. split; [exact Hs |]. split.
  - destruct (dict_lookup (cut_types s) "gap") as [n|] eqn:Hn; [| reflexivity].
    apply Hkeys in Hn as [-> Hpos]. vm_compute in Hpos. discriminate.
  - apply Hkeys. split; reflexivity.
Defined.

(** Clips that start together are paired in their input order, so the pair
    counters, unlike the length statistics, depend on it. *)
Example tied_starts_change_cut_types :
  Resolve.clips tied_start_timeline ≡ₚ Resolve.clips tied_start_swapped
  ∧ (∃ s, analyze_cut_patterns (Timeline tied_start_timeline) = Ok (Stats s)
          ∧ cut_types s = [("overlap", 1); ("hard_cut", 1)])
  ∧ (∃ s, analyze_cut_patterns (Timeline tied_start_swapped) = Ok (Stats s)
          ∧ cut_types s = [("overlap", 2)]).
Proof.
  split; [apply Permutation_swap |].
  split; eexists; (split; [vm_compute; reflexivity | reflexivity]).
Qed.

End CutTypeKeys.

(** ** Further properties of the Resolve tracker and its tools *)

Section LatestSession.
Import Resolve.
Implicit Types (tr : tracker) (a : action) (s : session) (l : list session).

Lemma mutate_last {A} (l : list A) (x : A) (f : A → A) :
  mutate_item (l ++ [x]) (-1) f = Ok (l ++ [f x]).
Proof.
  unfold mutate_item. rewrite index_negative.
  - rewrite len_app. change (len [x]) with 1.
    replace (Z.to_nat (len l + 1 + -1)) with (length l) by (unfold len; lia).
    rewrite bind_Ok, list_lookup_middle by done.
    by rewrite insert_app_r_alt, Nat.sub_diag by done.
  - rewrite len_app. pose proof (len_nonneg l). change (len [x]) with 1. lia.
Qed.

Lemma track_editing_action_latest tr now_action now_session kind d :
  ∃ tr',
    track_editing_action tr now_action now_session kind d = Ok tr'
    ∧ (editing_sessions (current tr) = [] →
       editing_sessions (current tr')
       = [Session now_session [Action now_action kind d]])
    ∧ (∀ l s, editing_sessions (current tr) = l ++ [s] →
         editing_sessions (current tr')
         = l ++ [Session (start_time s) (actions s ++ [Action now_action kind d])])
    ∧ len (editing_sessions (current tr')) = Z.max 1 (len (editing_sessions (current tr)))
    ∧ tool_usage (current tr') = tool_usage (current tr)
    ∧ resolve_in_sync tr'.
Proof.
  unfold track_editing_action.
  destruct (editing_sessions (current tr)) as [|s0 l0] eqn:Hs using rev_ind.
  - rewrite (mutate_last [] (Session now_session [])). rewrite bind_Ok.
    eexists. split; [done |]. split; [done |]. split; [by intros [] ? ? |].
    by repeat split.
  - clear IHl0.
    assert (match l0 ++ [s0] with
            | [] => (l0 ++ [s0]) ++ [Session now_session []]
            | _ :: _ => l0 ++ [s0]
            end = l0 ++ [s0]) as -> by (by destruct l0).
    rewrite mutate_last, bind_Ok.
    eexists. split; [done |]. split; [by destruct l0 |].
    split.
    { intros l s [-> ->]%app_inj_tail. done. }
    split; [| by repeat split].
    cbn. rewrite !len_app. pose proof (len_nonneg l0). change (len [_]) with 1. lia.
Qed.

(** X5. [track_editing_action] never fails.  On a store without sessions it
    creates the first session, holding just the new action; otherwise it
    appends the action to the last session and leaves the number of
    sessions and every earlier session as they were.  It saves the document
    and does not touch the counters. *)
Theorem action_goes_to_latest_session tr now_action now_session kind d :
  ∃ tr',
    track_editing_action tr now_action now_session kind d = Ok tr'
    ∧ (editing_sessions (current tr) = [] →
       editing_sessions (current tr')
       = [Session now_session [Action now_action kind d]])
    ∧ (∀ l s, editing_sessions (current tr) = l ++ [s] →
         editing_sessions (current tr')
         = l ++ [Session (start_time s) (actions s ++ [Action now_action kind d])])
    ∧ len (editing_sessions (current tr')) = Z.max 1 (len (editing_sessions (current tr)))
    ∧ tool_usage (current tr') = tool_usage (current tr)
    ∧ resolve_in_sync tr'.
Proof. apply track_editing_action_latest. Qed.

Lemma action_goes_to_latest_session_witness :
  ∃ tr',
    track_editing_action (new_tracker None) "10:00" "10:01" "tool_usage"
      (ToolUsage "Blade" "edit" "10:00") = Ok tr'
    ∧ editing_sessions (current tr')
      = [Session "10:01" [Action "10:00" "tool_usage" (ToolUsage "Blade" "edit" "10:00")]]
    ∧ resolve_in_sync tr'.
Proof.
  destruct (action_goes_to_latest_session (new_tracker None) "10:00" "10:01" "tool_usage"
              (ToolUsage "Blade" "edit" "10:00"))
    as (tr' & Hrun & Hnil & _ & _ & _ & Hsync).
  exists tr'. split; [exact Hrun |]. split; [exact (Hnil eq_refl) | exact Hsync].
Defined.

End LatestSession.

Section HostSnapshot.
Import Resolve ResolveServer.
Implicit Types (tl : timeline) (kind : string) (c : clip).

Lemma filter_all {A} (P : A → Prop) `{∀ x, Decision (P x)} (l : list A) :
  Forall P l → filter P l = l.
Proof.
  induction 1 as [|x l Hx _ IH]; [done |].
  by rewrite filter_cons, decide_True, IH.
Qed.

Lemma filter_none {A} (P : A → Prop) `{∀ x, Decision (P x)} (l : list A) :
  Forall (λ x, ¬ P x) l → filter P l = [].
Proof.
  induction 1 as [|x l Hx _ IH]; [done |].
  by rewrite filter_cons, decide_False, IH.
Qed.

Lemma track_clips_elem tl kind c :
  c ∈ track_clips tl kind
  ↔ ∃ track_index clip_id i,
      1 ≤ track_index ≤ GetTrackCount tl kind
      ∧ (clip_id, i) ∈ GetItemsInTrack tl kind track_index
      ∧ c = clip_data kind track_index i.
Proof.
  unfold track_clips. rewrite list_elem_of_bind. split.
  - intros (track_index & Hc & Hidx). apply elem_of_seqZ in Hidx.
    apply list_elem_of_bind in Hc as ([clip_id i] & Hc & Hi).
    apply list_elem_of_singleton in Hc.
    exists track_index, clip_id, i. split; [lia | done].
  - intros (track_index & clip_id & i & Hidx & Hi & ->).
    exists track_index. split; [| apply elem_of_seqZ; lia].
    apply list_elem_of_bind. exists (clip_id, i). split; [| done].
    by apply list_elem_of_singleton.
Qed.

Lemma track_clips_kind tl kind :
  Forall (λ c, track_type c = kind) (track_clips tl kind).
Proof.
  apply Forall_forall. intros c (? & ? & ? & _ & _ & ->)%track_clips_elem. done.
Qed.

(** X6. When a timeline is selected, [analyze_current_timeline] lists the
    clips of the video tracks before those of the audio tracks: the video
    clips of the snapshot are exactly the items of the video tracks in track
    order, every clip carries a track index between 1 and the number of
    tracks of its type, and the video and audio counts of the report add up
    to the total. *)
Theorem snapshot_lists_tracks_in_order version p tl :
  GetCurrentTimeline p = Some tl →
  ∃ t,
    analyze_current_timeline (Running version (Some p)) = Timeline t
    ∧ clips t = track_clips tl "video" ++ track_clips tl "audio"
    ∧ filter (λ c, track_type c = "video") (clips t) = track_clips tl "video"
    ∧ filter (λ c, track_type c = "audio") (clips t) = track_clips tl "audio"
    ∧ (∀ c, c ∈ clips t →
         (track_type c = "video" ∨ track_type c = "audio")
         ∧ 1 ≤ track_index c ≤ GetTrackCount tl (track_type c))
    ∧ count_clips "video" (clips t) + count_clips "audio" (clips t) = len (clips t)
    ∧ video_clips t = sort_by start (track_clips tl "video").
Proof.
  intros Htl. unfold analyze_current_timeline. rewrite Htl.
  eexists. split; [done |]. cbn [clips].
  assert (filter (λ c, track_type c = "video")
            (track_clips tl "video" ++ track_clips tl "audio")
          = track_clips tl "video") as Hv.
  { rewrite filter_app, filter_all by apply track_clips_kind.
    rewrite filter_none; [by rewrite app_nil_r |].
    eapply Forall_impl; [apply track_clips_kind |]. by intros c ->. }
  assert (filter (λ c, track_type c = "audio")
            (track_clips tl "video" ++ track_clips tl "audio")
          = track_clips tl "audio") as Ha.
  { rewrite filter_app, (filter_all _ (track_clips tl "audio")) by apply track_clips_kind.
    rewrite filter_none; [done |].
    eapply Forall_impl; [apply track_clips_kind |]. by intros c ->. }
  split; [done |]. split; [done |]. split; [done |]. split; [| split].
  - intros c [Hc | Hc]%elem_of_app;
      apply track_clips_elem in Hc as (idx & ? & ? & Hidx & _ & ->); cbn; auto.
  - unfold count_clips. by rewrite Hv, Ha, len_app.
  - unfold video_clips. cbn [clips]. by rewrite Hv.
Qed.

Lemma snapshot_lists_tracks_in_order_witness :
  GetCurrentTimeline sample_project = Some sample_host_timeline
  ∧ ∃ t, analyze_current_timeline sample_app = Timeline t
         ∧ (Resolve.name <$> clips t) = ["intro.mov"; ""; ""; ""]
         ∧ (track_index <$> clips t) = [1; 1; 2; 1]
         ∧ count_clips "video" (clips t) + count_clips "audio" (clips t) = len (clips t).
Proof.
  split; [reflexivity |].
  destruct (snapshot_lists_tracks_in_order "18.6" sample_project sample_host_timeline eq_refl)
    as (t & Ht & Hclips & _ & _ & _ & Hcount & _).
  exists t. split; [exact Ht |].
  split; [rewrite Hclips; reflexivity |]. split; [rewrite Hclips; reflexivity | exact Hcount].
Defined.

End HostSnapshot.

Section Insights.
Import Resolve ResolveServer.
Implicit Types (tr : tracker) (a : app) (d : dict Z) (usage : dict (dict Z)).

(** [max] with a key returns the first item of greatest value. *)
Lemma max_by_value_first d :
  d ≠ [] →
  ∃ best l1 l2,
    max_by_value d = Ok best
    ∧ d = l1 ++ best :: l2
    ∧ (∀ y, y ∈ l1 → y.2 < best.2)
    ∧ (∀ y, y ∈ l2 → y.2 ≤ best.2).
Proof.
  destruct d as [|x d]; [done | intros _]. unfold max_by_value.
  induction d as [|z d IH] using rev_ind.
  - exists x, [], []. split; [done |]. split; [done |].
    split; intros y Hy; by apply elem_of_nil in Hy.
  - destruct IH as (best & l1 & l2 & [= Hbest] & Hd & H1 & H2).
    rewrite fold_left_app. cbn [fold_left]. rewrite Hbest.
    rewrite app_comm_cons, Hd.
    case_decide as Hz.
    + exists z, (l1 ++ best :: l2), []. split; [done |]. split; [done |]. split.
      * intros y [Hy | Hy]%elem_of_app; [specialize (H1 y Hy); lia |].
        apply elem_of_cons in Hy as [-> | Hy]; [lia | specialize (H2 y Hy); lia].
      * intros y Hy. by apply elem_of_nil in Hy.
    + exists best, l1, (l2 ++ [z]). split; [done |].
      split; [by rewrite <- app_assoc |]. split; [done |].
      intros y [Hy | ->%list_elem_of_singleton]%elem_of_app; [by apply H2 | lia].
Qed.

Lemma dict_set_elem {V} (d : dict V) k v k' v' :
  (k', v') ∈ dict_set d k v → (k', v') = (k, v) ∨ (k', v') ∈ d.
Proof.
  induction d as [|[k0 v0] d IH]; simpl.
  - intros ->%list_elem_of_singleton. by left.
  - case_decide.
    + intros [-> | H']%elem_of_cons; [by left | right; by apply list_elem_of_further].
    + intros [-> | H']%elem_of_cons; [right; apply list_elem_of_here |].
      destruct (IH H') as [-> | ?]; [by left | right; by apply list_elem_of_further].
Qed.

(** Every entry of [all_tools] is a counter of some page and tool. *)
Lemma all_tools_elem usage key count :
  (key, count) ∈ all_tools usage →
  ∃ page tools tool,
    (page, tools) ∈ usage ∧ (tool, count) ∈ tools ∧ key = page +:+ ":" +:+ tool.
Proof.
  unfold all_tools.
  assert (∀ acc : dict Z,
            (key, count) ∈ fold_left (λ all_tools '(page, tools),
               fold_left (λ all_tools '(tool, count),
                 dict_set all_tools (page +:+ ":" +:+ tool) count) tools all_tools)
               usage acc →
            (key, count) ∈ acc
            ∨ ∃ page tools tool,
                (page, tools) ∈ usage ∧ (tool, count) ∈ tools
                ∧ key = page +:+ ":" +:+ tool) as Hgen.
  { induction usage as [|[page tools] usage IH]; intros acc; [by left |].
    cbn [fold_left]. intros [Hacc | (p & ts & t & Hp & Ht & ->)]%IH.
    - assert (∀ acc' : dict Z,
                (key, count) ∈ fold_left (λ all_tools '(tool, count),
                   dict_set all_tools (page +:+ ":" +:+ tool) count) tools acc' →
                (key, count) ∈ acc'
                ∨ ∃ tool, (tool, count) ∈ tools ∧ key = page +:+ ":" +:+ tool) as Hin.
      { clear. induction tools as [|[tool c] tools IH]; intros acc'; [by left |].
        cbn [fold_left]. intros [Hacc | (t & Ht & ->)]%IH.
        - apply dict_set_elem in Hacc as [[= -> ->] | ?]; [| by left].
          right. exists tool. split; [apply list_elem_of_here | done].
        - right. exists t. split; [by apply list_elem_of_further | done]. }
      destruct (Hin _ Hacc) as [? | (tool & Ht & ->)]; [by left |].
      right. exists page, tools, tool. split; [apply list_elem_of_here | done].
    - right. exists p, ts, t. split; [by apply list_elem_of_further | done]. }
  intros [H | H]%Hgen; [by apply elem_of_nil in H | done].
Qed.

Lemma editing_insights_spec tr a :
  ∃ insights,
    editing_insights tr a = Ok insights
    ∧ insights ≠ []
    ∧ (all_tools (tool_usage (current tr)) ≠ [] →
       ∃ key count l1 l2 page tools tool,
         ("Your most used tool is " +:+ key +:+ " (" +:+ pretty count +:+ " times)")
           ∈ insights
         ∧ all_tools (tool_usage (current tr)) = l1 ++ (key, count) :: l2
         ∧ (∀ y, y ∈ l1 → y.2 < count)
         ∧ (∀ y, y ∈ l2 → y.2 ≤ count)
         ∧ (page, tools) ∈ tool_usage (current tr)
         ∧ (tool, count) ∈ tools
         ∧ key = page +:+ ":" +:+ tool)
    ∧ (editing_sessions (current tr) = [] →
       all_tools (tool_usage (current tr)) = [] →
       (∀ t, analyze_current_timeline a = Timeline t →
             positive_durations (video_clips t) = []) →
       insights = [insights_fallback]).
Proof.
  unfold editing_insights.
  (* the session line *)
  assert (∃ l0,
            match editing_sessions (current tr) with
            | [] => mret []
            | _ :: _ =>
                avg_actions ← truediv
                  (inject_Z (sum ((λ s, len (actions s)) <$> editing_sessions (current tr))))
                  (inject_Z (len (editing_sessions (current tr))));
                mret ([] ++
                        ["You've completed " +:+ pretty (len (editing_sessions (current tr)))
                           +:+ " editing sessions with an average of "
                           +:+ format_1f avg_actions +:+ " actions per session"])
            end = Ok l0
            ∧ (editing_sessions (current tr) = [] → l0 = [])) as (l0 & -> & Hl0).
  { destruct (editing_sessions (current tr)) as [|s l] eqn:Hs; [by eexists |].
    rewrite truediv_len by done. eexists. split; [done | done]. }
  rewrite bind_Ok.
  (* the tool line *)
  assert (∃ l1,
            match all_tools (tool_usage (current tr)) with
            | [] => mret l0
            | _ :: _ =>
                most_used ← max_by_value (all_tools (tool_usage (current tr)));
                mret (l0 ++
                        ["Your most used tool is " +:+ most_used.1 +:+ " ("
                           +:+ pretty most_used.2 +:+ " times)"])
            end = Ok (l0 ++ l1)
            ∧ (all_tools (tool_usage (current tr)) = [] → l1 = [])
            ∧ (all_tools (tool_usage (current tr)) ≠ [] →
               ∃ best p1 p2,
                 l1 = ["Your most used tool is " +:+ best.1 +:+ " ("
                         +:+ pretty best.2 +:+ " times)"]
                 ∧ all_tools (tool_usage (current tr)) = p1 ++ best :: p2
                 ∧ (∀ y, y ∈ p1 → y.2 < best.2)
                 ∧ (∀ y, y ∈ p2 → y.2 ≤ best.2))) as (l1 & -> & Hl1 & Hbest).
  { destruct (all_tools (tool_usage (current tr))) as [|x d] eqn:Hd.
    - exists []. rewrite app_nil_r. by repeat split.
    - destruct (max_by_value_first (x :: d)) as (best & p1 & p2 & -> & Hsplit & H1 & H2);
        [done |].
      rewrite bind_Ok. eexists. split; [done |]. split; [done |].
      intros _. by exists best, p1, p2. }
  rewrite bind_Ok.
  destruct (analyze_cut_patterns_total (analyze_current_timeline a))
    as (p & -> & Hempty & Herr).
  rewrite bind_Ok.
  assert (∃ l2,
            match p with
            | Failure _ => l0 ++ l1
            | Stats s =>
                ((l0 ++ l1) ++ ["Your current editing pace is " +:+ editing_pace s])
                  ++ ["Average cut length: " +:+ format_1f (average_cut_length s)
                        +:+ " frames"]
            end = (l0 ++ l1) ++ l2
            ∧ (∀ e, p = Failure e → l2 = [])) as (l2 & -> & Hl2).
  { destruct p as [e | s].
    - exists []. by rewrite app_nil_r.
    - eexists. split; [by rewrite <- app_assoc | done]. }
  assert (∀ l : list string,
            ∃ l', match l with
                  | [] => mret (l ++ [insights_fallback])
                  | _ :: _ => mret l
                  end = Ok l'
                  ∧ l' ≠ [] ∧ (∀ x, x ∈ l → x ∈ l')
                  ∧ (l = [] → l' = [insights_fallback])) as Hfinal.
  { intros [|x l].
    - exists [insights_fallback]. split; [reflexivity |].
      split; [done |]. split; [| done]. intros x Hx. by apply elem_of_nil in Hx.
    - exists (x :: l). split; [reflexivity |]. by repeat split. }
  destruct (Hfinal ((l0 ++ l1) ++ l2)) as (l' & -> & Hne & Hin & Hnil).
  exists l'. split; [done |]. split; [done |]. split.
  - intros Hd. destruct (Hbest Hd) as ([key count] & p1 & p2 & -> & Hsplit & H1 & H2).
    assert ((key, count) ∈ all_tools (tool_usage (current tr))) as Hmem.
    { rewrite Hsplit. apply elem_of_app. right. apply list_elem_of_here. }
    apply all_tools_elem in Hmem as (page & tools & tool & Hp & Ht & Hkey).
    exists key, count, p1, p2, page, tools, tool.
    split; [| by repeat split].
    apply Hin. rewrite !elem_of_app. left. right. apply list_elem_of_here.
  - intros Hs Hd Hnone. apply Hnil.
    rewrite (Hl0 Hs), (Hl1 Hd). simpl.
    destruct (analyze_current_timeline a) as [e | t] eqn:Hr.
    + by apply (Hl2 e), Herr.
    + apply (Hl2 "No cuts found"), (Hempty t); [done |]. by apply Hnone.
Qed.

(** X7. [get_editing_insights] never fails and never returns an empty
    list.  When a tool was recorded, the list names a most used tool whose
    count is that of some recorded page and tool and is not exceeded by any
    entry, and strictly exceeds every entry listed before it; with no
    session, no tool and no timeline statistics the list is the single
    fallback message. *)
Theorem insights_name_a_top_counter tr a :
  ∃ insights,
    editing_insights tr a = Ok insights
    ∧ insights ≠ []
    ∧ (all_tools (tool_usage (current tr)) ≠ [] →
       ∃ key count l1 l2 page tools tool,
         ("Your most used tool is " +:+ key +:+ " (" +:+ pretty count +:+ " times)")
           ∈ insights
         ∧ all_tools (tool_usage (current tr)) = l1 ++ (key, count) :: l2
         ∧ (∀ y, y ∈ l1 → y.2 < count)
         ∧ (∀ y, y ∈ l2 → y.2 ≤ count)
         ∧ (page, tools) ∈ tool_usage (current tr)
         ∧ (tool, count) ∈ tools
         ∧ key = page +:+ ":" +:+ tool)
    ∧ (editing_sessions (current tr) = [] →
       all_tools (tool_usage (current tr)) = [] →
       (∀ t, analyze_current_timeline a = Timeline t →
             positive_durations (video_clips t) = []) →
       insights = [insights_fallback]).
Proof. apply editing_insights_spec. Qed.

Lemma insights_name_a_top_counter_witness :
  ∃ insights,
    editing_insights busy_tracker sample_app = Ok insights
    ∧ "Your most used tool is edit:Blade (25 times)" ∈ insights.
Proof.
  destruct (insights_name_a_top_counter busy_tracker sample_app)
    as (insights & Hrun & _ & Htop & _).
  exists insights. split; [exact Hrun |].
  destruct Htop as (key & count & l1 & l2 & _ & _ & _ & Hin & Hsplit & H1 & H2 & _).
  - vm_compute. discriminate.
  - vm_compute in Hrun. injection Hrun as <-.
    repeat first [apply list_elem_of_here | apply list_elem_of_further].
Defined.

End Insights.

Section Dispatch.
Import Resolve ResolveServer.
Implicit Types (tr : tracker) (a : app).

(** What one tool call may do to the tracker. *)
Let kept tr tr' : Prop :=
  sessions_extend tr tr'
  ∧ (∀ p t, usage_count tr p t ≤ usage_count tr' p t)
  ∧ (resolve_in_sync tr → resolve_in_sync tr')
  ∧ len (editing_sessions (current tr')) ≤ Z.max 1 (len (editing_sessions (current tr))).

Lemma kept_refl tr : kept tr tr.
Proof.
  split; [| split; [| split]]; [| done | done | lia].
  intros i s Hs. by exists s.
Qed.

Lemma kept_action tr now_action now_session kind d :
  ∃ tr', track_editing_action tr now_action now_session kind d = Ok tr'
         ∧ kept tr tr' ∧ resolve_in_sync tr'.
Proof.
  destruct (track_editing_action_latest tr now_action now_session kind d)
    as (tr' & Hrun & Hnil & Hsnoc & Hlen & Hu & Hsync).
  exists tr'. split; [done |]. split; [| done].
  split; [| split; [| split]]; [| | done | lia].
  - intros i s Hs.
    destruct (editing_sessions (current tr)) as [|s0 l0] eqn:Hl using rev_ind; [done |].
    rewrite (Hsnoc l0 s0 eq_refl).
    destruct (decide (i < length l0)%nat) as [Hi | Hi].
    + rewrite lookup_app_l in Hs by done. rewrite lookup_app_l by done. by exists s.
    + apply lookup_lt_Some in Hs as Hlt. rewrite length_app in Hlt. simpl in Hlt.
      assert (i = length l0) as -> by lia.
      rewrite list_lookup_middle in Hs by done. injection Hs as ->.
      rewrite list_lookup_middle by done. eexists. split; [done |].
      split; [done |]. by apply prefix_app_r.
  - intros p t. unfold usage_count. rewrite Hu. lia.
Qed.

Lemma kept_tool_usage tr now_tool now_action now_session tool_name page :
  ∃ tr' r,
    handle_track_tool_usage tr now_tool now_action now_session tool_name page = Ok (tr', r)
    ∧ kept tr tr' ∧ length r = 1%nat.
Proof.
  unfold handle_track_tool_usage. rewrite !page_entry, !bind_Ok.
  match goal with
  | |- context [track_editing_action ?t ?x ?y ?k ?d] =>
      destruct (kept_action t x y k d) as (tr' & -> & (Hext & Hcount & _ & Hlen) & Hsync)
  end.
  rewrite bind_Ok. eexists _, _. split; [done |]. split; [| done].
  split; [exact Hext |]. split; [| split; [| exact Hlen]].
  - intros p t. etrans; [| apply Hcount].
    unfold usage_count. cbn [current tool_usage with_tool_usage].
    destruct (decide (p = page)) as [-> | Hp].
    + rewrite dict_get_set.
      destruct (decide (t = tool_name)) as [-> | Ht].
      * rewrite dict_get_set. unfold usage_count. lia.
      * by rewrite dict_get_set_ne.
    + rewrite dict_get_set_ne by done. by rewrite page_entry_other.
  - by intros _.
Qed.

Lemma connect_one_item a : length (handle_connect_to_resolve a) = 1%nat.
Proof. by destruct a. Qed.

Lemma project_info_one_item a : length (handle_get_project_info a) = 1%nat.
Proof. by destruct a as [| |? []]. Qed.

(** A call of an implemented tool returns one text item and keeps the
    record, or fails on a missing argument. *)
Lemma dispatch_implemented json_dumps tr a now_tool now_action now_session name arguments :
  name ∈ implemented_tools →
  (∃ tr' r,
     handle_call_tool json_dumps tr a now_tool now_action now_session name arguments
     = Ok (tr', r)
     ∧ kept tr tr' ∧ length r = 1%nat)
  ∨ handle_call_tool json_dumps tr a now_tool now_action now_session name arguments
    = Raise KeyError.
Proof.
  intros Hname. unfold handle_call_tool.
  repeat case_decide.
  - left. eexists _, _. split; [done |]. split; [apply kept_refl |].
    apply connect_one_item.
  - left. unfold handle_analyze_current_timeline.
    destruct (analyze_current_timeline a) as [e | t].
    + eexists _, _. split; [done |]. split; [apply kept_refl | done].
    + destruct (kept_action tr now_action now_session "timeline_analysis"
                  (TimelineAnalysis t)) as (tr' & -> & Hk & _).
      eexists _, _. split; [done |]. by split.
  - left. eexists _, _. split; [done |]. split; [apply kept_refl |].
    apply project_info_one_item.
  - left. unfold handle_analyze_cut_patterns.
    destruct (analyze_cut_patterns_total (analyze_current_timeline a)) as (p & -> & _).
    rewrite bind_Ok. destruct p as [e | s].
    + eexists _, _. split; [done |]. split; [apply kept_refl | done].
    + destruct (kept_action tr now_action now_session "cut_analysis" (CutAnalysis s))
        as (tr' & -> & Hk & _).
      eexists _, _. split; [done |]. by split.
  - unfold dict_getitem.
    destruct (dict_lookup arguments "tool_name") as [tool_name|]; [| by right].
    destruct (dict_lookup arguments "page") as [page|]; [| by right].
    left. rewrite !bind_Ok. apply kept_tool_usage.
  - left. unfold handle_get_editing_insights.
    destruct (editing_insights_spec tr a) as (l & -> & _).
    eexists _, _. split; [done |]. split; [apply kept_refl | done].
  - left. unfold handle_suggest_workflow_optimization.
    destruct (suggestions_core tr (analyze_current_timeline a)) as (l & -> & _).
    eexists _, _. split; [done |]. split; [apply kept_refl | done].
  - exfalso. unfold implemented_tools in Hname.
    repeat (apply elem_of_cons in Hname as [-> | Hname]; [done |]).
    by apply elem_of_nil in Hname.
Qed.

Lemma dispatch_unknown json_dumps tr a now_tool now_action now_session name arguments :
  name ∉ implemented_tools →
  handle_call_tool json_dumps tr a now_tool now_action now_session name arguments
  = Raise ValueError.
Proof.
  intros Hname. unfold handle_call_tool.
  repeat case_decide; try done; exfalso; apply Hname; subst name;
    unfold implemented_tools;
    repeat first [apply list_elem_of_here | apply list_elem_of_further].
Qed.

(** X8. Whatever tool is called and whatever the host answers, a call that
    returns keeps the record: every session stays at its offset with its
    start time and its earlier actions, no counter decreases, the session
    list never grows beyond its first session once one exists, a tracker in
    sync with its document stays in sync, and the result is exactly one
    text item. *)
Theorem tool_calls_keep_the_record json_dumps tr a now_tool now_action now_session
    name arguments tr' r :
  handle_call_tool json_dumps tr a now_tool now_action now_session name arguments
  = Ok (tr', r) →
  sessions_extend tr tr'
  ∧ (∀ p t, usage_count tr p t ≤ usage_count tr' p t)
  ∧ (resolve_in_sync tr → resolve_in_sync tr')
  ∧ len (editing_sessions (current tr')) ≤ Z.max 1 (len (editing_sessions (current tr)))
  ∧ length r = 1%nat.
Proof.
  intros Hrun.
  destruct (decide (name ∈ implemented_tools)) as [Hname | Hname].
  - destruct (dispatch_implemented json_dumps tr a now_tool now_action now_session
                name arguments Hname) as [(tr0 & r0 & Hrun0 & Hk & Hr) | Hrun0];
      rewrite Hrun0 in Hrun; [| done].
    injection Hrun as <- <-. destruct Hk as (? & ? & ? & ?). by repeat split.
  - by rewrite dispatch_unknown in Hrun.
Qed.

Lemma tool_calls_keep_the_record_witness :
  ∃ tr' r,
    handle_call_tool (λ _, "{}") busy_tracker sample_app "10:00" "10:00" "10:00"
      "track_tool_usage" [("tool_name", "Blade"); ("page", "edit")] = Ok (tr', r)
    ∧ usage_count busy_tracker "edit" "Blade" ≤ usage_count tr' "edit" "Blade"
    ∧ len (editing_sessions (current tr')) ≤ 1
    ∧ length r = 1%nat.
Proof.
  assert (∃ tr' r,
            handle_call_tool (λ _, "{}") busy_tracker sample_app "10:00" "10:00" "10:00"
              "track_tool_usage" [("tool_name", "Blade"); ("page", "edit")] = Ok (tr', r))
    as (tr' & r & Hrun) by (eexists _, _; vm_compute; reflexivity).
  destruct (tool_calls_keep_the_record _ _ _ _ _ _ _ _ _ _ Hrun)
    as (_ & Hcount & _ & Hlen & Hr).
  exists tr', r. split; [exact Hrun |]. split; [apply Hcount |].
  split; [exact Hlen | exact Hr].
Defined.

(** X9. [handle_call_tool] raises [ValueError] exactly for the names
    outside its seven branches.  Three of the ten tools that
    [handle_list_tools] advertises are among them:
    [track_editing_session], [get_color_grading_info] and
    [export_timeline_data] fail with [ValueError] on every call, while the
    other seven never do. *)
Theorem advertised_tools_without_branch json_dumps tr a now_tool now_action now_session
    name arguments :
  (handle_call_tool json_dumps tr a now_tool now_action now_session name arguments
   = Raise ValueError
   ↔ name ∉ implemented_tools)
  ∧ (name ∈ tool_names →
     (handle_call_tool json_dumps tr a now_tool now_action now_session name arguments
      = Raise ValueError
      ↔ name ∈ ["track_editing_session"; "get_color_grading_info"; "export_timeline_data"]))
  ∧ Forall (λ n, n ∈ tool_names)
      ["track_editing_session"; "get_color_grading_info"; "export_timeline_data"].
Proof.
  assert (handle_call_tool json_dumps tr a now_tool now_action now_session name arguments
          = Raise ValueError ↔ name ∉ implemented_tools) as Hiff.
  { split; [| apply dispatch_unknown].
    intros Hrun Hname.
    destruct (dispatch_implemented json_dumps tr a now_tool now_action now_session
                name arguments Hname) as [(tr0 & r0 & Hrun0 & _) | Hrun0];
      by rewrite Hrun0 in Hrun. }
  split; [exact Hiff |]. split.
  - intros Hadv. rewrite Hiff. unfold tool_names in Hadv. unfold implemented_tools.
    repeat (apply elem_of_cons in Hadv as [-> | Hadv];
            [split; [intros H; try (exfalso; apply H; by repeat constructor);
                     by repeat constructor
                    | intros H H'; revert H H'; by rewrite !elem_of_cons, !elem_of_nil;
                      intuition discriminate] |]).
    by apply elem_of_nil in Hadv.
  - unfold tool_names. repeat constructor.
Qed.

Lemma advertised_tools_without_branch_witness :
  "export_timeline_data" ∈ tool_names
  ∧ handle_call_tool (λ _, "{}") busy_tracker sample_app "10:00" "10:00" "10:00"
      "export_timeline_data" [("format", "json")] = Raise ValueError.
Proof.
  assert ("export_timeline_data" ∈ tool_names) as Hadv
    by (unfold tool_names; repeat first [apply list_elem_of_here | apply list_elem_of_further]).
  split; [exact Hadv |].
  apply (proj1 (proj2 (advertised_tools_without_branch (λ _, "{}") busy_tracker sample_app
                         "10:00" "10:00" "10:00" "export_timeline_data"
                         [("format", "json")])) Hadv).
  repeat first [apply list_elem_of_here | apply list_elem_of_further].
Defined.

End Dispatch.

(** ** Further properties of the session log of [editing_watcher.py] *)

Section AppendOnly.
Import Watcher WatcherEvents.
Implicit Types (tr : tracker) (s : session) (l : list session).

Lemma session_extends_refl s : session_extends s s.
Proof. by repeat split. Qed.

Lemma session_extends_trans s1 s2 s3 :
  session_extends s1 s2 → session_extends s2 s3 → session_extends s1 s3.
Proof.
  intros (Hp & Ht & Ha & Hc & He) (Hp' & Ht' & Ha' & Hc' & He').
  repeat split; try congruence; by etrans.
Qed.

Lemma log_extends_refl tr : log_extends tr tr.
Proof. intros i s Hs. exists s. split; [done | apply session_extends_refl]. Qed.

Lemma log_extends_trans tr1 tr2 tr3 :
  log_extends tr1 tr2 → log_extends tr2 tr3 → log_extends tr1 tr3.
Proof.
  intros H12 H23 i s Hs.
  destruct (H12 i s Hs) as (s2 & Hs2 & He2).
  destruct (H23 i s2 Hs2) as (s3 & Hs3 & He3).
  exists s3. split; [done | by eapply session_extends_trans].
Qed.

Lemma mutate_item_extends l (i : Z) (f : session → session) l' :
  (∀ s, session_extends s (f s)) →
  mutate_item l i f = Ok l' →
  ∀ (j : nat) s, l !! j = Some s → ∃ s', l' !! j = Some s' ∧ session_extends s s'.
Proof.
  intros Hf (k & x & Hk & Hx & ->)%mutate_item_inv j s Hs.
  destruct (decide (k = j)) as [-> | Hne].
  - exists (f x). rewrite list_lookup_insert_eq by (by eapply lookup_lt_Some).
    split; [done |]. replace s with x by congruence. apply Hf.
  - exists s. rewrite list_lookup_insert_ne by done.
    split; [done | apply session_extends_refl].
Qed.

Lemma add_action_extends a s : session_extends s (add_action a s).
Proof. repeat split; try done. by apply prefix_app_r. Qed.

Lemma add_cut_extends c s : session_extends s (add_cut c s).
Proof. repeat split; try done. by apply prefix_app_r. Qed.

Lemma watcher_step_extends tr tr' : watcher_step tr tr' → log_extends tr tr'.
Proof.
  destruct 1 as [tr now project_path | tr now session_id kind d tr' Hrun
                | tr now session_id kind duration why tr' r Hrun].
  - intros i s Hs. exists s. split; [| apply session_extends_refl].
    cbn. by apply lookup_app_l_Some.
  - unfold track_action in Hrun. case_decide; [| injection Hrun as <-; apply log_extends_refl].
    destruct (mutate_item _ _ _) as [l|e] eqn:Hmut; [| done].
    injection Hrun as <-. intros i s Hs. cbn.
    eapply mutate_item_extends; [apply add_action_extends | done | done].
  - unfold handle_track_cut in Hrun.
    case_decide; [| injection Hrun as <- _; apply log_extends_refl].
    destruct (mutate_item _ _ _) as [l|e] eqn:Hmut; [| done].
    injection Hrun as <- _. intros i s Hs. cbn.
    eapply mutate_item_extends; [apply add_cut_extends | done | done].
Qed.

Lemma run_extends tr tr' : rtc watcher_step tr tr' → log_extends tr tr'.
Proof.
  induction 1 as [tr | tr1 tr2 tr3 Hstep _ IH]; [apply log_extends_refl |].
  eapply log_extends_trans; [by apply watcher_step_extends | done].
Qed.

Lemma log_extends_len tr tr' :
  log_extends tr tr' → len (sessions (current tr)) ≤ len (sessions (current tr')).
Proof.
  intros Hrun. unfold len.
  destruct (sessions (current tr)) as [|s0 l0] eqn:Hl using rev_ind; [simpl; lia |].
  destruct (Hrun (length l0) s0) as (s' & Hs' & _).
  { rewrite Hl. by apply list_lookup_middle. }
  apply lookup_lt_Some in Hs'. rewrite length_app. simpl. lia.
Qed.

(** X10. The session log is append-only.  After any sequence of session
    starts, recorded actions and tracked cuts, every session is still at
    its offset with its project, start time and exports, its actions and
    cuts are the earlier ones followed by the new ones, and the number of
    sessions has not decreased. *)
Theorem session_log_is_append_only tr tr' :
  rtc watcher_step tr tr' →
  log_extends tr tr'
  ∧ len (sessions (current tr)) ≤ len (sessions (current tr')).
Proof.
  intros Hrun%run_extends. split; [done | by apply log_extends_len].
Qed.

Lemma session_log_is_append_only_witness :
  ∃ tr1 r,
    handle_track_cut two_session_log "11:00" 0 "fade" None None = Ok (tr1, r)
    ∧ rtc watcher_step two_session_log (track_session_start tr1 "11:05" "c.drp").1
    ∧ log_extends two_session_log (track_session_start tr1 "11:05" "c.drp").1
    ∧ len (sessions (current two_session_log))
        ≤ len (sessions (current (track_session_start tr1 "11:05" "c.drp").1)).
Proof.
  assert (∃ tr1 r, handle_track_cut two_session_log "11:00" 0 "fade" None None
                   = Ok (tr1, r)) as (tr1 & r & Hcut)
    by (eexists _, _; vm_compute; reflexivity).
  assert (rtc watcher_step two_session_log (track_session_start tr1 "11:05" "c.drp").1)
    as Hrun.
  { eapply rtc_l; [exact (step_cut _ _ _ _ _ _ _ _ Hcut) |].
    apply rtc_once, step_session_start. }
  exists tr1, r. split; [exact Hcut |]. split; [exact Hrun |].
  exact (session_log_is_append_only _ _ Hrun).
Defined.

(** X11. The id that [track_session_start] returns names the new session
    for good: after any sequence of further starts, actions and cuts the
    session at that offset still has the project and start time given, and
    the id passes the guards of [track_action] and [track_cut]. *)
Theorem session_ids_stay_valid tr now project_path tr' :
  rtc watcher_step (track_session_start tr now project_path).1 tr' →
  0 ≤ (track_session_start tr now project_path).2 < len (sessions (current tr'))
  ∧ ∃ s, sessions (current tr')
           !! Z.to_nat (track_session_start tr now project_path).2 = Some s
         ∧ project s = project_path ∧ start_time s = now.
Proof.
  intros Hrun%run_extends.
  destruct (Hrun (length (sessions (current tr))) (Session project_path now [] [] []))
    as (s' & Hs' & Hp & Ht & _).
  { cbn. by apply list_lookup_middle. }
  assert ((track_session_start tr now project_path).2
          = Z.of_nat (length (sessions (current tr)))) as ->.
  { unfold track_session_start. cbn [snd fst current sessions with_sessions].
    rewrite len_app. change (len [_]) with 1. unfold len. lia. }
  rewrite Nat2Z.id. split; [| by exists s'].
  apply lookup_lt_Some in Hs'. unfold len. lia.
Qed.

Lemma session_ids_stay_valid_witness :
  ∃ tr' r,
    handle_track_cut (track_session_start two_session_log "11:00" "c.drp").1
      "11:05" 2 "fade" None None = Ok (tr', r)
    ∧ (track_session_start two_session_log "11:00" "c.drp").2 = 2
    ∧ ∃ s, sessions (current tr') !! 2%nat = Some s
           ∧ project s = "c.drp" ∧ start_time s = "11:00".
Proof.
  assert (∃ tr' r,
            handle_track_cut (track_session_start two_session_log "11:00" "c.drp").1
              "11:05" 2 "fade" None None = Ok (tr', r)) as (tr' & r & Hcut)
    by (eexists _, _; vm_compute; reflexivity).
  exists tr', r. split; [exact Hcut |]. split; [reflexivity |].
  exact (proj2 (session_ids_stay_valid two_session_log "11:00" "c.drp" tr'
                  (rtc_once _ _ (step_cut _ _ _ _ _ _ _ _ Hcut)))).
Defined.

End AppendOnly.

Section UnmeasuredCuts.
Import Watcher WatcherEvents.
Implicit Types (tr : tracker) (c : cut).

Lemma analyze_raises_iff fsum tr :
  analyze_cut_patterns fsum tr = Raise TypeError ↔ ¬ durations_given (recorded_cuts tr).
Proof.
  rewrite analyze_cut_patterns_eq. case_decide as Hd.
  - split; [| done]. by destruct (positive_lengths (recorded_cuts tr)).
  - done.
Qed.

Lemma recorded_cuts_kept tr tr' c :
  log_extends tr tr' → c ∈ recorded_cuts tr → c ∈ recorded_cuts tr'.
Proof.
  intros Hext (s & Hc & Hs)%list_elem_of_bind.
  apply list_elem_of_lookup in Hs as [i Hi].
  destruct (Hext i s Hi) as (s' & Hs' & _ & _ & _ & [k Hk] & _).
  apply list_elem_of_bind. exists s'. split.
  - rewrite Hk. apply elem_of_app. by left.
  - by eapply list_elem_of_lookup_2.
Qed.

Lemma unmeasured_cut_recorded tr now session_id kind why tr' r :
  handle_track_cut tr now session_id kind None why = Ok (tr', Some r) →
  Cut kind None why now ∈ recorded_cuts tr'.
Proof.
  unfold handle_track_cut. case_decide; [| done].
  destruct (mutate_item _ _ _) as [l|e] eqn:Hmut; [| done].
  intros [= <- _]. apply mutate_item_inv in Hmut as (k & s & Hk & Hs & ->).
  apply list_elem_of_bind. exists (add_cut (Cut kind None why now) s). split.
  - cbn. apply elem_of_app. right. apply list_elem_of_here.
  - cbn. eapply list_elem_of_lookup_2.
    apply list_lookup_insert_eq. by eapply lookup_lt_Some.
Qed.

(** X12. A cut tracked without a duration is stored with [None], and from
    then on [analyze_cut_patterns] raises [TypeError], whatever sessions,
    actions and cuts are recorded afterwards; the [get_editing_insights]
    tool and the [suggest_next_action] tool at step [rough_cut] raise it
    too. *)
Theorem unmeasured_cut_breaks_analysis tr now session_id kind why tr1 r tr2 :
  handle_track_cut tr now session_id kind None why = Ok (tr1, Some r) →
  rtc watcher_step tr1 tr2 →
  ∀ fsum,
    analyze_cut_patterns fsum tr2 = Raise TypeError
    ∧ (∀ json_analysis json_counts str_float,
         handle_get_editing_insights fsum json_analysis json_counts str_float tr2
         = Raise TypeError)
    ∧ (∀ str_float,
         handle_suggest_next_action fsum str_float tr2 "rough_cut" = Raise TypeError).
Proof.
  intros Hcut%unmeasured_cut_recorded Hrun%run_extends fsum.
  assert (analyze_cut_patterns fsum tr2 = Raise TypeError) as Hraise.
  { apply analyze_raises_iff. intros Hd.
    pose proof (recorded_cuts_kept _ _ _ Hrun Hcut) as Hin.
    unfold durations_given in Hd. rewrite Forall_forall in Hd.
    by destruct (Hd _ Hin). }
  split; [done |]. split.
  - intros. unfold handle_get_editing_insights. by rewrite Hraise.
  - intros. unfold handle_suggest_next_action, suggest_next_action.
    rewrite decide_True by done. by rewrite Hraise.
Qed.

Lemma unmeasured_cut_breaks_analysis_witness :
  ∃ tr1 r tr2 r',
    handle_track_cut two_session_log "11:00" 1 "fade" None None = Ok (tr1, Some r)
    ∧ handle_track_cut tr1 "11:05" 0 "hard_cut" (Some 3%Q) None = Ok (tr2, r')
    ∧ analyze_cut_patterns float_sum tr2 = Raise TypeError.
Proof.
  assert (∃ tr1 r, handle_track_cut two_session_log "11:00" 1 "fade" None None
                   = Ok (tr1, Some r)) as (tr1 & r & H1)
    by (eexists _, _; vm_compute; reflexivity).
  assert (∃ tr2 r', handle_track_cut tr1 "11:05" 0 "hard_cut" (Some 3%Q) None
                    = Ok (tr2, r')) as (tr2 & r' & H2).
  { vm_compute in H1. injection H1 as <- _. eexists _, _. vm_compute. reflexivity. }
  exists tr1, r, tr2, r'. split; [exact H1 |]. split; [exact H2 |].
  exact (proj1 (unmeasured_cut_breaks_analysis _ _ _ _ _ _ _ _ H1
                  (rtc_once _ _ (step_cut _ _ _ _ _ _ _ _ H2)) float_sum)).
Defined.

End UnmeasuredCuts.

Section Subscripts.
Import Watcher WatcherEvents.
Implicit Types (tr : tracker).

(** X13. The [track_workflow_step] tool acknowledges a step even when
    nothing was recorded: with a session id at or past the number of
    sessions it returns its usual text and leaves the tracker and the
    stored document untouched. *)
Theorem workflow_step_acknowledged_unrecorded tr now session_id step minutes :
  len (sessions (current tr)) ≤ session_id →
  handle_track_workflow_step tr now session_id step minutes
  = Ok (tr, [text_content ("Tracked " +:+ step +:+ " workflow step")]).
Proof.
  intros H. unfold handle_track_workflow_step.
  by rewrite track_action_past_end.
Qed.

Lemma workflow_step_acknowledged_unrecorded_witness :
  len (sessions (current two_session_log)) ≤ 7
  ∧ handle_track_workflow_step two_session_log "11:00" 7 "color" None
    = Ok (two_session_log, [text_content "Tracked color workflow step"]).
Proof.
  assert (len (sessions (current two_session_log)) ≤ 7) as H
    by (vm_compute; intros ?; discriminate).
  split; [exact H |].
  exact (workflow_step_acknowledged_unrecorded two_session_log "11:00" 7 "color" None H).
Defined.

Lemma index_alias {A} (l : list A) (i : Z) :
  - len l ≤ i < 0 → index l i = index l (len l + i).
Proof.
  intros H. rewrite index_negative by done. by rewrite index_nonneg by lia.
Qed.

(** X14. A negative session id counts from the end of the session list:
    for [-len <= id < 0], [track_action] and the [track_cut] branch change
    the tracker exactly as they do for [len + id], so [-1] writes into the
    most recent session; only the acknowledgement of [track_cut] repeats the
    id as given. *)
Theorem negative_ids_count_from_the_end tr now session_id kind d :
  - len (sessions (current tr)) ≤ session_id < 0 →
  track_action tr now session_id kind d
  = track_action tr now (len (sessions (current tr)) + session_id) kind d
  ∧ (∃ tr', track_action tr now session_id kind d = Ok tr' ∧ watcher_in_sync tr'
            ∧ len (sessions (current tr')) = len (sessions (current tr)))
  ∧ (∀ duration why,
       ∃ tr',
         handle_track_cut tr now session_id kind duration why
         = Ok (tr', Some [text_content ("Tracked " +:+ kind +:+ " cut for session "
                                          +:+ pretty session_id)])
         ∧ handle_track_cut tr now (len (sessions (current tr)) + session_id)
             kind duration why
           = Ok (tr', Some [text_content
                              ("Tracked " +:+ kind +:+ " cut for session "
                                 +:+ pretty (len (sessions (current tr)) + session_id))])).
Proof.
  intros H.
  assert (mutate_item (sessions (current tr)) session_id
          = mutate_item (sessions (current tr)) (len (sessions (current tr)) + session_id))
    as Hmut.
  { unfold mutate_item. by rewrite index_alias. }
  split; [| split].
  - unfold track_action. rewrite !decide_True by lia. by rewrite Hmut.
  - destruct (track_action_in_range tr now session_id kind d) as (k & s & _ & _ & ->);
      [unfold in_range; lia |].
    eexists. split; [done |]. split; [done |].
    cbn. unfold len. by rewrite length_insert.
  - intros duration why. unfold handle_track_cut. rewrite !decide_True by lia.
    rewrite Hmut.
    destruct (mutate_item_Ok (sessions (current tr))
                (len (sessions (current tr)) + session_id)
                (add_cut (Cut kind duration why now))
                (Z.to_nat (len (sessions (current tr)) + session_id)))
      as (s & _ & ->); [apply index_nonneg; lia |].
    rewrite !bind_Ok. by eexists.
Qed.

Lemma negative_ids_count_from_the_end_witness :
  - len (sessions (current two_session_log)) ≤ -1 < 0
  ∧ track_action two_session_log "11:00" (-1) "workflow_step" (WorkflowStep "color" None)
    = track_action two_session_log "11:00" 1 "workflow_step" (WorkflowStep "color" None).
Proof.
  assert (- len (sessions (current two_session_log)) ≤ -1 < 0) as H
    by (vm_compute; split; [intros ?; discriminate | reflexivity]).
  split; [exact H |].
  exact (proj1 (negative_ids_count_from_the_end two_session_log "11:00" (-1)
                  "workflow_step" (WorkflowStep "color" None) H)).
Defined.

End Subscripts.

Section Persistence.
Import Watcher WatcherEvents.
Implicit Types (tr : tracker).

(** X15. [track_session_start] does not write the document: the stored
    document is the one from before, so a tracker that was in sync with its
    file is not in sync afterwards.  The first action recorded against the
    returned id succeeds, lands in the new session and saves the
    document. *)
Theorem session_start_is_not_saved tr now project_path :
  stored (track_session_start tr now project_path).1 = stored tr
  ∧ (watcher_in_sync tr → ¬ watcher_in_sync (track_session_start tr now project_path).1)
  ∧ (∀ now' kind d,
       ∃ tr2,
         track_action (track_session_start tr now project_path).1 now'
           (track_session_start tr now project_path).2 kind d = Ok tr2
         ∧ watcher_in_sync tr2
         ∧ sessions (current tr2)
           = sessions (current tr)
               ++ [Session project_path now [Action now' kind d] [] []]).
Proof.
  split; [done |]. split.
  - unfold watcher_in_sync. cbn. intros -> [= Heq].
    apply (f_equal (λ p, length (sessions p))) in Heq. cbn in Heq.
    rewrite length_app in Heq. simpl in Heq. lia.
  - intros now' kind d. unfold track_session_start, track_action.
    cbn [fst snd current sessions with_sessions].
    rewrite len_app. change (len [_]) with 1.
    rewrite decide_True by lia.
    replace (len (sessions (current tr)) + 1 - 1) with (len (sessions (current tr))) by lia.
    unfold mutate_item. rewrite index_nonneg
      by (rewrite len_app; pose proof (len_nonneg (sessions (current tr)));
          change (len [_]) with 1; lia).
    unfold len. rewrite Nat2Z.id, bind_Ok, list_lookup_middle by done.
    rewrite bind_Ok. eexists. split; [done |]. split; [done |].
    cbn. by rewrite insert_app_r_alt, Nat.sub_diag by done.
Qed.

Lemma session_start_is_not_saved_witness :
  watcher_in_sync (save_patterns two_session_log)
  ∧ ¬ watcher_in_sync (track_session_start (save_patterns two_session_log)
                         "11:00" "c.drp").1.
Proof.
  assert (watcher_in_sync (save_patterns two_session_log)) as H by reflexivity.
  split; [exact H |].
  exact (proj1 (proj2 (session_start_is_not_saved (save_patterns two_session_log)
                         "11:00" "c.drp")) H).
Defined.

End Persistence.

Section Debounce.
Import Watcher WatcherEvents.
Implicit Types (w : file_watcher) (tr : tracker) (e : event).

Lemma on_modified_due w tr e file_ext current_time size now :
  is_directory e = false →
  file_ext ∈ project_extensions →
  (∀ last, dict_lookup (last_modified w) (src_path e) = Some last →
           (2 < current_time - last)%Q) →
  on_modified w tr e file_ext current_time size now
  = (tr' ← track_action tr now (session_id w) "project_save"
             (ProjectSave (src_path e) file_ext size);
     mret ({| session_id := session_id w;
              last_modified := dict_set (last_modified w) (src_path e) current_time |},
           tr')).
Proof.
  intros Hdir Hext Hdue. unfold on_modified. rewrite Hdir.
  rewrite bool_decide_eq_true_2 by done.
  destruct (dict_in (src_path e) (last_modified w)) eqn:Hin; simpl.
  - destruct (dict_in_getitem _ _ Hin) as (last & Hlast & ->). rewrite bind_Ok.
    by rewrite bool_decide_eq_true_2 by (by apply Hdue).
  - done.
Qed.

Lemma on_modified_early w tr e file_ext current_time size now last :
  dict_lookup (last_modified w) (src_path e) = Some last →
  (current_time - last <= 2)%Q →
  on_modified w tr e file_ext current_time size now = Ok (w, tr).
Proof.
  intros Hlast Hearly. unfold on_modified.
  destruct (is_directory e); [done |]. case_bool_decide; [| done].
  assert (dict_in (src_path e) (last_modified w) = true) as ->.
  { unfold dict_in. apply bool_decide_eq_true_2. by rewrite Hlast. }
  simpl. unfold dict_getitem. rewrite Hlast, bind_Ok.
  rewrite bool_decide_eq_false_2; [done |]. by apply Qle_not_lt.
Qed.

(** X16. Saves of one project file are debounced.  A save that is due (a
    file, one of the four project extensions, and no save of this path
    recorded within the last two seconds) is passed to [track_action] and
    its time is remembered; every later event on the same path at most two
    seconds after it, two seconds exactly included, changes neither the
    watcher nor the tracker; and a save of the path more than two seconds
    later is passed on again. *)
Theorem project_saves_are_debounced w tr e file_ext t0 size0 now0 w1 tr1 :
  is_directory e = false →
  file_ext ∈ project_extensions →
  (∀ last, dict_lookup (last_modified w) (src_path e) = Some last → (2 < t0 - last)%Q) →
  on_modified w tr e file_ext t0 size0 now0 = Ok (w1, tr1) →
  track_action tr now0 (session_id w) "project_save"
    (ProjectSave (src_path e) file_ext size0) = Ok tr1
  ∧ dict_lookup (last_modified w1) (src_path e) = Some t0
  ∧ session_id w1 = session_id w
  ∧ (∀ e' ext' t1 size1 now1,
       src_path e' = src_path e → (t1 - t0 <= 2)%Q →
       on_modified w1 tr1 e' ext' t1 size1 now1 = Ok (w1, tr1))
  ∧ (∀ e' ext' t1 size1 now1,
       src_path e' = src_path e → is_directory e' = false →
       ext' ∈ project_extensions → (2 < t1 - t0)%Q →
       on_modified w1 tr1 e' ext' t1 size1 now1
       = (tr2 ← track_action tr1 now1 (session_id w) "project_save"
                  (ProjectSave (src_path e) ext' size1);
          mret ({| session_id := session_id w;
                   last_modified := dict_set (last_modified w1) (src_path e) t1 |},
                tr2))).
Proof.
  intros Hdir Hext Hdue. rewrite on_modified_due by done.
  destruct (track_action _ _ _ _ _) as [tr'|err]; [| done].
  rewrite bind_Ok. intros [= <- <-]. cbn [last_modified session_id].
  split; [done |]. split; [apply dict_lookup_set |]. split; [done |]. split.
  - intros e' ext' t1 size1 now1 Hpath Hearly.
    apply (on_modified_early _ _ _ _ _ _ _ t0); [| done].
    cbn [last_modified]. rewrite Hpath. apply dict_lookup_set.
  - intros e' ext' t1 size1 now1 Hpath Hdir' Hext' Hlate.
    rewrite on_modified_due; [by rewrite Hpath | done | done |].
    cbn [last_modified]. rewrite Hpath, dict_lookup_set. by intros last [= <-].
Qed.

Lemma project_saves_are_debounced_witness :
  ∃ w1 tr1,
    on_modified fresh_watcher two_session_log save_event ".drp" 100 2048 "11:00"
    = Ok (w1, tr1)
    ∧ on_modified w1 tr1 save_event ".drp" 102 2048 "11:02" = Ok (w1, tr1)
    ∧ dict_lookup (WatcherEvents.last_modified w1) "/projects/a.drp" = Some 100%Q.
Proof.
  assert (∃ w1 tr1,
            on_modified fresh_watcher two_session_log save_event ".drp" 100 2048 "11:00"
            = Ok (w1, tr1)) as (w1 & tr1 & Hrun)
    by (eexists _, _; vm_compute; reflexivity).
  assert (".drp" ∈ project_extensions) as Hext
    by (unfold project_extensions;
        repeat first [apply list_elem_of_here | apply list_elem_of_further]).
  destruct (project_saves_are_debounced fresh_watcher two_session_log save_event ".drp"
              100 2048 "11:00" w1 tr1 eq_refl Hext) as (_ & Hlast & _ & Hearly & _).
  - intros last Hnone. discriminate Hnone.
  - exact Hrun.
  - exists w1, tr1. split; [exact Hrun |]. split; [| exact Hlast].
    apply Hearly; [reflexivity |]. vm_compute. intros ?; discriminate.
Defined.

(** An event on a directory, or on a file with another extension, is
    ignored. *)
Lemma on_modified_ignored w tr e file_ext current_time size now :
  is_directory e = true ∨ file_ext ∉ project_extensions →
  on_modified w tr e file_ext current_time size now = Ok (w, tr).
Proof.
  unfold on_modified. intros [-> | Hext]; [done |].
  destruct (is_directory e); [done |]. by rewrite bool_decide_eq_false_2.
Qed.

End Debounce.

Section NextAction.
Import Watcher WatcherEvents.
Implicit Types (tr : tracker).

(** X17. The [suggest_next_action] branch answers with exactly one
    suggestion whenever it answers: the fixed hint after [import], the
    fallback for every other step except [rough_cut], and at [rough_cut] the
    fallback when there are no cut data or the suggested length is zero.  It
    fails only at [rough_cut], with the exception of the cut analysis. *)
Theorem next_action_is_one_suggestion fsum str_float tr current_step :
  (current_step ≠ "rough_cut" →
   suggest_next_action fsum str_float tr current_step
   = Ok [if decide (current_step = "import")
         then "Based on your workflow, you typically move to rough_cut next"
         else next_action_fallback])
  ∧ (analyze_cut_patterns fsum tr = Ok None →
     suggest_next_action fsum str_float tr "rough_cut" = Ok [next_action_fallback])
  ∧ (∀ suggestions,
       suggest_next_action fsum str_float tr current_step = Ok suggestions →
       length suggestions = 1%nat)
  ∧ (∀ err,
       suggest_next_action fsum str_float tr current_step = Raise err →
       current_step = "rough_cut" ∧ analyze_cut_patterns fsum tr = Raise err).
Proof.
  unfold suggest_next_action. split; [| split; [| split]].
  - intros Hstep. rewrite decide_False by done. by case_decide.
  - intros ->. by rewrite decide_True by done.
  - intros suggestions. case_decide as Hrough.
    + destruct (analyze_cut_patterns fsum tr) as [[r|]|err]; [| by intros [= <-] | done].
      rewrite bind_Ok. case_decide; by intros [= <-].
    + case_decide; by intros [= <-].
  - intros err. case_decide as Hrough.
    + destruct (analyze_cut_patterns fsum tr) as [[r|]|err']; [| done | by intros [= <-]].
      rewrite bind_Ok. by case_decide.
    + by case_decide.
Qed.

Lemma next_action_is_one_suggestion_witness :
  "color" ≠ "rough_cut"
  ∧ suggest_next_action float_sum (λ _, "1.33") two_session_log "color" = Ok [next_action_fallback].
Proof.
  assert ("color" ≠ "rough_cut") as H by discriminate.
  split; [exact H |].
  exact (proj1 (next_action_is_one_suggestion float_sum (λ _, "1.33") two_session_log "color") H).
Defined.

End NextAction.

Section WorkflowReport.
Import Watcher WatcherEvents.
Implicit Types (tr : tracker) (a : action) (k : string).

(** The steps the histogram counts: the non-empty steps of the workflow
    actions. *)
Let counted_step a : option string :=
  match step_of a with
  | Some step => if decide (step = "") then None else Some step
  | None => None
  end.

Lemma action_loop (l : list action) (acc : dict Z) :
  fold_left (λ workflow_patterns action,
      match step_of action with
      | Some step =>
          if decide (step = "") then workflow_patterns
          else dict_set workflow_patterns step (dict_get workflow_patterns step 0 + 1)
      | None => workflow_patterns
      end) l acc
  = fold_left Resolve.count_cut (omap counted_step l) acc.
Proof.
  revert acc. induction l as [|a l IH]; intros acc; [done |].
  cbn [fold_left omap list_omap]. rewrite IH. unfold counted_step at 2.
  destruct (step_of a) as [step|]; [| done]. by case_decide.
Qed.

Lemma workflow_patterns_eq tr :
  workflow_patterns tr
  = fold_left Resolve.count_cut
      (omap counted_step (sessions (current tr) ≫= actions)) [].
Proof.
  unfold workflow_patterns. generalize (@nil (string * Z)).
  induction (sessions (current tr)) as [|s l IH]; intros acc; [done |].
  cbn [fold_left]. rewrite action_loop, IH, bind_cons, omap_app, fold_left_app. done.
Qed.

Lemma session_statistics_eq tr :
  session_statistics tr
  = Ok (len (sessions (current tr)),
        if decide (sessions (current tr) = []) then 0%Q
        else (inject_Z (sum ((λ s, len (actions s)) <$> sessions (current tr)))
              / inject_Z (len (sessions (current tr))))%Q).
Proof.
  unfold session_statistics.
  destruct (sessions (current tr)) as [|s l] eqn:Hs.
  - by rewrite decide_False by (change (len []) with 0; lia).
  - rewrite decide_True by (unfold len; rewrite length_cons; lia).
    by rewrite truediv_len.
Qed.

Lemma preferred_cuts_total (o : option cut_analysis) : ∃ p, preferred_cuts o = Ok p.
Proof.
  destruct o as [r|]; [| by eexists]. unfold preferred_cuts.
  destruct (cut_type_preferences r) as [|x d] eqn:Hd; [by eexists |].
  unfold ResolveServer.max_by_value. rewrite bind_Ok.
  destruct (dict_lookup _ _); by eexists.
Qed.

(** X18. The session statistics of the [get_editing_insights] branch never
    divide by zero: the average is 0 without sessions and the number of
    actions over the number of sessions otherwise.  Its histogram counts,
    for every non-empty step name, the workflow actions of all sessions
    with that step, and nothing else (project saves and empty step names
    are skipped).  The branch returns a single text item unless the cut
    analysis raises [TypeError], which it passes on. *)
Theorem insights_report_counts_steps tr :
  session_statistics tr
  = Ok (len (sessions (current tr)),
        if decide (sessions (current tr) = []) then 0%Q
        else (inject_Z (sum ((λ s, len (actions s)) <$> sessions (current tr)))
              / inject_Z (len (sessions (current tr))))%Q)
  ∧ (∀ k, k ≠ "" →
       dict_get (workflow_patterns tr) k 0
       = len (filter (λ a, step_of a = Some k) (sessions (current tr) ≫= actions)))
  ∧ dict_lookup (workflow_patterns tr) "" = None
  ∧ (∀ fsum json_analysis json_counts str_float,
       (durations_given (recorded_cuts tr) →
        ∃ report, handle_get_editing_insights fsum json_analysis json_counts str_float tr
                  = Ok [text_content report])
       ∧ (¬ durations_given (recorded_cuts tr) →
          handle_get_editing_insights fsum json_analysis json_counts str_float tr
          = Raise TypeError)).
Proof.
  split; [apply session_statistics_eq |]. split; [| split].
  - intros k Hk. rewrite workflow_patterns_eq, count_cut_fold.
    change (dict_get [] k 0) with 0. rewrite Z.add_0_l. unfold len. f_equal.
    induction (sessions (current tr) ≫= actions) as [|a l IH]; [done |].
    cbn [omap list_omap]. rewrite (filter_cons _ a). unfold counted_step at 1.
    destruct (step_of a) as [step|] eqn:Hstep.
    + destruct (decide (step = "")) as [-> | Hne].
      * rewrite decide_False by congruence. done.
      * rewrite filter_cons. destruct (decide (step = k)) as [-> | Hsk].
        -- rewrite decide_True by done. rewrite !length_cons. by rewrite IH.
        -- rewrite decide_False by congruence. done.
    + rewrite decide_False by done. done.
  - rewrite workflow_patterns_eq. apply dict_lookup_None.
    intros Hin.
    destruct (count_cut_fold_keys (omap counted_step (sessions (current tr) ≫= actions)) [])
      as [_ Hkeys]; [apply NoDup_nil_2 |].
    apply Hkeys in Hin as [Hin | Hin]; [by apply elem_of_nil in Hin |].
    apply list_elem_of_omap in Hin as (a & _ & Ha). unfold counted_step in Ha.
    destruct (step_of a); [| done]. case_decide; [done | congruence].
  - intros fsum json_analysis json_counts str_float.
    unfold handle_get_editing_insights. rewrite session_statistics_eq. split.
    + intros Hd. rewrite analyze_cut_patterns_eq.
      rewrite (decide_True (P := durations_given (recorded_cuts tr))) by done.
      destruct (positive_lengths (recorded_cuts tr)) as [|q l];
        rewrite !bind_Ok; cbn [mbind result_bind];
        match goal with
        | |- context [preferred_cuts ?o] =>
            destruct (preferred_cuts_total o) as [p ->]
        end; by eexists.
    + intros Hd. by rewrite (proj2 (analyze_raises_iff fsum tr) Hd).
Qed.

Lemma insights_report_counts_steps_witness :
  dict_get (workflow_patterns workflow_log) "import" 0 = 2
  ∧ dict_get (workflow_patterns workflow_log) "color" 0 = 1
  ∧ session_statistics workflow_log = Ok (1, 4 # 1).
Proof.
  destruct (insights_report_counts_steps workflow_log) as (Hstats & Hcount & _).
  split; [rewrite Hcount by discriminate; reflexivity |].
  split; [rewrite Hcount by discriminate; reflexivity |].
  rewrite Hstats. reflexivity.
Defined.

End WorkflowReport.

Section ReadOnlyTools.
Import Resolve ResolveServer.
Implicit Types (tr : tracker) (a : app).

(** X19. Tools that only read, and analyses that fail, record nothing.
    [connect_to_resolve], [get_project_info], [get_editing_insights] and
    [suggest_workflow_optimization] return the tracker as it was; so do
    [analyze_current_timeline] and [analyze_cut_patterns] when the host
    gives no timeline, with the text ["Error: "] followed by the host's
    message, and [analyze_cut_patterns] on a timeline without a video clip
    of positive duration, with ["Error: No cuts found"]. *)
Theorem failed_analyses_record_nothing json_dumps tr a now_tool now_action now_session
    arguments :
  (∀ name tr' r,
     name ∈ ["connect_to_resolve"; "get_project_info"; "get_editing_insights";
             "suggest_workflow_optimization"] →
     handle_call_tool json_dumps tr a now_tool now_action now_session name arguments
     = Ok (tr', r) →
     tr' = tr)
  ∧ (∀ name e,
       name ∈ ["analyze_current_timeline"; "analyze_cut_patterns"] →
       analyze_current_timeline a = TimelineError e →
       handle_call_tool json_dumps tr a now_tool now_action now_session name arguments
       = Ok (tr, [text_content ("Error: " +:+ e)]))
  ∧ (∀ t,
       analyze_current_timeline a = Timeline t →
       positive_durations (video_clips t) = [] →
       handle_call_tool json_dumps tr a now_tool now_action now_session
         "analyze_cut_patterns" arguments
       = Ok (tr, [text_content "Error: No cuts found"])).
Proof.
  split; [| split].
  - intros name tr' r Hname. unfold handle_call_tool.
    repeat (apply elem_of_cons in Hname as [-> | Hname]);
      [| | | | by apply elem_of_nil in Hname];
      repeat (rewrite decide_False by done); rewrite decide_True by done.
    + by intros [= <- _].
    + by intros [= <- _].
    + destruct (handle_get_editing_insights tr a); [| done]. by intros [= <- _].
    + destruct (handle_suggest_workflow_optimization tr _); [| done]. by intros [= <- _].
  - intros name e Hname Herr. unfold handle_call_tool.
    repeat (apply elem_of_cons in Hname as [-> | Hname]);
      [| | by apply elem_of_nil in Hname];
      repeat (rewrite decide_False by done); rewrite decide_True by done.
    + unfold handle_analyze_current_timeline. by rewrite Herr.
    + unfold handle_analyze_cut_patterns. by rewrite Herr.
  - intros t Ht Hnone. unfold handle_call_tool.
    repeat (rewrite decide_False by done). rewrite decide_True by done.
    unfold handle_analyze_cut_patterns. rewrite Ht, analyze_timeline, Hnone. done.
Qed.

Lemma failed_analyses_record_nothing_witness :
  analyze_current_timeline (Running "18.6" None) = TimelineError "No project loaded"
  ∧ handle_call_tool (λ _, "{}") busy_tracker (Running "18.6" None)
      "10:00" "10:00" "10:00" "analyze_cut_patterns" []
    = Ok (busy_tracker, [text_content "Error: No project loaded"]).
Proof.
  split; [reflexivity |].
  apply (proj1 (proj2 (failed_analyses_record_nothing (λ _, "{}") busy_tracker
                         (Running "18.6" None) "10:00" "10:00" "10:00" []))
           "analyze_cut_patterns" "No project loaded").
  - apply list_elem_of_further, list_elem_of_here.
  - reflexivity.
Defined.

End ReadOnlyTools.
